(** * DateTensor: a shallow embedding of
      [tf_quant_finance/experimental/dates/date_tensor.py]

    The module under study represents a batch of calendar dates as four
    parallel int32 tensors (ordinals, years, months, days) and defines
    arithmetic with periods, comparisons and a family of factories.

    Modelling conventions.
    - An int32 value is a [Z]; every arithmetic operator of the source is
      written with its two's-complement wrap-around ([wrap32]).
    - A tensor is the list of its elements (rank at most one; a scalar is the
      one-element tensor, which is exactly how it broadcasts).  Binary
      operators broadcast as TensorFlow does and raise on incompatible
      shapes.
    - Python exceptions are values of [exn]; code that may raise lives in the
      error monad [Exc].  Assertions of [tf.debugging] are evaluated eagerly:
      a violated assertion raises at the call that built it.
    - The sibling modules [date_utils], [periods] and [constants] are not part
      of the sources; what is used of them is either modelled from their
      documented contract or taken as a parameter of the development. *)

From Stdlib Require Import ZArith List Bool String Lia Arith.
From Equations Require Import Equations.
Import ListNotations.

Local Open Scope string_scope.
Local Open Scope Z_scope.

(** ** int32 arithmetic *)

Module Int32.

Definition modulus : Z := 2 ^ 32.
Definition min_int : Z := - 2 ^ 31.
Definition max_int : Z := 2 ^ 31 - 1.

(** Reduction of an integer to its two's-complement int32 value. *)
Definition wrap32 (z : Z) : Z := (z + 2 ^ 31) mod modulus - 2 ^ 31.

Definition in_range (z : Z) : Prop := min_int <= z <= max_int.

Definition add (a b : Z) : Z := wrap32 (a + b).
Definition sub (a b : Z) : Z := wrap32 (a - b).
Definition mul (a b : Z) : Z := wrap32 (a * b).
Definition neg (a : Z) : Z := wrap32 (- a).

(** [tf.math.floordiv] and [tf.math.floormod] on int32 (the operators [//]
    and [%] of a tensor): floor division, remainder with the sign of the
    divisor.  No overflow is possible for the divisors used here. *)
Definition floordiv (a b : Z) : Z := a / b.
Definition floormod (a b : Z) : Z := a mod b.

End Int32.

(** ** Exceptions and the error monad *)

(** The assertions a factory can attach to its inputs. *)
Inductive Assertion : Type :=
| YearPositive
| MonthAtLeastJanuary
| MonthAtMostDecember
| DayPositive
| DayAtMostMonthLength
| OrdinalPositive.

(** Exceptions.  The first three are [tf.errors.InvalidArgumentError]s of the
    TensorFlow runtime: a failed [tf.debugging] assertion, operands whose
    shapes do not broadcast, and a [tf.gather] index outside the table. *)
Inductive exn : Type :=
| AssertionFailed (c : Assertion)
| IncompatibleShapes
| IndexOutOfRange
| ValueError (msg : string)
| TypeError (msg : string)
| AttributeError (attr : string)
| IndexError.

Inductive Exc (A : Type) : Type :=
| Ok (a : A)
| Raise (e : exn).

Arguments Ok {A} a.
Arguments Raise {A} e.

Definition bind {A B : Type} (m : Exc A) (k : A -> Exc B) : Exc B :=
  match m with
  | Ok a => k a
  | Raise e => Raise e
  end.

Declare Scope exc_scope.
Delimit Scope exc_scope with exc.
Notation "x <- m ;; k" := (bind m (fun x => k))
  (at level 61, m at next level, right associativity) : exc_scope.
Notation "m ;;; k" := (bind m (fun _ => k))
  (at level 61, right associativity) : exc_scope.
Local Open Scope exc_scope.

Definition is_ok {A : Type} (m : Exc A) : bool :=
  match m with Ok _ => true | Raise _ => false end.

(** A validation error is a failed assertion. *)
Definition is_validation_error {A : Type} (m : Exc A) : bool :=
  match m with Raise (AssertionFailed _) => true | _ => false end.

Fixpoint mapM {A B : Type} (f : A -> Exc B) (l : list A) : Exc (list B) :=
  match l with
  | [] => Ok []
  | x :: l' => y <- f x ;; ys <- mapM f l' ;; Ok (y :: ys)
  end.

(** ** Tensors *)

Module Tensor.

Definition t (A : Type) : Type := list A.

Definition size {A : Type} (a : t A) : nat := List.length a.

(** Unary elementwise operator. *)
Definition map {A B : Type} (f : A -> B) (a : t A) : t B := List.map f a.

Fixpoint zip {A B C : Type} (f : A -> B -> C) (a : list A) (b : list B)
  : list C :=
  match a, b with
  | x :: a', y :: b' => f x y :: zip f a' b'
  | _, _ => []
  end.

(** Binary elementwise operator with broadcasting: a one-element operand is
    repeated along the other one; otherwise the sizes must agree. *)
Definition map2 {A B C : Type} (f : A -> B -> C) (a : t A) (b : t B)
  : Exc (t C) :=
  match a, b with
  | [x], _ => Ok (List.map (f x) b)
  | _, [y] => Ok (List.map (fun x => f x y) a)
  | _, _ =>
      if Nat.eqb (List.length a) (List.length b)
      then Ok (zip f a b) else Raise IncompatibleShapes
  end.

(** [tf.broadcast_to a shape], the shape being that of [like]. *)
Definition broadcast_to {A B : Type} (a : t A) (like : t B) : Exc (t A) :=
  match a with
  | [x] => Ok (List.map (fun _ => x) like)
  | _ =>
      if Nat.eqb (List.length a) (List.length like)
      then Ok a else Raise IncompatibleShapes
  end.

(** [tf.gather table indices] on a rank-one table: an index outside the
    table is an error. *)
Definition gather (table : list Z) (indices : t Z) : Exc (t Z) :=
  mapM (fun i =>
          if (0 <=? i) && (i <? Z.of_nat (List.length table))
          then Ok (nth (Z.to_nat i) table 0)
          else Raise IndexOutOfRange) indices.

(** The element a tensor contributes at position [i] of a broadcast
    operation: a one-element tensor contributes its element everywhere. *)
Definition bnth {A : Type} (a : t A) (i : nat) : option A :=
  match a with
  | [x] => Some x
  | _ => nth_error a i
  end.

(** Two sizes broadcast against each other, and the size of the result. *)
Definition compatible_sizes (n m : nat) : bool :=
  Nat.eqb n 1 || Nat.eqb m 1 || Nat.eqb n m.

Definition broadcast_size (n m : nat) : nat :=
  if Nat.eqb n 1 then m else n.

Definition compatible {A B : Type} (a : t A) (b : t B) : bool :=
  compatible_sizes (size a) (size b).

(** [tf.debugging.assert_positive]. *)
Definition assert_positive (c : Assertion) (a : t Z) : Exc unit :=
  if forallb (fun x => 0 <? x) a then Ok tt else Raise (AssertionFailed c).

(** [tf.debugging.assert_greater_equal] and [assert_less_equal]: the
    operands are broadcast, then every pair must satisfy the relation. *)
Definition assert_greater_equal (c : Assertion) (a b : t Z) : Exc unit :=
  ok <- map2 Z.geb a b ;;
  if forallb (fun x => x) ok then Ok tt else Raise (AssertionFailed c).

Definition assert_less_equal (c : Assertion) (a b : t Z) : Exc unit :=
  ok <- map2 Z.leb a b ;;
  if forallb (fun x => x) ok then Ok tt else Raise (AssertionFailed c).

End Tensor.

(** ** Constants *)

(** Days in each month.  A sentinel value of 0 is added to the top of the
    table so indexing is easier; non-leap years come first, leap years
    second. *)
Definition _DAYS_IN_MONTHS : list Z :=
  [ 0;
    31; 28; 31; 30; 31; 30; 31; 31; 30; 31; 30; 31;
    31; 29; 31; 30; 31; 30; 31; 31; 30; 31; 30; 31 ].

Definition _ORDINAL_OF_1_1_1970 : Z := 719163.

(** Modelled from the spec: the module [constants] is not part of the
    sources.  [Month] maps January..December to 1..12 and [PeriodType] is the
    closed enumeration DAY, WEEK, MONTH, YEAR. *)
Module constants.

Definition JANUARY : Z := 1.
Definition DECEMBER : Z := 12.

Inductive PeriodType : Type := DAY | WEEK | MONTH | YEAR.

End constants.
Import constants.

(** Modelled from the spec: the module [periods] is not part of the sources.
    A period tensor is a quantity tensor with one type tag for all its
    elements; the constructor and the two accessors are all that is used. *)
Record PeriodTensor : Type := mkPeriodTensor {
  quantity : Tensor.t Z;
  period_type : PeriodType
}.

(** ** The calendar *)

(** Modelled from the spec: [date_utils.is_leap_year] is not part of the
    sources.  The standard Gregorian rule: divisible by 4, and not by 100
    unless also by 400. *)
Definition leap_year (year : Z) : bool :=
  (year mod 4 =? 0) && (negb (year mod 100 =? 0) || (year mod 400 =? 0)).

Definition is_leap_year (years : Tensor.t Z) : Tensor.t bool :=
  Tensor.map leap_year years.

(** The length of a month, written by cases (what the table encodes). *)
Definition month_length (year month : Z) : Z :=
  if month =? 2 then (if leap_year year then 29 else 28)
  else if (month =? 4) || (month =? 6) || (month =? 9) || (month =? 11)
       then 30 else 31.

(** The table lookup of the source, on one element. *)
Definition days_in_month (year month : Z) : Z :=
  nth (Z.to_nat (month + 12 * Z.b2z (leap_year year))) _DAYS_IN_MONTHS 0.

(** Modelled from the spec: the conversions of [date_utils] between
    (year, month, day) and ordinals are not part of the sources.  This is the
    proleptic Gregorian calendar with ordinal 1 on 1 January of year 1; it is
    used to run the operations on concrete dates, the development itself
    being parametric in the two conversions. *)
Module Gregorian.

Definition ymd_to_ordinal (year month day : Z) : Z :=
  let y := if month <=? 2 then year - 1 else year in
  let era := y / 400 in
  let yoe := y - era * 400 in
  let mp := if 2 <? month then month - 3 else month + 9 in
  let doy := (153 * mp + 2) / 5 + day - 1 in
  let doe := yoe * 365 + yoe / 4 - yoe / 100 + doy in
  era * 146097 + doe - 305.

Definition ordinal_to_ymd (ordinal : Z) : Z * Z * Z :=
  let z := ordinal + 305 in
  let era := z / 146097 in
  let doe := z - era * 146097 in
  let yoe := (doe - doe / 1460 + doe / 36524 - doe / 146096) / 365 in
  let doy := doe - (365 * yoe + yoe / 4 - yoe / 100) in
  let mp := (5 * doy + 2) / 153 in
  let d := doy - (153 * mp + 2) / 5 + 1 in
  let m := if mp <? 10 then mp + 3 else mp - 9 in
  let y := yoe + era * 400 in
  (if m <=? 2 then y + 1 else y, m, d).

End Gregorian.

(** ** The date tensor *)

(** The internal representation is all four int32 tensors. *)
Record DateTensor : Type := mkDateTensor {
  _ordinals : Tensor.t Z;
  _years : Tensor.t Z;
  _months : Tensor.t Z;
  _days : Tensor.t Z
}.

Definition day (self : DateTensor) : Tensor.t Z := _days self.
Definition month (self : DateTensor) : Tensor.t Z := _months self.
Definition year (self : DateTensor) : Tensor.t Z := _years self.
Definition ordinal (self : DateTensor) : Tensor.t Z := _ordinals self.

Definition day_of_week (self : DateTensor) : Tensor.t Z :=
  Tensor.map (fun o => Int32.floormod (Int32.sub o 1) 7) (_ordinals self).

(** The nesting depth of [__add__]: a WEEK period is rewritten as a DAY
    period and added again. *)
Definition period_rank (p : PeriodTensor) : nat :=
  match period_type p with WEEK => 1%nat | _ => 0%nat end.

(** ** Inputs of the polymorphic converter *)

(** Element types of a numpy array that matter to the converter. *)
Inductive np_dtype : Type :=
| np_int64          (* plain integers *)
| np_datetime64_D.  (* calendar dates, counted in days from 1 January 1970 *)

(** The Python values the converter is given.  An object is the list of its
    data attributes ([datetime.date(2020, 1, 31)] has year, month and day);
    [PySeq] is a list or a tuple, the instances of [collections.Sequence];
    [PyMethod] is a bound method, what an accessor of a date tensor is
    before it is called. *)
#[local] Unset Elimination Schemes.
Inductive PyValue : Type :=
| PyNone
| PyInt (z : Z)
| PyObject (attrs : list (string * PyValue))
| PySeq (items : list PyValue)
| PyTensor (t : Tensor.t Z)
| PyNdArray (dtype : np_dtype) (data : list Z)
| PyDateTensor (d : DateTensor)
| PyMethod (name : string).
#[local] Set Elimination Schemes.

Fixpoint lookup_attr (name : string) (attrs : list (string * PyValue))
  : option PyValue :=
  match attrs with
  | [] => None
  | (k, v) :: rest => if String.eqb k name then Some v else lookup_attr name rest
  end.

(** The accessor methods of [DateTensor]. *)
Definition date_tensor_methods : list string :=
  ["day"; "day_of_week"; "month"; "year"; "ordinal"].

Definition is_date_tensor_method (name : string) : bool :=
  existsb (String.eqb name) date_tensor_methods.

(** [hasattr(v, name)]: an object has its data attributes, a date tensor its
    methods. *)
Definition hasattr (v : PyValue) (name : string) : bool :=
  match v with
  | PyObject attrs =>
      match lookup_attr name attrs with Some _ => true | None => false end
  | PyDateTensor _ => is_date_tensor_method name
  | _ => false
  end.

(** [v.name]. *)
Definition getattr (v : PyValue) (name : string) : Exc PyValue :=
  match v with
  | PyObject attrs =>
      match lookup_attr name attrs with
      | Some x => Ok x
      | None => Raise (AttributeError name)
      end
  | PyDateTensor _ =>
      if is_date_tensor_method name then Ok (PyMethod name)
      else Raise (AttributeError name)
  | _ => Raise (AttributeError name)
  end.

(** [isinstance(v, collections.Sequence)]. *)
Definition is_sequence (v : PyValue) : bool :=
  match v with PySeq _ => true | _ => false end.

(** [v[i]] for a literal index [i]. *)
Definition getitem (v : PyValue) (i : nat) : Exc PyValue :=
  match v with
  | PySeq items =>
      match nth_error items i with
      | Some x => Ok x
      | None => Raise IndexError
      end
  | PyTensor t =>
      match nth_error t i with
      | Some x => Ok (PyTensor [x])
      | None => Raise IndexOutOfRange
      end
  | _ => Raise (TypeError "object is not subscriptable")
  end.

(** [text + e] where [e] is an exception object: Python refuses to
    concatenate a [str] and an exception. *)
Definition str_concat_exn (text : string) (e : exn) : Exc string :=
  Raise (TypeError "can only concatenate str (not ValueError) to str").

(** [ndarray.astype('datetime64[D]')]: integers are read as day counts from
    the numpy epoch; dates at day granularity are unchanged. *)
Definition astype_datetime64_D (dtype : np_dtype) (data : list Z) : list Z :=
  match dtype with
  | np_int64 => data
  | np_datetime64_D => data
  end.

(** A reference model of [tf.convert_to_tensor(v, dtype=tf.int32)] on the
    values above, used to run the converter on concrete inputs: integers in
    range and flat sequences of them convert, tensors are returned as they
    are, anything else is refused with a [ValueError]. *)
Module TfRuntime.

Definition int32_of (v : PyValue) : Exc Z :=
  match v with
  | PyInt z =>
      if (Int32.min_int <=? z) && (z <=? Int32.max_int) then Ok z
      else Raise (ValueError "out of range integer")
  | _ => Raise (ValueError "unsupported element")
  end.

Definition convert_to_tensor (v : PyValue) : Exc (Tensor.t Z) :=
  match v with
  | PyInt _ => z <- int32_of v ;; Ok [z]
  | PyTensor t => Ok t
  | PySeq items => mapM int32_of items
  | PyNdArray _ data => Ok (List.map Int32.wrap32 data)
  | _ => Raise (ValueError "Attempt to convert a value with an unsupported type to a Tensor")
  end.

End TfRuntime.

(** ** Operations *)

Section DateTensorOps.

(** The per-element conversions of [date_utils], whose code is not part of
    the sources, and the coercion of the TensorFlow runtime. *)
Variable ymd_to_ordinal : Z -> Z -> Z -> Z.
Variable ordinal_to_ymd : Z -> Z * Z * Z.
Variable tf_convert_to_tensor : PyValue -> Exc (Tensor.t Z).

(** Modelled from the spec: [date_utils.year_month_day_to_ordinal] and
    [date_utils.ordinal_to_year_month_day] are not part of the sources;
    they apply the conversion to each element, broadcasting, and keep the
    shape. *)
Definition year_month_day_to_ordinal (year month day : Tensor.t Z)
  : Exc (Tensor.t Z) :=
  ym <- Tensor.map2 pair year month ;;
  Tensor.map2 (fun ym d => ymd_to_ordinal (fst ym) (snd ym) d) ym day.

Definition ordinal_to_year_month_day (ordinals : Tensor.t Z)
  : Tensor.t Z * Tensor.t Z * Tensor.t Z :=
  let ymd := Tensor.map ordinal_to_ymd ordinals in
  (Tensor.map (fun t => fst (fst t)) ymd,
   Tensor.map (fun t => snd (fst t)) ymd,
   Tensor.map snd ymd).

(** [from_ordinals(ordinals, validate=True)]. *)
Definition from_ordinals (ordinals : Tensor.t Z) (validate : bool)
  : Exc DateTensor :=
  (if validate
   then Tensor.assert_positive OrdinalPositive ordinals
   else Ok tt) ;;;
  let '(years, months, days) := ordinal_to_year_month_day ordinals in
  Ok (mkDateTensor ordinals years months days).

(** The leap-year-aware month length of each element:
    [tf.gather(days_in_months, month + 12 * cast(is_leap, int32))]. *)
Definition max_days_of (year month : Tensor.t Z) : Exc (Tensor.t Z) :=
  let is_leap := is_leap_year year in
  index <- Tensor.map2 Int32.add month
             (Tensor.map (Int32.mul 12) (Tensor.map Z.b2z is_leap)) ;;
  Tensor.gather _DAYS_IN_MONTHS index.

(** [from_year_month_day(year, month, day, validate=True)], on tensors. *)
Definition from_year_month_day (year month day : Tensor.t Z)
  (validate : bool) : Exc DateTensor :=
  (if validate
   then
     Tensor.assert_positive YearPositive year ;;;
     Tensor.assert_greater_equal MonthAtLeastJanuary month
       [constants.JANUARY] ;;;
     Tensor.assert_less_equal MonthAtMostDecember month
       [constants.DECEMBER] ;;;
     Tensor.assert_positive DayPositive day ;;;
     max_days <- max_days_of year month ;;
     Tensor.assert_less_equal DayAtMostMonthLength day max_days
   else Ok tt) ;;;
  ordinal <- year_month_day_to_ordinal year month day ;;
  Ok (mkDateTensor ordinal year month day).

(** The local function [adjust_day] of [__add__]. *)
Definition adjust_day (year month day : Tensor.t Z) : Exc (Tensor.t Z) :=
  max_days <- max_days_of year month ;;
  Tensor.map2 Z.min day max_days.

(** [DateTensor.__add__]. *)
Equations __add__ (self : DateTensor) (period_tensor : PeriodTensor)
  : Exc DateTensor by wf (period_rank period_tensor) lt :=
__add__ self (mkPeriodTensor q DAY) :=
  ordinals <- Tensor.map2 Int32.add (_ordinals self) q ;;
  from_ordinals ordinals true;
__add__ self (mkPeriodTensor q WEEK) :=
  __add__ self
    (mkPeriodTensor (Tensor.map (fun n => Int32.mul n 7) q) DAY);
__add__ self (mkPeriodTensor q MONTH) :=
  m <- Tensor.map2 Int32.add
         (Tensor.map (fun x => Int32.sub x 1) (_months self)) q ;;
  y <- Tensor.map2 Int32.add (_years self)
         (Tensor.map (fun x => Int32.floordiv x 12) m) ;;
  let m := Tensor.map (fun x => Int32.add (Int32.floormod x 12) 1) m in
  d <- adjust_day y m (_days self) ;;
  from_year_month_day y m d false;
__add__ self (mkPeriodTensor q YEAR) :=
  y <- Tensor.map2 Int32.add (_years self) q ;;
  m <- Tensor.broadcast_to (_months self) y ;;
  d <- adjust_day y m (_days self) ;;
  from_year_month_day y m d false.

(** [DateTensor.__sub__]. *)
Definition __sub__ (self : DateTensor) (period_tensor : PeriodTensor)
  : Exc DateTensor :=
  __add__ self
    (mkPeriodTensor (Tensor.map Int32.neg (quantity period_tensor))
       (period_type period_tensor)).

Definition days_until (self target : DateTensor) : Exc (Tensor.t Z) :=
  Tensor.map2 Int32.sub (ordinal target) (_ordinals self).

Definition period_length_in_days (self : DateTensor) (p : PeriodTensor)
  : Exc (Tensor.t Z) :=
  r <- __add__ self p ;;
  Tensor.map2 Int32.sub (ordinal r) (_ordinals self).

(** Comparisons: each one compares the ordinals of the two operands. *)
Definition __eq__ (self other : DateTensor) : Exc (Tensor.t bool) :=
  Tensor.map2 Z.eqb (_ordinals self) (ordinal other).

Definition __ne__ (self other : DateTensor) : Exc (Tensor.t bool) :=
  Tensor.map2 (fun a b => negb (Z.eqb a b)) (_ordinals self) (ordinal other).

Definition __gt__ (self other : DateTensor) : Exc (Tensor.t bool) :=
  Tensor.map2 Z.gtb (_ordinals self) (ordinal other).

Definition __ge__ (self other : DateTensor) : Exc (Tensor.t bool) :=
  Tensor.map2 Z.geb (_ordinals self) (ordinal other).

Definition __lt__ (self other : DateTensor) : Exc (Tensor.t bool) :=
  Tensor.map2 Z.ltb (_ordinals self) (ordinal other).

Definition __le__ (self other : DateTensor) : Exc (Tensor.t bool) :=
  Tensor.map2 Z.leb (_ordinals self) (ordinal other).

(** [from_year_month_day] called on Python values: its first three lines
    coerce the arguments to int32 tensors. *)
Definition from_year_month_day_py (year month day : PyValue)
  (validate : bool) : Exc DateTensor :=
  year <- tf_convert_to_tensor year ;;
  month <- tf_convert_to_tensor month ;;
  day <- tf_convert_to_tensor day ;;
  from_year_month_day year month day validate.

(** [from_datetimes(datetimes)]: [tf.constant] of the three comprehensions
    over the attributes, then the year/month/day factory, unvalidated. *)
Definition from_datetimes (datetimes : list PyValue) : Exc DateTensor :=
  ys <- mapM (fun dt => getattr dt "year") datetimes ;;
  years <- tf_convert_to_tensor (PySeq ys) ;;
  ms <- mapM (fun dt => getattr dt "month") datetimes ;;
  months <- tf_convert_to_tensor (PySeq ms) ;;
  ds <- mapM (fun dt => getattr dt "day") datetimes ;;
  days <- tf_convert_to_tensor (PySeq ds) ;;
  from_year_month_day years months days false.

(** [from_np_datetimes(np_datetimes)]. *)
Definition from_np_datetimes (np_datetimes : list Z) : Exc DateTensor :=
  let ordinals :=
    Tensor.map (fun x => Int32.add x _ORDINAL_OF_1_1_1970)
      (List.map Int32.wrap32 np_datetimes) in
  from_ordinals ordinals false.

(** [from_tuples(year_month_day_tuples, validate=True)]. *)
Definition from_tuples (year_month_day_tuples : list PyValue)
  (validate : bool) : Exc DateTensor :=
  ymds <- mapM (fun t =>
                  y <- getitem t 0 ;;
                  m <- getitem t 1 ;;
                  d <- getitem t 2 ;;
                  Ok (y, m, d)) year_month_day_tuples ;;
  years <- tf_convert_to_tensor (PySeq (List.map (fun t => fst (fst t)) ymds)) ;;
  months <- tf_convert_to_tensor (PySeq (List.map (fun t => snd (fst t)) ymds)) ;;
  days <- tf_convert_to_tensor (PySeq (List.map snd ymds)) ;;
  from_year_month_day years months days validate.

(** The last lines of [convert_to_date_tensor]: the try block and its
    handler, which catches [ValueError] only. *)
Definition last_ditch (date_inputs : PyValue) : Exc DateTensor :=
  match (as_ordinals <- tf_convert_to_tensor date_inputs ;;
         from_ordinals as_ordinals true) with
  | Raise (ValueError e) =>
      msg <- str_concat_exn
               "Failed to convert inputs to DateTensor. Unrecognized format. Error: "
               (ValueError e) ;;
      Raise (ValueError msg)
  | r => r
  end.

(** [convert_to_date_tensor(date_inputs)]. *)
Definition convert_to_date_tensor (date_inputs : PyValue) : Exc DateTensor :=
  match date_inputs with
  | PyDateTensor d => Ok d
  | PyNdArray dtype data =>
      from_np_datetimes (astype_datetime64_D dtype data)
  | PyTensor t => from_ordinals t true
  | PySeq items =>
      match items with
      | [] => from_ordinals [] true
      | test_element :: _ =>
          if hasattr test_element "year" then from_datetimes items
          else if is_sequence test_element then from_tuples items true
          else if Nat.eqb (List.length items) 3 then
            y <- getitem date_inputs 0 ;;
            m <- getitem date_inputs 1 ;;
            d <- getitem date_inputs 2 ;;
            from_year_month_day_py y m d true
          else last_ditch date_inputs
      end
  | _ => last_ditch date_inputs
  end.

End DateTensorOps.

(** ** The month arithmetic in the words of the specification *)

(** Adding [quantity] months to the date (year, month, day), on unbounded
    integers: the zero-based total month count, the floor quotient and
    remainder by 12, and the day clamped by the table entry at
    [m' + 12 * is_leap_year(y)]. *)
Definition add_months_spec (year month day quantity : Z) : Z * Z * Z :=
  let m := month - 1 + quantity in
  let y := year + m / 12 in
  let m' := m mod 12 + 1 in
  (y, m',
   Z.min day
     (nth (Z.to_nat (m' + 12 * Z.b2z (leap_year y))) _DAYS_IN_MONTHS 0)).

(** The same computation on int32 values, sums reduced as the tensors do. *)
Definition add_months_int32 (year month day quantity : Z) : Z * Z * Z :=
  let m := Int32.wrap32 (month - 1 + quantity) in
  let y := Int32.wrap32 (year + m / 12) in
  let m' := m mod 12 + 1 in
  (y, m', Z.min day (days_in_month y m')).

(** A date tensor whose four tensors have one shape. *)
Definition well_shaped (d : DateTensor) : Prop :=
  Tensor.size (_years d) = Tensor.size (_ordinals d) /\
  Tensor.size (_months d) = Tensor.size (_ordinals d) /\
  Tensor.size (_days d) = Tensor.size (_ordinals d).

(** The three arguments of the year/month/day factory broadcast against each
    other. *)
Definition broadcastable3 (year month day : Tensor.t Z) : bool :=
  Tensor.compatible year month &&
  Tensor.compatible_sizes
    (Tensor.broadcast_size (Tensor.size year) (Tensor.size month))
    (Tensor.size day).

(** What the validating factory asserts of its arguments: years positive,
    months within January..December, days positive, and every day at most
    the table entry of its month and year. *)
Definition valid_dates (year month day : Tensor.t Z) : Prop :=
  Forall (fun y => 0 < y) year /\
  Forall (fun m => constants.JANUARY <= m <= constants.DECEMBER) month /\
  Forall (fun d => 0 < d) day /\
  (forall i y m d,
      Tensor.bnth year i = Some y -> Tensor.bnth month i = Some m ->
      Tensor.bnth day i = Some d -> d <= days_in_month y m).

(** ** Classes of converter inputs *)

(** A raw numeric array or scalar, with no date semantics: a tensor, a numpy
    array of plain integers, a Python integer. *)
Definition raw_numeric (v : PyValue) : bool :=
  match v with
  | PyTensor _ | PyNdArray np_int64 _ | PyInt _ => true
  | _ => false
  end.

(** The numbers such an input holds. *)
Definition raw_values (v : PyValue) : Tensor.t Z :=
  match v with
  | PyTensor t => t
  | PyNdArray _ data => data
  | PyInt z => [z]
  | _ => []
  end.

(** The inputs no branch of the converter recognises: they reach the last
    lines of [convert_to_date_tensor]. *)
Definition unrecognized (v : PyValue) : bool :=
  match v with
  | PyDateTensor _ | PyNdArray _ _ | PyTensor _ => false
  | PySeq [] => false
  | PySeq (test_element :: rest) =>
      negb (hasattr test_element "year") &&
      negb (is_sequence test_element) &&
      negb (Nat.eqb (List.length rest) 2)
  | _ => true
  end.

(** ** The operations on the Gregorian calendar *)

(** The operations with the calendar and the coercion modelled above: they
    run on concrete dates. *)
Module Concrete.

Definition from_ymd := from_year_month_day Gregorian.ymd_to_ordinal.
Definition from_ord := from_ordinals Gregorian.ordinal_to_ymd.
Definition add := __add__ Gregorian.ymd_to_ordinal Gregorian.ordinal_to_ymd.
Definition sub := __sub__ Gregorian.ymd_to_ordinal Gregorian.ordinal_to_ymd.
Definition convert :=
  convert_to_date_tensor Gregorian.ymd_to_ordinal Gregorian.ordinal_to_ymd
    TfRuntime.convert_to_tensor.

(** [datetime.date(year, month, day)]. *)
Definition date (year month day : Z) : PyValue :=
  PyObject [("year", PyInt year); ("month", PyInt month);
            ("day", PyInt day)].

End Concrete.

(** ** Dates as Python values *)

(** A date-like object with the three data attributes, and the same date as
    a (year, month, day) tuple. *)
Definition as_object (t : Z * Z * Z) : PyValue :=
  PyObject [("year", PyInt (fst (fst t))); ("month", PyInt (snd (fst t)));
            ("day", PyInt (snd t))].

Definition as_tuple (t : Z * Z * Z) : PyValue :=
  PySeq [PyInt (fst (fst t)); PyInt (snd (fst t)); PyInt (snd t)].

(** A Python list of integers. *)
Definition int_list (l : list Z) : PyValue := PySeq (List.map PyInt l).

(** Reading the three items of one tuple, as the loop of [from_tuples]
    does. *)
Definition read_triple (t : PyValue) : Exc (PyValue * PyValue * PyValue) :=
  y <- getitem t 0 ;; m <- getitem t 1 ;; d <- getitem t 2 ;; Ok (y, m, d).

(** ** The hooks of the tensor wrapper *)

(** [DateTensor._apply_op(op_fn)]: the operation is applied to the four
    tensors, ordinals first, and a date tensor is made of the results. *)
Definition _apply_op (self : DateTensor)
  (op_fn : Tensor.t Z -> Exc (Tensor.t Z)) : Exc DateTensor :=
  o <- op_fn (_ordinals self) ;;
  y <- op_fn (_years self) ;;
  m <- op_fn (_months self) ;;
  d <- op_fn (_days self) ;;
  Ok (mkDateTensor o y m d).

(** [DateTensor._apply_sequence_to_tensor_op(op_fn, tensor_wrappers)]: the
    operation is applied to the list of the ordinals, then of the years, of
    the months and of the days of the date tensors. *)
Definition _apply_sequence_to_tensor_op
  (op_fn : list (Tensor.t Z) -> Exc (Tensor.t Z))
  (tensor_wrappers : list DateTensor) : Exc DateTensor :=
  o <- op_fn (List.map ordinal tensor_wrappers) ;;
  y <- op_fn (List.map year tensor_wrappers) ;;
  m <- op_fn (List.map month tensor_wrappers) ;;
  d <- op_fn (List.map day tensor_wrappers) ;;
  Ok (mkDateTensor o y m d).

(** The four tensors of a date tensor are in step: they have one shape and
    at every position the ordinal is the one of the year, month and day
    there. *)
Definition in_step (to_ordinal : Z -> Z -> Z -> Z) (d : DateTensor) : Prop :=
  exists l : list (Z * Z * Z),
    _years d = List.map (fun t => fst (fst t)) l /\
    _months d = List.map (fun t => snd (fst t)) l /\
    _days d = List.map snd l /\
    _ordinals d =
    List.map (fun t => to_ordinal (fst (fst t)) (snd (fst t)) (snd t)) l.

(** An operation on tensors of size [n] that picks its result by position:
    reversal, slicing, masking, gathering, tiling. *)
Definition positional (n : nat) (op_fn : Tensor.t Z -> Exc (Tensor.t Z))
  : Prop :=
  exists sel : list nat,
    Forall (fun i => (i < n)%nat) sel /\
    forall t, Tensor.size t = n ->
              op_fn t = Ok (List.map (fun i => nth i t 0) sel).

(** An operation on lists of tensors of the given sizes that picks its
    result by position in their concatenation: concatenation, stacking. *)
Definition positional_on_sequence (sizes : list nat)
  (op_fn : list (Tensor.t Z) -> Exc (Tensor.t Z)) : Prop :=
  exists sel : list nat,
    Forall (fun i => (i < list_sum sizes)%nat) sel /\
    forall ts, List.map Tensor.size ts = sizes ->
               op_fn ts = Ok (List.map (fun i => nth i (List.concat ts) 0) sel).

(** * Properties *)

(** ** int32 facts *)

Lemma wrap32_in_range (z : Z) : Int32.in_range (Int32.wrap32 z).
Proof.
  unfold Int32.in_range, Int32.wrap32, Int32.min_int, Int32.max_int,
    Int32.modulus.
  pose proof (Z.mod_pos_bound (z + 2 ^ 31) (2 ^ 32) ltac:(lia)). lia.
Qed.

Lemma wrap32_id (z : Z) : Int32.in_range z -> Int32.wrap32 z = z.
Proof.
  unfold Int32.in_range, Int32.wrap32, Int32.min_int, Int32.max_int,
    Int32.modulus.
  intros H. rewrite Z.mod_small by lia. lia.
Qed.

(** ** The error monad *)

Lemma bind_ok {A B : Type} (m : Exc A) (k : A -> Exc B) (b : B) :
  bind m k = Ok b -> exists a, m = Ok a /\ k a = Ok b.
Proof. destruct m as [a|e]; simpl; intros H; [eauto | discriminate]. Qed.

Lemma bind_raise {A B : Type} (m : Exc A) (k : A -> Exc B) (e : exn) :
  bind m k = Raise e -> m = Raise e \/ exists a, m = Ok a /\ k a = Raise e.
Proof. destruct m as [a|e']; simpl; intros H; [eauto | left; congruence]. Qed.

Lemma Ok_inj {A : Type} (a b : A) : Ok a = Ok b -> a = b.
Proof. congruence. Qed.

(** Replace the result of a successful computation by its value. *)
Ltac ok_inv H := apply Ok_inj in H; subst.

(** ** Broadcasting *)

Lemma nth_error_zip {A B C : Type} (f : A -> B -> C) (a : list A)
  (b : list B) (i : nat) (x : A) (y : B) :
  nth_error a i = Some x -> nth_error b i = Some y ->
  nth_error (Tensor.zip f a b) i = Some (f x y).
Proof.
  revert b i. induction a as [|x0 a IH]; intros [|y0 b] [|i]; simpl;
    try discriminate; try congruence.
  apply IH.
Qed.

Lemma nth_error_zip_inv {A B C : Type} (f : A -> B -> C) (a : list A)
  (b : list B) (i : nat) (z : C) :
  nth_error (Tensor.zip f a b) i = Some z ->
  exists x y, nth_error a i = Some x /\ nth_error b i = Some y /\ z = f x y.
Proof.
  revert b i. induction a as [|x0 a IH]; intros [|y0 b] [|i]; simpl;
    try discriminate.
  - intros H. injection H as <-. eauto.
  - apply IH.
Qed.

Lemma zip_length {A B C : Type} (f : A -> B -> C) (a : list A) (b : list B) :
  List.length a = List.length b ->
  List.length (Tensor.zip f a b) = List.length a.
Proof.
  revert b. induction a as [|x a IH]; intros [|y b]; simpl;
    try discriminate; auto.
Qed.

Lemma zip_Forall {A B C : Type} (f : A -> B -> C) (P : A -> Prop)
  (Q : B -> Prop) (R : C -> Prop) (a : list A) (b : list B) :
  (forall x y, P x -> Q y -> R (f x y)) ->
  Forall P a -> Forall Q b -> Forall R (Tensor.zip f a b).
Proof.
  intros HR Ha. revert b. induction Ha as [|x a Hx Ha IH];
    intros b Hb; simpl; [constructor|].
  destruct Hb as [|y b Hy Hb]; constructor; auto.
Qed.

Lemma bnth_single {A : Type} (x : A) (i : nat) : Tensor.bnth [x] i = Some x.
Proof. reflexivity. Qed.

Lemma bnth_nth_error {A : Type} (a : Tensor.t A) (i : nat) :
  Tensor.size a <> 1%nat -> Tensor.bnth a i = nth_error a i.
Proof. destruct a as [|x [|x' a]]; simpl; intros H; auto. now elim H. Qed.

Lemma bnth_In {A : Type} (a : Tensor.t A) (i : nat) (x : A) :
  Tensor.bnth a i = Some x -> In x a.
Proof.
  destruct a as [|x0 [|x1 a]]; simpl.
  - destruct i; discriminate.
  - intros H. injection H as <-. now left.
  - apply (nth_error_In (x0 :: x1 :: a)).
Qed.

Lemma In_bnth {A : Type} (a : Tensor.t A) (x : A) :
  In x a -> exists i, (i < Tensor.size a)%nat /\ nth_error a i = Some x /\
                      Tensor.bnth a i = Some x.
Proof.
  intros H. apply In_nth_error in H as [i Hi]. exists i.
  split; [apply nth_error_Some; congruence|]. split; [exact Hi|].
  destruct a as [|x0 [|x1 a]]; simpl in *; auto.
  destruct i as [|i]; simpl in Hi; [congruence|]. destruct i; discriminate.
Qed.

Lemma bnth_map {A B : Type} (f : A -> B) (a : Tensor.t A) (i : nat) (x : A) :
  Tensor.bnth a i = Some x -> Tensor.bnth (Tensor.map f a) i = Some (f x).
Proof.
  destruct a as [|x0 [|x1 a]]; simpl.
  - destruct i; discriminate.
  - congruence.
  - intros H. change (nth_error (List.map f (x0 :: x1 :: a)) i = Some (f x)).
    now apply map_nth_error.
Qed.

Lemma size_map {A B : Type} (f : A -> B) (a : Tensor.t A) :
  Tensor.size (Tensor.map f a) = Tensor.size a.
Proof. apply length_map. Qed.

Ltac shapes a b :=
  destruct a as [|? [|? a]]; destruct b as [|? [|? b]].

(** A broadcast operation succeeds exactly on compatible shapes. *)
Lemma map2_ok {A B C : Type} (f : A -> B -> C) (a : Tensor.t A)
  (b : Tensor.t B) :
  Tensor.compatible a b = true ->
  exists c, Tensor.map2 f a b = Ok c /\
            Tensor.size c = Tensor.broadcast_size (Tensor.size a) (Tensor.size b).
Proof.
  unfold Tensor.compatible, Tensor.compatible_sizes, Tensor.map2, Tensor.size, Tensor.broadcast_size.
  shapes a b; simpl; intros H; try discriminate;
    try (eexists; split; [reflexivity|]; simpl; now rewrite ?length_map).
  rewrite H. eexists; split; [reflexivity|]. simpl.
  rewrite zip_length; [reflexivity|]. now apply Nat.eqb_eq.
Qed.

Lemma map2_compatible {A B C : Type} (f : A -> B -> C) (a : Tensor.t A)
  (b : Tensor.t B) (c : Tensor.t C) :
  Tensor.map2 f a b = Ok c ->
  Tensor.compatible a b = true /\
  Tensor.size c = Tensor.broadcast_size (Tensor.size a) (Tensor.size b).
Proof.
  intros H. destruct (Tensor.compatible a b) eqn:Hc.
  - destruct (map2_ok f a b Hc) as (c' & H' & Hs). split; congruence.
  - exfalso. revert H Hc.
    unfold Tensor.compatible, Tensor.compatible_sizes, Tensor.map2, Tensor.size.
    shapes a b; simpl; try discriminate.
    intros H Hc. rewrite Hc in H. discriminate.
Qed.

(** The only error of a broadcast operation is a shape error. *)
Lemma map2_raise {A B C : Type} (f : A -> B -> C) (a : Tensor.t A)
  (b : Tensor.t B) (e : exn) :
  Tensor.map2 f a b = Raise e -> e = IncompatibleShapes.
Proof.
  unfold Tensor.map2. shapes a b; simpl; try discriminate; try congruence.
  destruct (Nat.eqb _ _); [discriminate | congruence].
Qed.

(** Broadcast indexing commutes with a broadcast operation. *)
Lemma map2_bnth {A B C : Type} (f : A -> B -> C) (a : Tensor.t A)
  (b : Tensor.t B) (c : Tensor.t C) (i : nat) (x : A) (y : B) :
  Tensor.map2 f a b = Ok c ->
  Tensor.bnth a i = Some x -> Tensor.bnth b i = Some y ->
  Tensor.bnth c i = Some (f x y).
Proof.
  unfold Tensor.map2. shapes a b; simpl; intros H Hx Hy;
    try (destruct i; discriminate); try discriminate;
    try (ok_inv H; simpl; congruence).
  - ok_inv H. injection Hx as <-.
    now apply (map_nth_error (f a0) i (b0 :: b1 :: b)).
  - ok_inv H. injection Hy as <-.
    now apply (map_nth_error (fun x => f x b0) i (a0 :: a1 :: a)).
  - destruct (Nat.eqb _ _); [|discriminate]. ok_inv H.
    now apply (nth_error_zip f (a0 :: a1 :: a) (b0 :: b1 :: b)).
Qed.

(** Every element of the result comes from a pair of operands. *)
Lemma map2_nth_error_inv {A B C : Type} (f : A -> B -> C) (a : Tensor.t A)
  (b : Tensor.t B) (c : Tensor.t C) (i : nat) (z : C) :
  Tensor.map2 f a b = Ok c -> nth_error c i = Some z ->
  exists x y, Tensor.bnth a i = Some x /\ Tensor.bnth b i = Some y /\
              z = f x y.
Proof.
  unfold Tensor.map2. shapes a b; simpl; intros H Hz; try discriminate;
    try (ok_inv H; destruct i; simpl in Hz; discriminate).
  - ok_inv H. destruct i as [|[|i]]; simpl in Hz; try discriminate.
    injection Hz as <-. eauto.
  - ok_inv H.
    change (nth_error (List.map (f a0) (b0 :: b1 :: b)) i = Some z) in Hz.
    rewrite nth_error_map in Hz.
    destruct (nth_error (b0 :: b1 :: b) i) as [y|] eqn:Hy; simpl in Hz;
      [|discriminate].
    injection Hz as <-. exists a0, y. auto.
  - ok_inv H.
    change (nth_error (List.map (fun x => f x b0) (a0 :: a1 :: a)) i = Some z)
      in Hz.
    rewrite nth_error_map in Hz.
    destruct (nth_error (a0 :: a1 :: a) i) as [x|] eqn:Hx; simpl in Hz;
      [|discriminate].
    injection Hz as <-. exists x, b0. auto.
  - destruct (Nat.eqb _ _); [|discriminate]. ok_inv H.
    apply (nth_error_zip_inv f (a0 :: a1 :: a) (b0 :: b1 :: b)) in Hz.
    exact Hz.
Qed.

Lemma map2_Forall {A B C : Type} (f : A -> B -> C) (P : A -> Prop)
  (Q : B -> Prop) (R : C -> Prop) (a : Tensor.t A) (b : Tensor.t B)
  (c : Tensor.t C) :
  (forall x y, P x -> Q y -> R (f x y)) ->
  Forall P a -> Forall Q b -> Tensor.map2 f a b = Ok c -> Forall R c.
Proof.
  intros HR Ha Hb H. apply Forall_forall. intros z Hz.
  apply In_nth_error in Hz as [i Hi].
  destruct (map2_nth_error_inv f a b c i z H Hi) as (x & y & Hx & Hy & ->).
  apply HR.
  - apply bnth_In in Hx. rewrite Forall_forall in Ha. auto.
  - apply bnth_In in Hy. rewrite Forall_forall in Hb. auto.
Qed.

Lemma bnth_by_size {A : Type} (a : Tensor.t A) (i : nat) :
  Tensor.bnth a i =
  if Nat.eqb (Tensor.size a) 1 then nth_error a 0 else nth_error a i.
Proof. destruct a as [|x [|x' a]]; reflexivity. Qed.

Lemma bnth_lt {A : Type} (a : Tensor.t A) (i : nat) :
  (i < Tensor.size a)%nat -> exists x, Tensor.bnth a i = Some x.
Proof.
  intros H. rewrite bnth_by_size. destruct (Nat.eqb _ _).
  - destruct a; simpl in *; [lia | eauto].
  - destruct (nth_error a i) eqn:E; [eauto|].
    apply nth_error_None in E. unfold Tensor.size in H. lia.
Qed.

Lemma bnth_defined {A : Type} (a : Tensor.t A) (i : nat) :
  (exists x, Tensor.bnth a i = Some x) <->
  Tensor.size a = 1%nat \/ (i < Tensor.size a)%nat.
Proof.
  rewrite bnth_by_size. destruct (Nat.eqb_spec (Tensor.size a) 1) as [E|E].
  - split; [auto|]. intros _. destruct a as [|x a]; [discriminate|].
    simpl. eauto.
  - split.
    + intros [x Hx]. right. apply nth_error_Some. unfold Tensor.t in *.
      congruence.
    + intros [H|H]; [contradiction|].
      destruct (nth_error a i) eqn:Hn; [eauto|].
      apply nth_error_None in Hn. unfold Tensor.size in H. lia.
Qed.

(** Where a broadcast result has an element, both operands contribute. *)
Lemma bnth_defined_operands {A B C : Type} (a : Tensor.t A) (b : Tensor.t B)
  (c : Tensor.t C) (i : nat) :
  Tensor.compatible a b = true ->
  Tensor.size c = Tensor.broadcast_size (Tensor.size a) (Tensor.size b) ->
  (exists z, Tensor.bnth c i = Some z) ->
  (exists x, Tensor.bnth a i = Some x) /\ (exists y, Tensor.bnth b i = Some y).
Proof.
  rewrite !bnth_defined. unfold Tensor.compatible, Tensor.compatible_sizes,
    Tensor.broadcast_size.
  intros Hc Hs H.
  destruct (Nat.eqb_spec (Tensor.size a) 1);
    destruct (Nat.eqb_spec (Tensor.size b) 1);
    destruct (Nat.eqb_spec (Tensor.size a) (Tensor.size b));
    simpl in Hc; try discriminate; split; lia.
Qed.

Lemma bnth_defined_result {A B C : Type} (a : Tensor.t A) (b : Tensor.t B)
  (c : Tensor.t C) (i : nat) :
  Tensor.compatible a b = true ->
  Tensor.size c = Tensor.broadcast_size (Tensor.size a) (Tensor.size b) ->
  (exists x, Tensor.bnth a i = Some x) -> (exists y, Tensor.bnth b i = Some y) ->
  exists z, Tensor.bnth c i = Some z.
Proof.
  rewrite !bnth_defined. unfold Tensor.compatible, Tensor.compatible_sizes,
    Tensor.broadcast_size.
  intros Hc Hs Ha Hb.
  destruct (Nat.eqb_spec (Tensor.size a) 1);
    destruct (Nat.eqb_spec (Tensor.size b) 1);
    destruct (Nat.eqb_spec (Tensor.size a) (Tensor.size b));
    simpl in Hc; try discriminate; lia.
Qed.

(** ** Traversals and [tf.gather] *)

Lemma mapM_length {A B : Type} (f : A -> Exc B) (l : list A) (r : list B) :
  mapM f l = Ok r -> List.length r = List.length l.
Proof.
  revert r. induction l as [|x l IH]; simpl; intros r H.
  - ok_inv H. reflexivity.
  - destruct (f x) as [y|]; simpl in H; [|discriminate].
    destruct (mapM f l) as [ys|]; simpl in H; [|discriminate].
    ok_inv H. simpl. f_equal. now apply IH.
Qed.

Lemma mapM_nth_error {A B : Type} (f : A -> Exc B) (l : list A)
  (r : list B) (i : nat) (x : A) :
  mapM f l = Ok r -> nth_error l i = Some x ->
  exists y, f x = Ok y /\ nth_error r i = Some y.
Proof.
  revert r i. induction l as [|x0 l IH]; simpl; intros r i H Hi.
  - destruct i; discriminate.
  - destruct (f x0) as [y0|] eqn:E0; simpl in H; [|discriminate].
    destruct (mapM f l) as [ys|]; simpl in H; [|discriminate].
    ok_inv H. destruct i as [|i]; simpl in *.
    + injection Hi as <-. eauto.
    + now apply IH.
Qed.

Lemma mapM_ok {A B : Type} (f : A -> Exc B) (l : list A) :
  Forall (fun x => exists y, f x = Ok y) l -> exists r, mapM f l = Ok r.
Proof.
  induction 1 as [|x l [y Hy] _ [r Hr]]; simpl.
  - eauto.
  - rewrite Hy, Hr. simpl. eauto.
Qed.

Lemma mapM_raise {A B : Type} (f : A -> Exc B) (l : list A) (e : exn) :
  mapM f l = Raise e -> exists x, In x l /\ f x = Raise e.
Proof.
  induction l as [|x l IH]; simpl; [discriminate|].
  destruct (f x) as [y|e'] eqn:E; simpl.
  - destruct (mapM f l) as [ys|e'']; simpl; [discriminate|].
    intros H. injection H as ->. destruct IH as (x' & Hin & Hx'); eauto.
  - intros H. injection H as ->. eauto.
Qed.

Lemma gather_size (table : list Z) (idx c : Tensor.t Z) :
  Tensor.gather table idx = Ok c -> Tensor.size c = Tensor.size idx.
Proof. apply mapM_length. Qed.

Lemma gather_bnth (table : list Z) (idx c : Tensor.t Z) (i : nat) (k : Z) :
  Tensor.gather table idx = Ok c -> Tensor.bnth idx i = Some k ->
  0 <= k < Z.of_nat (List.length table) /\
  Tensor.bnth c i = Some (nth (Z.to_nat k) table 0).
Proof.
  intros H Hk. pose proof (gather_size _ _ _ H) as Hs.
  rewrite bnth_by_size in Hk. rewrite bnth_by_size, Hs.
  unfold Tensor.gather in H.
  destruct (Nat.eqb (Tensor.size idx) 1);
    destruct (mapM_nth_error _ _ _ _ _ H Hk) as (y & Hy & Hn);
    destruct ((0 <=? k) && (k <? Z.of_nat (List.length table))) eqn:E;
    try discriminate; ok_inv Hy;
    apply andb_true_iff in E as [E1 E2];
    apply Z.leb_le in E1; apply Z.ltb_lt in E2; auto.
Qed.

Lemma gather_ok (table : list Z) (idx : Tensor.t Z) :
  Forall (fun k => 0 <= k < Z.of_nat (List.length table)) idx ->
  exists c, Tensor.gather table idx = Ok c.
Proof.
  intros H. apply mapM_ok. eapply Forall_impl; [|exact H].
  intros k [H1 H2]. simpl.
  apply Z.leb_le in H1. apply Z.ltb_lt in H2. rewrite H1, H2. simpl. eauto.
Qed.

Lemma gather_raise (table : list Z) (idx : Tensor.t Z) (e : exn) :
  Tensor.gather table idx = Raise e -> e = IndexOutOfRange.
Proof.
  intros H. apply mapM_raise in H as (k & _ & Hk). simpl in Hk.
  destruct (_ && _); [discriminate | congruence].
Qed.

(** ** [tf.broadcast_to] *)

Lemma broadcast_to_ok {A B : Type} (a : Tensor.t A) (like : Tensor.t B) :
  Tensor.size a = 1%nat \/ Tensor.size a = Tensor.size like ->
  exists c, Tensor.broadcast_to a like = Ok c /\
            Tensor.size c = Tensor.size like.
Proof.
  unfold Tensor.broadcast_to, Tensor.size.
  destruct a as [|x [|x' a]]; simpl; intros [H|H]; try discriminate.
  - rewrite <- H. simpl. eauto.
  - eexists; split; [reflexivity|]. apply length_map.
  - eexists; split; [reflexivity|]. apply length_map.
  - rewrite <- H. simpl. rewrite Nat.eqb_refl. eauto.
Qed.

Lemma broadcast_to_bnth {A B : Type} (a : Tensor.t A) (like : Tensor.t B)
  (c : Tensor.t A) (i : nat) (x : A) (y : B) :
  Tensor.broadcast_to a like = Ok c ->
  Tensor.bnth a i = Some x -> Tensor.bnth like i = Some y ->
  Tensor.bnth c i = Some x.
Proof.
  unfold Tensor.broadcast_to.
  destruct a as [|x0 [|x1 a]]; simpl; intros H Hx Hy.
  - destruct i; discriminate.
  - ok_inv H. injection Hx as <-.
    apply (bnth_map (fun _ => x0)) in Hy. exact Hy.
  - destruct (List.length like) as [|[|n]]; try discriminate.
    destruct (Nat.eqb _ _); [|discriminate]. ok_inv H. exact Hx.
Qed.

Lemma broadcast_to_raise {A B : Type} (a : Tensor.t A) (like : Tensor.t B)
  (e : exn) :
  Tensor.broadcast_to a like = Raise e -> e = IncompatibleShapes.
Proof.
  unfold Tensor.broadcast_to. destruct a as [|x0 [|x1 a]];
    try discriminate; destruct (Nat.eqb _ _); try discriminate; congruence.
Qed.

Lemma broadcast_to_Forall {A B : Type} (P : A -> Prop) (a : Tensor.t A)
  (like : Tensor.t B) (c : Tensor.t A) :
  Tensor.broadcast_to a like = Ok c -> Forall P a -> Forall P c.
Proof.
  unfold Tensor.broadcast_to. destruct a as [|x0 [|x1 a]]; intros H Ha.
  - destruct (Nat.eqb _ _); [|discriminate]. now ok_inv H.
  - ok_inv H. apply Forall_forall. intros x Hx.
    apply in_map_iff in Hx as (_ & <- & _). now inversion Ha.
  - destruct (Nat.eqb _ _); [|discriminate]. now ok_inv H.
Qed.

(** ** Assertions *)

Lemma assert_positive_spec (c : Assertion) (a : Tensor.t Z) :
  (Forall (fun x => 0 < x) a /\ Tensor.assert_positive c a = Ok tt) \/
  (Exists (fun x => x <= 0) a /\
   Tensor.assert_positive c a = Raise (AssertionFailed c)).
Proof.
  unfold Tensor.assert_positive.
  destruct (forallb (fun x => 0 <? x) a) eqn:E.
  - left. split; [|reflexivity]. rewrite forallb_forall in E.
    apply Forall_forall. intros x Hx. apply Z.ltb_lt. auto.
  - right. split; [|reflexivity].
    apply Exists_exists.
    induction a as [|x a IH]; simpl in E; [discriminate|].
    apply andb_false_iff in E as [E|E].
    + exists x. split; [now left|]. apply Z.ltb_ge. exact E.
    + destruct (IH E) as (x' & Hin & Hx'). exists x'. split; [now right|auto].
Qed.

Lemma forallb_id_nth (l : list bool) :
  forallb (fun x => x) l = true <->
  (forall i z, nth_error l i = Some z -> z = true).
Proof.
  rewrite forallb_forall. split.
  - intros H i z Hz. apply H. eapply nth_error_In; eauto.
  - intros H z Hz. apply In_nth_error in Hz as [i Hi]. eauto.
Qed.

(** A broadcast comparison assertion passes exactly when every broadcast
    pair satisfies the relation. *)
Lemma assert_less_equal_spec (c : Assertion) (a b : Tensor.t Z) :
  Tensor.compatible a b = true ->
  ((forall i x y, Tensor.bnth a i = Some x -> Tensor.bnth b i = Some y ->
                  x <= y) /\
   Tensor.assert_less_equal c a b = Ok tt) \/
  ((exists i x y, Tensor.bnth a i = Some x /\ Tensor.bnth b i = Some y /\
                  y < x) /\
   Tensor.assert_less_equal c a b = Raise (AssertionFailed c)).
Proof.
  intros Hc. unfold Tensor.assert_less_equal.
  destruct (map2_ok Z.leb a b Hc) as (r & Hr & _). rewrite Hr. simpl.
  destruct (forallb (fun x => x) r) eqn:E.
  - left. split; [|reflexivity]. intros i x y Hx Hy.
    pose proof (map2_bnth _ _ _ _ _ _ _ Hr Hx Hy) as Hz.
    apply bnth_In in Hz. rewrite forallb_forall in E.
    apply Z.leb_le. now apply E.
  - right. split; [|reflexivity].
    assert (exists i, nth_error r i = Some false) as [i Hi].
    { clear Hr. induction r as [|z r IH]; simpl in E; [discriminate|].
      destruct z; simpl in E.
      - destruct (IH E) as [i Hi]. now exists (S i).
      - now exists 0%nat. }
    destruct (map2_nth_error_inv _ _ _ _ _ _ Hr Hi) as (x & y & Hx & Hy & Hf).
    exists i, x, y. repeat split; auto. symmetry in Hf.
    apply Z.leb_gt in Hf. exact Hf.
Qed.

Lemma assert_greater_equal_spec (c : Assertion) (a b : Tensor.t Z) :
  Tensor.compatible a b = true ->
  ((forall i x y, Tensor.bnth a i = Some x -> Tensor.bnth b i = Some y ->
                  y <= x) /\
   Tensor.assert_greater_equal c a b = Ok tt) \/
  ((exists i x y, Tensor.bnth a i = Some x /\ Tensor.bnth b i = Some y /\
                  x < y) /\
   Tensor.assert_greater_equal c a b = Raise (AssertionFailed c)).
Proof.
  intros Hc. unfold Tensor.assert_greater_equal.
  destruct (map2_ok Z.geb a b Hc) as (r & Hr & _). rewrite Hr. simpl.
  destruct (forallb (fun x => x) r) eqn:E.
  - left. split; [|reflexivity]. intros i x y Hx Hy.
    pose proof (map2_bnth _ _ _ _ _ _ _ Hr Hx Hy) as Hz.
    apply bnth_In in Hz. rewrite forallb_forall in E.
    apply Z.geb_le. now apply E.
  - right. split; [|reflexivity].
    assert (exists i, nth_error r i = Some false) as [i Hi].
    { clear Hr. induction r as [|z r IH]; simpl in E; [discriminate|].
      destruct z; simpl in E.
      - destruct (IH E) as [i Hi]. now exists (S i).
      - now exists 0%nat. }
    destruct (map2_nth_error_inv _ _ _ _ _ _ Hr Hi) as (x & y & Hx & Hy & Hf).
    exists i, x, y. repeat split; auto. symmetry in Hf.
    rewrite Z.geb_leb in Hf. apply Z.leb_gt in Hf. exact Hf.
Qed.

(** ** The calendar table *)

Lemma days_in_month_month_length (y m : Z) :
  1 <= m <= 12 -> days_in_month y m = month_length y m.
Proof.
  intros H. unfold days_in_month, month_length.
  assert (m = 1 \/ m = 2 \/ m = 3 \/ m = 4 \/ m = 5 \/ m = 6 \/ m = 7 \/
          m = 8 \/ m = 9 \/ m = 10 \/ m = 11 \/ m = 12) as Hm by lia.
  destruct (leap_year y);
    repeat (destruct Hm as [-> | Hm]; [reflexivity|]); subst; reflexivity.
Qed.

Lemma month_length_bounds (y m : Z) : 28 <= month_length y m <= 31.
Proof.
  unfold month_length.
  destruct (m =? 2); [destruct (leap_year y); lia|].
  destruct (_ || _); lia.
Qed.

Lemma table_index (m : Z) (leap : bool) :
  1 <= m <= 12 ->
  Int32.add m (Int32.mul 12 (Z.b2z leap)) = m + 12 * Z.b2z leap /\
  0 <= m + 12 * Z.b2z leap < Z.of_nat (List.length _DAYS_IN_MONTHS).
Proof.
  intros H. unfold Int32.add, Int32.mul.
  assert (0 <= Z.b2z leap <= 1) by (destruct leap; simpl; lia).
  rewrite (wrap32_id (12 * Z.b2z leap))
    by (unfold Int32.in_range, Int32.min_int, Int32.max_int; lia).
  rewrite wrap32_id
    by (unfold Int32.in_range, Int32.min_int, Int32.max_int; lia).
  simpl List.length. lia.
Qed.

Lemma month_of_total (m : Z) :
  1 <= Int32.add (Int32.floormod m 12) 1 <= 12 /\
  Int32.add (Int32.floormod m 12) 1 = m mod 12 + 1.
Proof.
  unfold Int32.add, Int32.floormod.
  pose proof (Z.mod_pos_bound m 12 ltac:(lia)).
  rewrite wrap32_id
    by (unfold Int32.in_range, Int32.min_int, Int32.max_int; lia).
  lia.
Qed.

Lemma total_months (mo n : Z) :
  Int32.add (Int32.sub mo 1) n = Int32.wrap32 (mo - 1 + n).
Proof.
  unfold Int32.add, Int32.sub, Int32.wrap32, Int32.modulus.
  replace ((mo - 1 + 2 ^ 31) mod 2 ^ 32 - 2 ^ 31 + n + 2 ^ 31)
    with ((mo - 1 + 2 ^ 31) mod 2 ^ 32 + n) by lia.
  rewrite Zplus_mod_idemp_l. do 2 f_equal. lia.
Qed.

Lemma add_months_int32_exact (y mo d n : Z) :
  Int32.in_range (mo - 1 + n) ->
  Int32.in_range (y + (mo - 1 + n) / 12) ->
  add_months_int32 y mo d n = add_months_spec y mo d n.
Proof.
  intros H1 H2. unfold add_months_int32, add_months_spec, days_in_month.
  cbv zeta. rewrite (wrap32_id _ H1), (wrap32_id _ H2). reflexivity.
Qed.

(** Sizes of broadcast shapes. *)
Ltac shape_cases :=
  unfold Tensor.compatible, Tensor.compatible_sizes, Tensor.broadcast_size
    in *;
  repeat match goal with
    | H : context [Nat.eqb ?a ?b] |- _ => destruct (Nat.eqb_spec a b)
    | |- context [Nat.eqb ?a ?b] => destruct (Nat.eqb_spec a b)
    end; simpl in *; try reflexivity; try discriminate; try lia.

Lemma broadcast_size_absorb (n k : nat) :
  Tensor.broadcast_size n (Tensor.broadcast_size n k) =
  Tensor.broadcast_size n k.
Proof. shape_cases. Qed.

Lemma broadcast_size_refl (n : nat) : Tensor.broadcast_size n n = n.
Proof. shape_cases. Qed.

Lemma compatible_sizes_sym (n k : nat) :
  Tensor.compatible_sizes n k = Tensor.compatible_sizes k n.
Proof. shape_cases. Qed.

Lemma compatible_sizes_refl (n : nat) : Tensor.compatible_sizes n n = true.
Proof. shape_cases. Qed.

Lemma compatible_sizes_broadcast (n k : nat) :
  Tensor.compatible_sizes n k = true ->
  Tensor.compatible_sizes n (Tensor.broadcast_size n k) = true.
Proof. shape_cases. Qed.

Lemma compatible_sym {A B : Type} (a : Tensor.t A) (b : Tensor.t B) :
  Tensor.compatible a b = Tensor.compatible b a.
Proof.
  unfold Tensor.compatible, Tensor.compatible_sizes.
  rewrite (Nat.eqb_sym (Tensor.size a) (Tensor.size b)).
  now rewrite (orb_comm (Nat.eqb (Tensor.size a) 1)).
Qed.

Lemma Forall_bnth {A : Type} (P : A -> Prop) (a : Tensor.t A) (i : nat)
  (x : A) : Forall P a -> Tensor.bnth a i = Some x -> P x.
Proof.
  intros H Hx. apply bnth_In in Hx. rewrite Forall_forall in H. auto.
Qed.

Lemma compatible_single_r {A B : Type} (a : Tensor.t A) (y : B) :
  Tensor.compatible a [y] = true.
Proof.
  unfold Tensor.compatible, Tensor.compatible_sizes. simpl.
  now rewrite orb_true_r.
Qed.

Lemma assert_at_least (c : Assertion) (a : Tensor.t Z) (k : Z) :
  (Forall (fun x => k <= x) a /\
   Tensor.assert_greater_equal c a [k] = Ok tt) \/
  (Exists (fun x => x < k) a /\
   Tensor.assert_greater_equal c a [k] = Raise (AssertionFailed c)).
Proof.
  destruct (assert_greater_equal_spec c a [k] (compatible_single_r a k))
    as [[H E] | [(i & x & y & Hx & Hy & Hlt) E]].
  - left. split; [|exact E]. apply Forall_forall. intros x Hx.
    apply In_bnth in Hx as (i & _ & _ & Hi). eapply H; eauto; reflexivity.
  - right. split; [|exact E]. apply Exists_exists. exists x.
    split; [eapply bnth_In; eauto|]. simpl in Hy. congruence.
Qed.

Lemma assert_at_most (c : Assertion) (a : Tensor.t Z) (k : Z) :
  (Forall (fun x => x <= k) a /\
   Tensor.assert_less_equal c a [k] = Ok tt) \/
  (Exists (fun x => k < x) a /\
   Tensor.assert_less_equal c a [k] = Raise (AssertionFailed c)).
Proof.
  destruct (assert_less_equal_spec c a [k] (compatible_single_r a k))
    as [[H E] | [(i & x & y & Hx & Hy & Hlt) E]].
  - left. split; [|exact E]. apply Forall_forall. intros x Hx.
    apply In_bnth in Hx as (i & _ & _ & Hi). eapply H; eauto; reflexivity.
  - right. split; [|exact E]. apply Exists_exists. exists x.
    split; [eapply bnth_In; eauto|]. simpl in Hy. congruence.
Qed.

Lemma Exists_not_Forall {A : Type} (P Q : A -> Prop) (l : list A) :
  (forall x, P x -> Q x -> False) -> Exists P l -> ~ Forall Q l.
Proof.
  intros HPQ HE HF. apply Exists_exists in HE as (x & Hin & Hx).
  rewrite Forall_forall in HF. eauto.
Qed.

Lemma broadcast_size_sym (n k : nat) :
  Tensor.compatible_sizes n k = true ->
  Tensor.broadcast_size n k = Tensor.broadcast_size k n.
Proof. shape_cases. Qed.

(** A violated assertion refutes the validity of the arguments. *)
Ltac refute_valid E :=
  right; split; [| eauto];
  let V1 := fresh in let V2 := fresh in let V3 := fresh in
  let x := fresh in let Hin := fresh in let Hx := fresh in
  intros (V1 & V2 & V3 & _);
  apply Exists_exists in E as (x & Hin & Hx);
  rewrite Forall_forall in V1, V2, V3;
  try pose proof (V1 _ Hin); try pose proof (V2 _ Hin);
  try pose proof (V3 _ Hin); lia.

(** ** The factories *)

Section Factories.

Variable ymd_to_ordinal : Z -> Z -> Z -> Z.
Variable ordinal_to_ymd : Z -> Z * Z * Z.

Local Abbreviation to_ordinal := (year_month_day_to_ordinal ymd_to_ordinal).
Local Abbreviation from_ymd := (from_year_month_day ymd_to_ordinal).
Local Abbreviation from_ord := (from_ordinals ordinal_to_ymd).

Lemma max_days_of_bnth (year month md : Tensor.t Z) (i : nat) (y m : Z) :
  max_days_of year month = Ok md ->
  Tensor.bnth year i = Some y -> Tensor.bnth month i = Some m ->
  1 <= m <= 12 ->
  Tensor.bnth md i = Some (days_in_month y m).
Proof.
  unfold max_days_of. intros H Hy Hm Hr.
  apply bind_ok in H as (idx & Hidx & Hg).
  assert (Tensor.bnth idx i =
          Some (Int32.add m (Int32.mul 12 (Z.b2z (leap_year y))))) as Hi.
  { eapply map2_bnth; [exact Hidx | exact Hm |].
    unfold is_leap_year. now do 3 apply bnth_map. }
  destruct (gather_bnth _ _ _ _ _ Hg Hi) as [_ Hv].
  rewrite Hv. unfold days_in_month.
  now destruct (table_index m (leap_year y) Hr) as [-> _].
Qed.

Lemma max_days_of_ok (year month : Tensor.t Z) :
  Tensor.compatible month year = true ->
  Forall (fun m => 1 <= m <= 12) month ->
  exists md, max_days_of year month = Ok md /\
             Tensor.size md =
             Tensor.broadcast_size (Tensor.size month) (Tensor.size year).
Proof.
  intros Hc Hm. unfold max_days_of.
  set (l := Tensor.map (Int32.mul 12)
              (Tensor.map Z.b2z (is_leap_year year))).
  assert (Tensor.compatible month l = true) as Hc'.
  { unfold Tensor.compatible, Tensor.compatible_sizes in *. subst l. unfold is_leap_year.
    now rewrite !size_map. }
  destruct (map2_ok Int32.add month l Hc') as (idx & Hidx & Hs).
  rewrite Hidx. simpl.
  assert (Forall (fun k => 0 <= k < Z.of_nat (List.length _DAYS_IN_MONTHS))
            idx) as Hin.
  { eapply (map2_Forall Int32.add (fun m => 1 <= m <= 12)
              (fun v => exists b, v = Int32.mul 12 (Z.b2z b)));
      [ | exact Hm | | exact Hidx].
    - intros m v Hm' [b ->]. destruct (table_index m b Hm') as [-> ?]. lia.
    - subst l. unfold is_leap_year, Tensor.map. rewrite !List.map_map.
      apply Forall_forall. intros v Hv. apply in_map_iff in Hv as (y & <- & _).
      eauto. }
  destruct (gather_ok _ _ Hin) as (md & Hmd). exists md. split; [exact Hmd|].
  rewrite (gather_size _ _ _ Hmd), Hs. subst l. unfold is_leap_year.
  now rewrite !size_map.
Qed.

Lemma max_days_of_raise (year month : Tensor.t Z) (e : exn) :
  max_days_of year month = Raise e ->
  e = IncompatibleShapes \/ e = IndexOutOfRange.
Proof.
  unfold max_days_of. intros H. apply bind_raise in H as [H | (idx & _ & H)].
  - left. eapply map2_raise; eauto.
  - right. eapply gather_raise; eauto.
Qed.

Lemma adjust_day_bnth (year month day r : Tensor.t Z) (i : nat)
  (y m d : Z) :
  adjust_day year month day = Ok r ->
  Tensor.bnth year i = Some y -> Tensor.bnth month i = Some m ->
  Tensor.bnth day i = Some d -> 1 <= m <= 12 ->
  Tensor.bnth r i = Some (Z.min d (days_in_month y m)).
Proof.
  unfold adjust_day. intros H Hy Hm Hd Hr.
  apply bind_ok in H as (md & Hmd & H).
  eapply map2_bnth; [exact H | exact Hd |].
  eapply max_days_of_bnth; eauto.
Qed.

Lemma adjust_day_raise (year month day : Tensor.t Z) (e : exn) :
  adjust_day year month day = Raise e ->
  e = IncompatibleShapes \/ e = IndexOutOfRange.
Proof.
  unfold adjust_day. intros H. apply bind_raise in H as [H | (md & _ & H)].
  - eapply max_days_of_raise; eauto.
  - left. eapply map2_raise; eauto.
Qed.

Lemma to_ordinal_bnth (year month day o : Tensor.t Z) (i : nat)
  (y m d : Z) :
  to_ordinal year month day = Ok o ->
  Tensor.bnth year i = Some y -> Tensor.bnth month i = Some m ->
  Tensor.bnth day i = Some d ->
  Tensor.bnth o i = Some (ymd_to_ordinal y m d).
Proof.
  unfold year_month_day_to_ordinal. intros H Hy Hm Hd.
  apply bind_ok in H as (ym & Hym & H).
  pose proof (map2_bnth _ _ _ _ _ _ _ Hym Hy Hm) as Hp.
  exact (map2_bnth _ _ _ _ _ _ _ H Hp Hd).
Qed.

Lemma to_ordinal_ok (year month day : Tensor.t Z) :
  Tensor.compatible year month = true ->
  Tensor.compatible_sizes
    (Tensor.broadcast_size (Tensor.size year) (Tensor.size month))
    (Tensor.size day) = true ->
  exists o, to_ordinal year month day = Ok o /\
            Tensor.size o =
            Tensor.broadcast_size
              (Tensor.broadcast_size (Tensor.size year) (Tensor.size month))
              (Tensor.size day).
Proof.
  intros Hc Hd. unfold year_month_day_to_ordinal.
  destruct (map2_ok pair year month Hc) as (ym & Hym & Hs).
  rewrite Hym. cbn [bind].
  assert (Tensor.compatible ym day = true) as Hc'.
  { unfold Tensor.compatible. now rewrite Hs. }
  destruct (map2_ok (fun ym d => ymd_to_ordinal (fst ym) (snd ym) d)
              ym day Hc') as (o & Ho & Hso).
  exists o. split; [exact Ho|]. now rewrite Hso, Hs.
Qed.

Lemma to_ordinal_raise (year month day : Tensor.t Z) (e : exn) :
  to_ordinal year month day = Raise e -> e = IncompatibleShapes.
Proof.
  unfold year_month_day_to_ordinal. intros H.
  apply bind_raise in H as [H | (ym & _ & H)]; eapply map2_raise; eauto.
Qed.

(** Without validation the factory only computes the ordinals. *)
Lemma from_ymd_unvalidated (year month day : Tensor.t Z) :
  from_ymd year month day false =
  (o <- to_ordinal year month day ;; Ok (mkDateTensor o year month day)).
Proof. reflexivity. Qed.

Lemma from_ymd_fields (year month day : Tensor.t Z) (v : bool)
  (r : DateTensor) :
  from_ymd year month day v = Ok r ->
  _years r = year /\ _months r = month /\ _days r = day /\
  to_ordinal year month day = Ok (_ordinals r).
Proof.
  unfold from_year_month_day. intros H.
  apply bind_ok in H as (_ & _ & H).
  apply bind_ok in H as (o & Ho & H). ok_inv H. simpl. auto.
Qed.

Lemma from_ord_fields (ordinals : Tensor.t Z) (v : bool) (r : DateTensor) :
  from_ord ordinals v = Ok r ->
  r = mkDateTensor ordinals
        (Tensor.map (fun o => fst (fst (ordinal_to_ymd o))) ordinals)
        (Tensor.map (fun o => snd (fst (ordinal_to_ymd o))) ordinals)
        (Tensor.map (fun o => snd (ordinal_to_ymd o)) ordinals).
Proof.
  unfold from_ordinals, ordinal_to_year_month_day. intros H.
  apply bind_ok in H as (_ & _ & H). ok_inv H.
  unfold Tensor.map. now rewrite !List.map_map.
Qed.

(** The validating factory, assertion by assertion: either the arguments
    are valid and the factory does what the unvalidated one does, or they
    are not and the first violated assertion is raised. *)
Lemma from_ymd_validated_cases (year month day : Tensor.t Z) :
  broadcastable3 year month day = true ->
  (valid_dates year month day /\
   from_ymd year month day true = from_ymd year month day false) \/
  (~ valid_dates year month day /\
   exists c, from_ymd year month day true = Raise (AssertionFailed c)).
Proof.
  intros Hb. apply andb_true_iff in Hb as [Hym Hd].
  unfold from_year_month_day, valid_dates.
  destruct (assert_positive_spec YearPositive year) as [[Fy ->] | [E ->]];
    cbn [bind]; [| refute_valid E].
  destruct (assert_at_least MonthAtLeastJanuary month constants.JANUARY)
    as [[Fm1 ->] | [E ->]]; cbn [bind]; [| refute_valid E].
  destruct (assert_at_most MonthAtMostDecember month constants.DECEMBER)
    as [[Fm2 ->] | [E ->]]; cbn [bind]; [| refute_valid E].
  destruct (assert_positive_spec DayPositive day) as [[Fd ->] | [E ->]];
    cbn [bind]; [| refute_valid E].
  assert (Forall (fun m => constants.JANUARY <= m <= constants.DECEMBER)
            month) as Fm.
  { rewrite Forall_forall in *. intros m Hm.
    specialize (Fm1 m Hm). specialize (Fm2 m Hm). lia. }
  assert (Tensor.compatible month year = true) as Hmy
      by now rewrite compatible_sym.
  destruct (max_days_of_ok year month Hmy Fm) as (md & Hmd & Smd).
  rewrite Hmd. cbn [bind].
  assert (Tensor.compatible day md = true) as Hdm.
  { unfold Tensor.compatible. rewrite Smd, compatible_sizes_sym.
    rewrite broadcast_size_sym; assumption. }
  destruct (assert_less_equal_spec DayAtMostMonthLength day md Hdm)
    as [[Hle ->] | [(i & d & v & Hdi & Hvi & Hlt) ->]]; cbn [bind].
  - left. split; [|reflexivity]. repeat split; auto.
    intros i y m d Hy Hm Hdi. eapply Hle; [exact Hdi|].
    eapply max_days_of_bnth; eauto.
    exact (Forall_bnth _ _ _ _ Fm Hm).
  - right. split; [|eauto]. intros (_ & _ & _ & Hv).
    destruct (bnth_defined_operands month year md i Hmy Smd)
      as [[m Hm] [y Hy]]; [eauto|].
    specialize (Hv i y m d Hy Hm Hdi).
    pose proof (max_days_of_bnth year month md i y m Hmd Hy Hm
                  (Forall_bnth _ _ _ _ Fm Hm)) as Hv'.
    rewrite Hv' in Hvi. injection Hvi as <-. lia.
Qed.

(** The unvalidated factory succeeds whatever the values are. *)
Lemma from_ymd_unvalidated_ok (year month day : Tensor.t Z) :
  broadcastable3 year month day = true ->
  exists o, to_ordinal year month day = Ok o /\
            from_ymd year month day false =
            Ok (mkDateTensor o year month day).
Proof.
  intros Hb. apply andb_true_iff in Hb as [Hym Hd].
  destruct (to_ordinal_ok year month day Hym Hd) as (o & Ho & _).
  exists o. split; [exact Ho|]. rewrite from_ymd_unvalidated, Ho.
  reflexivity.
Qed.

(** No assertion is evaluated without validation. *)
Lemma from_ymd_unvalidated_raise (year month day : Tensor.t Z) (e : exn) :
  from_ymd year month day false = Raise e -> e = IncompatibleShapes.
Proof.
  rewrite from_ymd_unvalidated. intros H.
  apply bind_raise in H as [H | (o & _ & H)]; [|discriminate].
  eapply to_ordinal_raise; eauto.
Qed.

Lemma from_ord_cases (ordinals : Tensor.t Z) :
  from_ord ordinals false = Ok (
    mkDateTensor ordinals
      (Tensor.map (fun o => fst (fst (ordinal_to_ymd o))) ordinals)
      (Tensor.map (fun o => snd (fst (ordinal_to_ymd o))) ordinals)
      (Tensor.map (fun o => snd (ordinal_to_ymd o)) ordinals)) /\
  ((Forall (fun o => 0 < o) ordinals /\
    from_ord ordinals true = from_ord ordinals false) \/
   (Exists (fun o => o <= 0) ordinals /\
    from_ord ordinals true = Raise (AssertionFailed OrdinalPositive))).
Proof.
  assert (exists r, from_ord ordinals false = Ok r) as [r Hr].
  { unfold from_ordinals, ordinal_to_year_month_day. cbn [bind]. eauto. }
  split.
  - rewrite Hr. f_equal. eapply from_ord_fields; eauto.
  - unfold from_ordinals.
    destruct (assert_positive_spec OrdinalPositive ordinals)
      as [[F ->] | [E ->]]; cbn [bind]; [left | right]; auto.
Qed.

End Factories.

(** ** Comparisons *)

Lemma zip_diag {A C : Type} (f : A -> A -> C) (a : list A) :
  Tensor.zip f a a = List.map (fun x => f x x) a.
Proof. induction a as [|x a IH]; simpl; congruence. Qed.

Lemma map2_diag {A C : Type} (f : A -> A -> C) (a : Tensor.t A) :
  Tensor.map2 f a a = Ok (Tensor.map (fun x => f x x) a).
Proof.
  unfold Tensor.map2, Tensor.map. destruct a as [|x [|x' a]]; try reflexivity.
  rewrite Nat.eqb_refl, zip_diag. reflexivity.
Qed.

(** A date tensor compares equal to itself everywhere. *)
Lemma eq_diag (a : DateTensor) :
  __eq__ a a = Ok (Tensor.map (fun _ => true) (_ordinals a)).
Proof.
  unfold __eq__, ordinal. rewrite map2_diag. f_equal.
  unfold Tensor.map. apply map_ext. intros x. apply Z.eqb_refl.
Qed.

(** ** Addition of periods *)

Section Addition.

Variable ymd_to_ordinal : Z -> Z -> Z -> Z.
Variable ordinal_to_ymd : Z -> Z * Z * Z.

Local Abbreviation to_ordinal := (year_month_day_to_ordinal ymd_to_ordinal).
Local Abbreviation from_ymd := (from_year_month_day ymd_to_ordinal).
Local Abbreviation from_ord := (from_ordinals ordinal_to_ymd).
Local Abbreviation add := (__add__ ymd_to_ordinal ordinal_to_ymd).
Local Abbreviation sub := (__sub__ ymd_to_ordinal ordinal_to_ymd).

(** The four branches of [__add__]. *)
Lemma add_DAY (self : DateTensor) (q : Tensor.t Z) :
  add self (mkPeriodTensor q DAY) =
  (ordinals <- Tensor.map2 Int32.add (_ordinals self) q ;;
   from_ord ordinals true).
Proof. now rewrite __add___equation_1. Qed.

Lemma add_WEEK (self : DateTensor) (q : Tensor.t Z) :
  add self (mkPeriodTensor q WEEK) =
  add self (mkPeriodTensor (Tensor.map (fun n => Int32.mul n 7) q) DAY).
Proof. now rewrite __add___equation_2. Qed.

Lemma add_MONTH (self : DateTensor) (q : Tensor.t Z) :
  add self (mkPeriodTensor q MONTH) =
  (m <- Tensor.map2 Int32.add
          (Tensor.map (fun x => Int32.sub x 1) (_months self)) q ;;
   y <- Tensor.map2 Int32.add (_years self)
          (Tensor.map (fun x => Int32.floordiv x 12) m) ;;
   let m := Tensor.map (fun x => Int32.add (Int32.floormod x 12) 1) m in
   d <- adjust_day y m (_days self) ;;
   from_ymd y m d false).
Proof. now rewrite __add___equation_3. Qed.

Lemma add_YEAR (self : DateTensor) (q : Tensor.t Z) :
  add self (mkPeriodTensor q YEAR) =
  (y <- Tensor.map2 Int32.add (_years self) q ;;
   m <- Tensor.broadcast_to (_months self) y ;;
   d <- adjust_day y m (_days self) ;;
   from_ymd y m d false).
Proof. now rewrite __add___equation_4. Qed.

(** Element [i] of a MONTH addition. *)
Lemma add_MONTH_bnth (self : DateTensor) (q : Tensor.t Z) (r : DateTensor)
  (i : nat) (y mo d n : Z) :
  add self (mkPeriodTensor q MONTH) = Ok r ->
  Tensor.bnth (_years self) i = Some y ->
  Tensor.bnth (_months self) i = Some mo ->
  Tensor.bnth (_days self) i = Some d ->
  Tensor.bnth q i = Some n ->
  forall Y M D, add_months_int32 y mo d n = (Y, M, D) ->
  1 <= M <= 12 /\
  Tensor.bnth (_years r) i = Some Y /\
  Tensor.bnth (_months r) i = Some M /\
  Tensor.bnth (_days r) i = Some D /\
  Tensor.bnth (_ordinals r) i = Some (ymd_to_ordinal Y M D).
Proof.
  rewrite add_MONTH. intros H Hy Hmo Hd Hn Y M D Hspec.
  apply bind_ok in H as (mt & Hmt & H).
  apply bind_ok in H as (yt & Hyt & H). cbv zeta in H.
  apply bind_ok in H as (dt & Hdt & H).
  apply from_ymd_fields in H as (-> & -> & -> & Ho).
  assert (Tensor.bnth mt i = Some (Int32.wrap32 (mo - 1 + n))) as Em.
  { rewrite <- total_months. eapply map2_bnth; [exact Hmt | | exact Hn].
    now apply (bnth_map (fun x => Int32.sub x 1)). }
  assert (Tensor.bnth yt i = Some Y /\
          Y = Int32.wrap32 (y + Int32.wrap32 (mo - 1 + n) / 12)) as [Ey EY].
  { unfold add_months_int32 in Hspec. cbv zeta in Hspec.
    injection Hspec as <- _ _. split; [|reflexivity].
    eapply (map2_bnth Int32.add); [exact Hyt | exact Hy |].
    now apply (bnth_map (fun x => Int32.floordiv x 12)). }
  destruct (month_of_total (Int32.wrap32 (mo - 1 + n))) as [HM EM].
  assert (Tensor.bnth
            (Tensor.map (fun x => Int32.add (Int32.floormod x 12) 1) mt) i =
          Some M /\ 1 <= M <= 12) as [Emo HM'].
  { unfold add_months_int32 in Hspec. cbv zeta in Hspec.
    injection Hspec as _ <- _. rewrite <- EM. split; [|exact HM].
    now apply (bnth_map (fun x => Int32.add (Int32.floormod x 12) 1)). }
  pose proof (adjust_day_bnth _ _ _ _ _ _ _ _ Hdt Ey Emo Hd HM') as Ed.
  assert (Z.min d (days_in_month Y M) = D) as ED.
  { unfold add_months_int32 in Hspec. cbv zeta in Hspec.
    injection Hspec as HY HMs HD. rewrite <- HD. subst Y.
    rewrite <- HMs. reflexivity. }
  rewrite ED in Ed.
  repeat split; try lia; auto.
  eapply to_ordinal_bnth; eauto.
Qed.

(** A MONTH addition succeeds on a well-shaped date tensor and a quantity
    that broadcasts against it. *)
Lemma add_MONTH_ok (self : DateTensor) (q : Tensor.t Z) :
  well_shaped self -> Tensor.compatible (_months self) q = true ->
  exists r, add self (mkPeriodTensor q MONTH) = Ok r /\ well_shaped r /\
            Tensor.size (_ordinals r) =
            Tensor.broadcast_size (Tensor.size (_ordinals self)) (Tensor.size q).
Proof.
  intros (Wy & Wm & Wd) Hc. rewrite add_MONTH.
  unfold Tensor.compatible in Hc. rewrite Wm in Hc.
  set (n := Tensor.size (_ordinals self)) in *.
  set (k := Tensor.size q) in *.
  set (N := Tensor.broadcast_size n k).
  set (m1 := Tensor.map (fun x => Int32.sub x 1) (_months self)).
  assert (Tensor.compatible m1 q = true) as Hc1.
  { unfold Tensor.compatible. subst m1. now rewrite size_map, Wm. }
  destruct (map2_ok Int32.add m1 q Hc1) as (mt & Hmt & Smt).
  rewrite Hmt. cbn [bind]. subst m1. rewrite size_map, Wm in Smt.
  fold k N in Smt.
  set (m12 := Tensor.map (fun x => Int32.floordiv x 12) mt).
  assert (Tensor.compatible (_years self) m12 = true) as Hc2.
  { unfold Tensor.compatible. subst m12. rewrite size_map, Smt, Wy.
    now apply compatible_sizes_broadcast. }
  destruct (map2_ok Int32.add (_years self) m12 Hc2) as (yt & Hyt & Syt).
  rewrite Hyt. cbn [bind]. subst m12. rewrite size_map, Wy, Smt in Syt.
  unfold N in Syt. rewrite broadcast_size_absorb in Syt. fold N in Syt.
  set (m' := Tensor.map (fun x => Int32.add (Int32.floormod x 12) 1) mt).
  assert (Tensor.size m' = N) as Sm' by (subst m'; now rewrite size_map).
  assert (Forall (fun m => 1 <= m <= 12) m') as Fm'.
  { subst m'. unfold Tensor.map. apply Forall_forall. intros v Hv.
    apply in_map_iff in Hv as (x & <- & _). apply month_of_total. }
  assert (Tensor.compatible m' yt = true) as Hc3.
  { unfold Tensor.compatible. rewrite Sm', Syt.
    apply compatible_sizes_refl. }
  destruct (max_days_of_ok yt m' Hc3 Fm') as (md & Hmd & Smd).
  rewrite Sm', Syt, broadcast_size_refl in Smd.
  unfold adjust_day. rewrite Hmd. cbn [bind].
  assert (Tensor.compatible (_days self) md = true) as Hc4.
  { unfold Tensor.compatible. rewrite Smd, Wd.
    now apply compatible_sizes_broadcast. }
  destruct (map2_ok Z.min (_days self) md Hc4) as (dt & Hdt & Sdt).
  rewrite Hdt. cbn [bind]. rewrite Wd, Smd in Sdt.
  unfold N in Sdt. rewrite broadcast_size_absorb in Sdt. fold N in Sdt.
  assert (Tensor.compatible yt m' = true) as Hc5.
  { now rewrite compatible_sym. }
  destruct (to_ordinal_ok ymd_to_ordinal yt m' dt Hc5) as (o & Ho & So).
  { rewrite Sdt, Syt, Sm', broadcast_size_refl.
    apply compatible_sizes_refl. }
  rewrite Syt, Sm', Sdt, !broadcast_size_refl in So.
  rewrite from_ymd_unvalidated, Ho. cbn [bind]. eexists. split; [reflexivity|].
  unfold well_shaped. simpl. rewrite So, Sdt, Syt, Sm'. auto.
Qed.

(** Element [i] of a YEAR addition. *)
Lemma add_YEAR_bnth (self : DateTensor) (q : Tensor.t Z) (r : DateTensor)
  (i : nat) (y mo d n : Z) :
  add self (mkPeriodTensor q YEAR) = Ok r ->
  Tensor.bnth (_years self) i = Some y ->
  Tensor.bnth (_months self) i = Some mo ->
  Tensor.bnth (_days self) i = Some d ->
  Tensor.bnth q i = Some n ->
  1 <= mo <= 12 ->
  let Y := Int32.add y n in
  let D := Z.min d (days_in_month Y mo) in
  Tensor.bnth (_years r) i = Some Y /\
  Tensor.bnth (_months r) i = Some mo /\
  Tensor.bnth (_days r) i = Some D /\
  Tensor.bnth (_ordinals r) i = Some (ymd_to_ordinal Y mo D).
Proof.
  rewrite add_YEAR. intros H Hy Hmo Hd Hn Hr Y D.
  apply bind_ok in H as (yt & Hyt & H).
  apply bind_ok in H as (mt & Hmt & H).
  apply bind_ok in H as (dt & Hdt & H).
  apply from_ymd_fields in H as (-> & -> & -> & Ho).
  pose proof (map2_bnth _ _ _ _ _ _ _ Hyt Hy Hn) as Ey.
  pose proof (broadcast_to_bnth _ _ _ _ _ _ Hmt Hmo Ey) as Em.
  pose proof (adjust_day_bnth _ _ _ _ _ _ _ _ Hdt Ey Em Hd Hr) as Ed.
  repeat split; auto. eapply to_ordinal_bnth; eauto.
Qed.

(** A YEAR addition succeeds on a well-shaped date tensor with months in
    range and a quantity that broadcasts against it. *)
Lemma add_YEAR_ok (self : DateTensor) (q : Tensor.t Z) :
  well_shaped self -> Tensor.compatible (_years self) q = true ->
  Forall (fun m => 1 <= m <= 12) (_months self) ->
  exists r, add self (mkPeriodTensor q YEAR) = Ok r /\ well_shaped r /\
            Tensor.size (_ordinals r) =
            Tensor.broadcast_size (Tensor.size (_ordinals self))
              (Tensor.size q).
Proof.
  intros (Wy & Wm & Wd) Hc Fm. rewrite add_YEAR.
  destruct (map2_ok Int32.add (_years self) q Hc) as (yt & Hyt & Syt).
  rewrite Hyt. cbn [bind].
  unfold Tensor.compatible in Hc. rewrite Wy in Hc, Syt.
  set (n := Tensor.size (_ordinals self)) in *.
  set (k := Tensor.size q) in *.
  set (N := Tensor.broadcast_size n k) in *.
  destruct (broadcast_to_ok (_months self) yt) as (mt & Hmt & Smt).
  { rewrite Wm, Syt. fold n. subst N. clear - Hc. shape_cases. }
  rewrite Hmt. cbn [bind]. rewrite Syt in Smt.
  pose proof (broadcast_to_Forall _ _ _ _ Hmt Fm) as Fmt.
  assert (Tensor.compatible mt yt = true) as Hc3.
  { unfold Tensor.compatible. rewrite Smt, Syt.
    apply compatible_sizes_refl. }
  destruct (max_days_of_ok yt mt Hc3 Fmt) as (md & Hmd & Smd).
  rewrite Smt, Syt, broadcast_size_refl in Smd.
  unfold adjust_day. rewrite Hmd. cbn [bind].
  assert (Tensor.compatible (_days self) md = true) as Hc4.
  { unfold Tensor.compatible. rewrite Smd, Wd.
    now apply compatible_sizes_broadcast. }
  destruct (map2_ok Z.min (_days self) md Hc4) as (dt & Hdt & Sdt).
  rewrite Hdt. cbn [bind]. rewrite Wd, Smd in Sdt.
  unfold N in Sdt. rewrite broadcast_size_absorb in Sdt. fold N in Sdt.
  assert (Tensor.compatible yt mt = true) as Hc5.
  { now rewrite compatible_sym. }
  destruct (to_ordinal_ok ymd_to_ordinal yt mt dt Hc5) as (o & Ho & So).
  { rewrite Sdt, Syt, Smt, broadcast_size_refl.
    apply compatible_sizes_refl. }
  rewrite Syt, Smt, Sdt, !broadcast_size_refl in So.
  rewrite from_ymd_unvalidated, Ho. cbn [bind]. eexists.
  split; [reflexivity|].
  unfold well_shaped. simpl. rewrite So, Sdt, Syt, Smt. auto.
Qed.

Lemma add_MONTH_built (self : DateTensor) (q : Tensor.t Z) (r : DateTensor) :
  add self (mkPeriodTensor q MONTH) = Ok r ->
  from_ymd (_years r) (_months r) (_days r) false = Ok r.
Proof.
  rewrite add_MONTH. intros H.
  apply bind_ok in H as (mt & _ & H).
  apply bind_ok in H as (yt & _ & H). cbv zeta in H.
  apply bind_ok in H as (dt & _ & H).
  destruct (from_ymd_fields _ _ _ _ _ _ H) as (-> & -> & -> & _). exact H.
Qed.

Lemma add_months_rollover (y d : Z) :
  add_months_spec y 1 d (-1) = (y - 1, 12, Z.min d 31).
Proof.
  unfold add_months_spec. cbv zeta.
  change ((1 - 1 + -1) / 12) with (-1).
  change ((1 - 1 + -1) mod 12 + 1) with 12.
  replace (y + -1) with (y - 1) by lia.
  destruct (leap_year (y - 1)); reflexivity.
Qed.

(** C1.  Adding a MONTH period computes, for every element, the zero-based
    total month count [m = month - 1 + quantity], the year
    [year + floor(m / 12)], the month [(m mod 12) + 1] with floor division
    and modulo, and the day [min(day, days_in_month(y, m'))] read from the
    table at [m' + 12 * is_leap_year(y)]; the result is what the
    year/month/day factory builds without validation.  The sums are int32
    sums, equal to the integer ones whenever these fit; month 1 with
    quantity -1 gives December of the previous year; the addition succeeds
    on every well-shaped date tensor the quantity broadcasts against. *)
Theorem add_month_computes (self : DateTensor) (q : Tensor.t Z) :
  (forall r,
      add self (mkPeriodTensor q MONTH) = Ok r ->
      from_ymd (_years r) (_months r) (_days r) false = Ok r /\
      forall i y mo d n,
        Tensor.bnth (_years self) i = Some y ->
        Tensor.bnth (_months self) i = Some mo ->
        Tensor.bnth (_days self) i = Some d ->
        Tensor.bnth q i = Some n ->
        exists Y M D,
          add_months_int32 y mo d n = (Y, M, D) /\
          Tensor.bnth (_years r) i = Some Y /\
          Tensor.bnth (_months r) i = Some M /\
          Tensor.bnth (_days r) i = Some D /\
          Tensor.bnth (_ordinals r) i = Some (ymd_to_ordinal Y M D) /\
          (Int32.in_range (mo - 1 + n) ->
           Int32.in_range (y + (mo - 1 + n) / 12) ->
           add_months_spec y mo d n = (Y, M, D))) /\
  (well_shaped self -> Tensor.compatible (_months self) q = true ->
   exists r, add self (mkPeriodTensor q MONTH) = Ok r /\ well_shaped r) /\
  (forall y d, add_months_spec y 1 d (-1) = (y - 1, 12, Z.min d 31)) /\
  List.length _DAYS_IN_MONTHS = 25%nat.
Proof.
  split; [|split; [|split; [|reflexivity]]].
  - intros r Hr. split; [now apply (add_MONTH_built self q)|].
    intros i y mo d n Hy Hmo Hd Hn.
    destruct (add_months_int32 y mo d n) as [[Y M] D] eqn:E.
    exists Y, M, D. split; [reflexivity|].
    destruct (add_MONTH_bnth self q r i y mo d n Hr Hy Hmo Hd Hn Y M D E)
      as (_ & H1 & H2 & H3 & H4).
    repeat split; auto.
    intros R1 R2. rewrite <- E. symmetry.
    now apply add_months_int32_exact.
  - intros W C. destruct (add_MONTH_ok self q W C) as (r & Hr & Wr & _).
    eauto.
  - apply add_months_rollover.
Qed.

(** C2.  Adding a MONTH or a YEAR period clamps the day of the month: the
    result keeps the target month and its day is the smaller of the
    original day and the length of the target month, so a day the month
    cannot hold becomes the last day of that month and nothing rolls into
    the next month.  31 March 2020 plus one month is 30 April 2020, and
    29 February 2020 plus one year is 28 February 2021. *)
Theorem add_clamps_day_of_month :
  (forall self q r i y mo d n,
      add self (mkPeriodTensor q MONTH) = Ok r ->
      Tensor.bnth (_years self) i = Some y ->
      Tensor.bnth (_months self) i = Some mo ->
      Tensor.bnth (_days self) i = Some d ->
      Tensor.bnth q i = Some n ->
      exists Y M,
        Tensor.bnth (_years r) i = Some Y /\
        Tensor.bnth (_months r) i = Some M /\
        M = Int32.wrap32 (mo - 1 + n) mod 12 + 1 /\
        Tensor.bnth (_days r) i = Some (Z.min d (month_length Y M))) /\
  (forall self q r i y mo d n,
      add self (mkPeriodTensor q YEAR) = Ok r ->
      Tensor.bnth (_years self) i = Some y ->
      Tensor.bnth (_months self) i = Some mo ->
      Tensor.bnth (_days self) i = Some d ->
      Tensor.bnth q i = Some n ->
      1 <= mo <= 12 ->
      Tensor.bnth (_years r) i = Some (Int32.add y n) /\
      Tensor.bnth (_months r) i = Some mo /\
      Tensor.bnth (_days r) i =
      Some (Z.min d (month_length (Int32.add y n) mo))) /\
  (d0 <- from_ymd [2020] [3] [31] true ;;
   add d0 (mkPeriodTensor [1] MONTH)) = from_ymd [2020] [4] [30] true /\
  (d0 <- from_ymd [2020] [2] [29] true ;;
   add d0 (mkPeriodTensor [1] YEAR)) = from_ymd [2021] [2] [28] true.
Proof.
  split; [|split; [|split]].
  - intros self q r i y mo d n Hr Hy Hmo Hd Hn.
    destruct (add_months_int32 y mo d n) as [[Y M] D] eqn:E.
    destruct (add_MONTH_bnth self q r i y mo d n Hr Hy Hmo Hd Hn Y M D E)
      as (HM & H1 & H2 & H3 & _).
    exists Y, M. unfold add_months_int32 in E. cbv zeta in E.
    injection E as EY EM ED. repeat split; auto.
    rewrite H3, <- ED, EY, EM. now rewrite days_in_month_month_length.
  - intros self q r i y mo d n Hr Hy Hmo Hd Hn HM.
    destruct (add_YEAR_bnth self q r i y mo d n Hr Hy Hmo Hd Hn HM)
      as (H1 & H2 & H3 & _).
    repeat split; auto. now rewrite H3, days_in_month_month_length.
  - reflexivity.
  - reflexivity.
Qed.

(** The errors of MONTH and YEAR additions come from shapes and from the
    table lookup, never from an assertion. *)
Lemma add_MONTH_raise (self : DateTensor) (q : Tensor.t Z) (e : exn) :
  add self (mkPeriodTensor q MONTH) = Raise e ->
  e = IncompatibleShapes \/ e = IndexOutOfRange.
Proof.
  rewrite add_MONTH. intros H.
  apply bind_raise in H as [H | (mt & _ & H)];
    [left; eapply map2_raise; eauto|].
  apply bind_raise in H as [H | (yt & _ & H)];
    [left; eapply map2_raise; eauto|].
  cbv zeta in H.
  apply bind_raise in H as [H | (dt & _ & H)];
    [eapply adjust_day_raise; eauto|].
  left. eapply from_ymd_unvalidated_raise; eauto.
Qed.

Lemma add_YEAR_raise (self : DateTensor) (q : Tensor.t Z) (e : exn) :
  add self (mkPeriodTensor q YEAR) = Raise e ->
  e = IncompatibleShapes \/ e = IndexOutOfRange.
Proof.
  rewrite add_YEAR. intros H.
  apply bind_raise in H as [H | (yt & _ & H)];
    [left; eapply map2_raise; eauto|].
  apply bind_raise in H as [H | (mt & _ & H)];
    [left; eapply broadcast_to_raise; eauto|].
  apply bind_raise in H as [H | (dt & _ & H)];
    [eapply adjust_day_raise; eauto|].
  left. eapply from_ymd_unvalidated_raise; eauto.
Qed.

(** C6.  Adding a WEEK period of quantity [n] is adding a DAY period of
    quantity [7 n]: the two additions are the same computation, with the
    product taken in int32 (it is [7 * n] whenever that fits), and when
    they succeed the two results compare equal everywhere. *)
Theorem week_is_seven_days (self : DateTensor) (q : Tensor.t Z) :
  add self (mkPeriodTensor q WEEK) =
  add self (mkPeriodTensor (Tensor.map (fun n => Int32.mul n 7) q) DAY) /\
  (Forall (fun n => Int32.in_range (7 * n)) q ->
   add self (mkPeriodTensor q WEEK) =
   add self (mkPeriodTensor (Tensor.map (fun n => 7 * n) q) DAY)) /\
  (forall a,
      add self (mkPeriodTensor q WEEK) = Ok a ->
      exists b,
        add self (mkPeriodTensor (Tensor.map (fun n => Int32.mul n 7) q) DAY)
        = Ok b /\
        __eq__ a b = Ok (Tensor.map (fun _ => true) (_ordinals a))).
Proof.
  split; [apply add_WEEK | split].
  - intros F. rewrite add_WEEK. do 2 f_equal.
    unfold Tensor.map. apply map_ext_in. intros n Hn.
    rewrite Forall_forall in F. unfold Int32.mul.
    rewrite Z.mul_comm. apply wrap32_id. auto.
  - intros a Ha. exists a. split; [now rewrite <- add_WEEK|].
    apply eq_diag.
Qed.

(** C7.  Subtracting a period is adding the period with the same type tag
    and the negated quantity, so subtraction clamps the day as addition
    does: 31 March 2020 minus one month is 29 February 2020 and
    29 February 2020 minus one year is 28 February 2019.  The negation is
    the int32 one, the integer opposite for every quantity but the least
    int32. *)
Theorem sub_is_add_negated :
  (forall self p,
      sub self p =
      add self (mkPeriodTensor (Tensor.map Int32.neg (quantity p))
                  (period_type p))) /\
  (forall n, Int32.in_range n -> n <> Int32.min_int -> Int32.neg n = - n) /\
  (d0 <- from_ymd [2020] [3] [31] true ;;
   sub d0 (mkPeriodTensor [1] MONTH)) = from_ymd [2020] [2] [29] true /\
  (d0 <- from_ymd [2020] [2] [29] true ;;
   sub d0 (mkPeriodTensor [1] YEAR)) = from_ymd [2019] [2] [28] true.
Proof.
  split; [reflexivity | split; [|split; reflexivity]].
  intros n R Hn. unfold Int32.neg. apply wrap32_id.
  unfold Int32.in_range, Int32.min_int, Int32.max_int in *. lia.
Qed.

(** C9.  Adding a DAY period rebuilds the result through the ordinals
    factory with validation enabled: it raises a validation error as soon
    as one resulting ordinal is not positive, and succeeds with these
    ordinals otherwise.  MONTH and YEAR additions build their result
    without validation and never raise a validation error. *)
Theorem day_addition_validates (self : DateTensor) (q : Tensor.t Z) :
  add self (mkPeriodTensor q DAY) =
  (ordinals <- Tensor.map2 Int32.add (_ordinals self) q ;;
   from_ord ordinals true) /\
  (forall o,
      Tensor.map2 Int32.add (_ordinals self) q = Ok o ->
      (Exists (fun x => x <= 0) o ->
       add self (mkPeriodTensor q DAY) =
       Raise (AssertionFailed OrdinalPositive)) /\
      (Forall (fun x => 0 < x) o ->
       exists r, add self (mkPeriodTensor q DAY) = Ok r /\
                 _ordinals r = o)) /\
  is_validation_error (add self (mkPeriodTensor q MONTH)) = false /\
  is_validation_error (add self (mkPeriodTensor q YEAR)) = false.
Proof.
  split; [apply add_DAY | split; [|split]].
  - intros o Ho. rewrite add_DAY, Ho. cbn [bind].
    destruct (from_ord_cases ordinal_to_ymd o) as [Hf [[F E] | [X E]]].
    + split.
      * intros X. exfalso. revert F.
        apply (Exists_not_Forall (fun x => x <= 0) (fun x => 0 < x));
          [intros; lia | exact X].
      * intros _. rewrite E, Hf. eexists. split; reflexivity.
    + split; [intros _; exact E|].
      intros F. exfalso. revert F.
      apply (Exists_not_Forall (fun x => x <= 0) (fun x => 0 < x));
        [intros; lia | exact X].
  - destruct (add self (mkPeriodTensor q MONTH)) as [r|e] eqn:E;
      [reflexivity|].
    destruct (add_MONTH_raise _ _ _ E) as [-> | ->]; reflexivity.
  - destruct (add self (mkPeriodTensor q YEAR)) as [r|e] eqn:E;
      [reflexivity|].
    destruct (add_YEAR_raise _ _ _ E) as [-> | ->]; reflexivity.
Qed.

End Addition.

(** ** Validation in the factories *)

Section Validation.

Variable ymd_to_ordinal : Z -> Z -> Z -> Z.
Variable ordinal_to_ymd : Z -> Z * Z * Z.

Local Abbreviation from_ymd := (from_year_month_day ymd_to_ordinal).
Local Abbreviation from_ord := (from_ordinals ordinal_to_ymd).

(** C3.  With validation the year/month/day factory asserts years
    positive, months within 1..12, days positive and every day at most the
    table entry of its month and leap status: it succeeds on valid
    arguments and raises a validation error on any violation (29 February
    2019, month 0 or 13, day 0).  Without validation nothing is checked and
    the call succeeds on any values.  The ordinals factory asserts positive
    ordinals exactly when validation is enabled. *)
Theorem factories_validate :
  (forall year month day,
      broadcastable3 year month day = true ->
      (valid_dates year month day ->
       exists o, from_ymd year month day true =
                 Ok (mkDateTensor o year month day)) /\
      (~ valid_dates year month day ->
       is_validation_error (from_ymd year month day true) = true)) /\
  (forall year month day,
      is_validation_error (from_ymd year month day false) = false /\
      (broadcastable3 year month day = true ->
       exists o, from_ymd year month day false =
                 Ok (mkDateTensor o year month day))) /\
  (forall ordinals,
      is_ok (from_ord ordinals false) = true /\
      (Forall (fun o => 0 < o) ordinals ->
       from_ord ordinals true = from_ord ordinals false) /\
      (Exists (fun o => o <= 0) ordinals ->
       from_ord ordinals true = Raise (AssertionFailed OrdinalPositive))) /\
  from_ymd [2019] [2] [29] true =
  Raise (AssertionFailed DayAtMostMonthLength) /\
  is_ok (from_ymd [2020] [2] [29] true) = true /\
  from_ymd [2020] [0] [1] true = Raise (AssertionFailed MonthAtLeastJanuary) /\
  from_ymd [2020] [13] [1] true = Raise (AssertionFailed MonthAtMostDecember) /\
  from_ymd [2020] [1] [0] true = Raise (AssertionFailed DayPositive) /\
  from_ymd [0] [1] [1] true = Raise (AssertionFailed YearPositive) /\
  is_ok (from_ymd [0] [13] [0] false) = true.
Proof.
  split; [|split; [|split; [|repeat split]]].
  - intros year month day Hb.
    destruct (from_ymd_validated_cases ymd_to_ordinal year month day Hb)
      as [[V E] | [V [c E]]].
    + split; [|intros NV; contradiction].
      intros _. rewrite E.
      destruct (from_ymd_unvalidated_ok ymd_to_ordinal year month day Hb)
        as (o & _ & Ho). eauto.
    + split; [intros V'; contradiction|].
      intros _. now rewrite E.
  - intros year month day. split.
    + destruct (from_ymd year month day false) as [r|e] eqn:E;
        [reflexivity|].
      now rewrite (from_ymd_unvalidated_raise _ _ _ _ _ E).
    + intros Hb.
      destruct (from_ymd_unvalidated_ok ymd_to_ordinal year month day Hb)
        as (o & _ & Ho). eauto.
  - intros ordinals.
    destruct (from_ord_cases ordinal_to_ymd ordinals) as [Hf Hc].
    split; [now rewrite Hf|]. split.
    + intros F. destruct Hc as [[_ E] | [X _]]; [exact E|].
      exfalso. revert F.
      apply (Exists_not_Forall (fun x => x <= 0) (fun x => 0 < x));
        [intros; lia | exact X].
    + intros X. destruct Hc as [[F _] | [_ E]]; [|exact E].
      exfalso. revert F.
      apply (Exists_not_Forall (fun x => x <= 0) (fun x => 0 < x));
        [intros; lia | exact X].
Qed.

End Validation.

(** ** Comparisons by ordinal *)

(** C8.  Each of the six comparisons of two date tensors is the elementwise
    comparison of their ordinals, the operands being broadcast: it succeeds
    when the ordinals broadcast, element [i] of the result compares the
    ordinals at [i] (so [a > b] holds exactly when
    [a.ordinal() > b.ordinal()]), and the result depends on the ordinals
    only, whatever years, months and days the operands carry. *)
Theorem comparisons_by_ordinal (a b : DateTensor) :
  (Tensor.compatible (ordinal a) (ordinal b) = true ->
   is_ok (__eq__ a b) = true /\ is_ok (__ne__ a b) = true /\
   is_ok (__gt__ a b) = true /\ is_ok (__ge__ a b) = true /\
   is_ok (__lt__ a b) = true /\ is_ok (__le__ a b) = true) /\
  (forall i x y,
      Tensor.bnth (ordinal a) i = Some x ->
      Tensor.bnth (ordinal b) i = Some y ->
      (forall r, __eq__ a b = Ok r ->
                 Tensor.bnth r i = Some (x =? y) /\
                 (Tensor.bnth r i = Some true <-> x = y)) /\
      (forall r, __ne__ a b = Ok r ->
                 Tensor.bnth r i = Some (negb (x =? y)) /\
                 (Tensor.bnth r i = Some true <-> x <> y)) /\
      (forall r, __gt__ a b = Ok r ->
                 Tensor.bnth r i = Some (x >? y) /\
                 (Tensor.bnth r i = Some true <-> x > y)) /\
      (forall r, __ge__ a b = Ok r ->
                 Tensor.bnth r i = Some (x >=? y) /\
                 (Tensor.bnth r i = Some true <-> x >= y)) /\
      (forall r, __lt__ a b = Ok r ->
                 Tensor.bnth r i = Some (x <? y) /\
                 (Tensor.bnth r i = Some true <-> x < y)) /\
      (forall r, __le__ a b = Ok r ->
                 Tensor.bnth r i = Some (x <=? y) /\
                 (Tensor.bnth r i = Some true <-> x <= y))) /\
  (forall a' b',
      ordinal a' = ordinal a -> ordinal b' = ordinal b ->
      __eq__ a' b' = __eq__ a b /\ __ne__ a' b' = __ne__ a b /\
      __gt__ a' b' = __gt__ a b /\ __ge__ a' b' = __ge__ a b /\
      __lt__ a' b' = __lt__ a b /\ __le__ a' b' = __le__ a b).
Proof.
  split; [|split].
  - intros Hc.
    unfold __eq__, __ne__, __gt__, __ge__, __lt__, __le__.
    change (_ordinals a) with (ordinal a).
    repeat split;
      match goal with
      | |- is_ok (Tensor.map2 ?f _ _) = true =>
          destruct (map2_ok f _ _ Hc) as (r & -> & _); reflexivity
      end.
  - intros i x y Hx Hy.
    unfold __eq__, __ne__, __gt__, __ge__, __lt__, __le__.
    change (_ordinals a) with (ordinal a).
    repeat split; intros;
      match goal with
      | H : Tensor.map2 ?f _ _ = Ok ?r |- _ =>
          pose proof (map2_bnth f _ _ _ _ _ _ H Hx Hy) as Hr
      end; try exact Hr;
      match goal with
      | H : Tensor.bnth ?r i = Some true |- _ =>
          rewrite Hr in H; injection H as H
      | |- Tensor.bnth ?r i = Some true => rewrite Hr; f_equal
      end.
    + now apply Z.eqb_eq.
    + now apply Z.eqb_eq.
    + apply negb_true_iff in H0. now apply Z.eqb_neq.
    + apply negb_true_iff. now apply Z.eqb_neq.
    + now apply Z.gtb_gt.
    + now apply Z.gtb_gt.
    + now apply Z.geb_ge.
    + now apply Z.geb_ge.
    + now apply Z.ltb_lt.
    + now apply Z.ltb_lt.
    + now apply Z.leb_le.
    + now apply Z.leb_le.
  - intros a' b' Ea Eb.
    unfold __eq__, __ne__, __gt__, __ge__, __lt__, __le__.
    change (_ordinals a') with (ordinal a').
    change (_ordinals a) with (ordinal a).
    rewrite Ea, Eb. repeat split.
Qed.

(** ** The polymorphic converter *)

Section Converter.

Variable ymd_to_ordinal : Z -> Z -> Z -> Z.
Variable ordinal_to_ymd : Z -> Z * Z * Z.
Variable tf_convert_to_tensor : PyValue -> Exc (Tensor.t Z).

Local Abbreviation from_ord := (from_ordinals ordinal_to_ymd).
Local Abbreviation convert :=
  (convert_to_date_tensor ymd_to_ordinal ordinal_to_ymd
     tf_convert_to_tensor).
Local Abbreviation fallback :=
  (last_ditch ordinal_to_ymd tf_convert_to_tensor).

(** The ordinals factory raises nothing but its assertion. *)
Lemma from_ord_raise (ordinals : Tensor.t Z) (v : bool) (e : exn) :
  from_ord ordinals v = Raise e -> e = AssertionFailed OrdinalPositive.
Proof.
  destruct (from_ord_cases ordinal_to_ymd ordinals) as [Hf [[_ E] | [_ E]]];
    destruct v; rewrite ?E, ?Hf; congruence.
Qed.

(** An unrecognised input goes to the last lines of the converter. *)
Lemma unrecognized_fallback (v : PyValue) :
  unrecognized v = true -> convert v = fallback v.
Proof.
  destruct v as [| z | attrs | [|x rest] | t | dtype data | d | name]; simpl;
    try discriminate; try reflexivity.
  intros H. apply andb_true_iff in H as [H H3].
  apply andb_true_iff in H as [H1 H2].
  apply negb_true_iff in H1, H2, H3. now rewrite H1, H2, H3.
Qed.

(** C4, as the code has it.  A tensor is taken as ordinals and built by the
    ordinals factory with validation, and so is a Python integer once
    coerced; every numpy array, of dates or of plain integers, is read as
    day counts from 1 January 1970, shifted by 719163 and built from
    ordinals without validation, so its conversion never fails. *)
Theorem converter_numeric_inputs :
  (forall t, convert (PyTensor t) = from_ord t true) /\
  (forall z t,
      tf_convert_to_tensor (PyInt z) = Ok t ->
      convert (PyInt z) = from_ord t true) /\
  (forall dtype data,
      convert (PyNdArray dtype data) =
      from_ord
        (List.map (fun x => Int32.add (Int32.wrap32 x) _ORDINAL_OF_1_1_1970)
           data) false /\
      is_ok (convert (PyNdArray dtype data)) = true).
Proof.
  split; [reflexivity | split].
  - intros z t Ht. simpl. unfold last_ditch. rewrite Ht. cbn [bind].
    destruct (from_ord t true) as [r|e] eqn:E; [reflexivity|].
    now rewrite (from_ord_raise _ _ _ E).
  - intros dtype data.
    assert (convert (PyNdArray dtype data) =
            from_ord
              (List.map
                 (fun x => Int32.add (Int32.wrap32 x) _ORDINAL_OF_1_1_1970)
                 data) false) as E.
    { simpl. unfold from_np_datetimes, Tensor.map.
      rewrite List.map_map. now destruct dtype. }
    split; [exact E|]. rewrite E.
    destruct (from_ord_cases ordinal_to_ymd
                (List.map
                   (fun x =>
                      Int32.add (Int32.wrap32 x) _ORDINAL_OF_1_1_1970)
                   data)) as [-> _].
    reflexivity.
Qed.

(** C5, on the code.  When an unrecognised input cannot be coerced to a
    tensor and the coercion raises a [ValueError], the handler builds its
    message by adding the exception to a string: the converter raises the
    [TypeError] of that addition, and no [ValueError] describing the input
    ever leaves it. *)
Theorem unrecognized_input_raises_type_error (v : PyValue) (msg : string) :
  unrecognized v = true ->
  tf_convert_to_tensor v = Raise (ValueError msg) ->
  convert v =
  Raise (TypeError "can only concatenate str (not ValueError) to str") /\
  forall text, convert v <> Raise (ValueError text).
Proof.
  intros Hu Hc. rewrite (unrecognized_fallback v Hu).
  unfold last_ditch. rewrite Hc. cbn [bind]. unfold str_concat_exn.
  cbn [bind]. split; [reflexivity | discriminate].
Qed.

(** C10.  On a non-empty sequence the converter chooses its factory from
    the first element and the length alone: the datetimes factory when the
    first element has a [year] attribute, else the tuples factory when the
    first element is a sequence, else the year/month/day factory when the
    sequence has exactly three elements (and the last lines of the
    converter otherwise).  The other elements play no part in the choice:
    they only reach the chosen factory. *)
Theorem dispatch_on_first_element (x : PyValue) (rest : list PyValue) :
  (hasattr x "year" = true ->
   convert (PySeq (x :: rest)) =
   from_datetimes ymd_to_ordinal tf_convert_to_tensor (x :: rest)) /\
  (hasattr x "year" = false -> is_sequence x = true ->
   convert (PySeq (x :: rest)) =
   from_tuples ymd_to_ordinal tf_convert_to_tensor (x :: rest) true) /\
  (hasattr x "year" = false -> is_sequence x = false ->
   forall y z, rest = [y; z] ->
   convert (PySeq (x :: rest)) =
   from_year_month_day_py ymd_to_ordinal tf_convert_to_tensor x y z true) /\
  (hasattr x "year" = false -> is_sequence x = false ->
   List.length rest <> 2%nat ->
   convert (PySeq (x :: rest)) = fallback (PySeq (x :: rest))).
Proof.
  repeat split.
  - intros H. simpl. now rewrite H.
  - intros H1 H2. simpl. now rewrite H1, H2.
  - intros H1 H2 y z ->. simpl. now rewrite H1, H2.
  - intros H1 H2 H3. simpl. rewrite H1, H2.
    destruct (Nat.eqb_spec (List.length rest) 2); [contradiction|].
    reflexivity.
Qed.

End Converter.

(** ** Runs on concrete dates *)

(** 31 January 2020, as the validating factory builds it. *)
Lemma add_month_computes_witness :
  exists r,
    Concrete.add (mkDateTensor [737455] [2020] [1] [31])
      (mkPeriodTensor [-2] MONTH) = Ok r /\
    Tensor.bnth (_years r) 0 = Some 2019 /\
    Tensor.bnth (_months r) 0 = Some 11 /\
    Tensor.bnth (_days r) 0 = Some 30 /\
    add_months_spec 2020 1 31 (-2) = (2019, 11, 30).
Proof.
  destruct (add_month_computes Gregorian.ymd_to_ordinal
              Gregorian.ordinal_to_ymd
              (mkDateTensor [737455] [2020] [1] [31]) [-2])
    as (Hval & Hok & _).
  destruct Hok as (r & Hr & _);
    [repeat split | reflexivity |].
  exists r. split; [exact Hr|].
  destruct (Hval r Hr) as [_ Hel].
  destruct (Hel 0%nat 2020 1 31 (-2) eq_refl eq_refl eq_refl eq_refl)
    as (Y & M & D & E & H1 & H2 & H3 & _ & Hs).
  vm_compute in E. injection E as <- <- <-.
  split; [exact H1 | split; [exact H2 | split; [exact H3 |]]].
  apply Hs; vm_compute; split; discriminate.
Defined.

Lemma add_clamps_day_of_month_witness :
  (exists Y M,
      Tensor.bnth [2020] 0 = Some Y /\ Tensor.bnth [4] 0 = Some M /\
      M = Int32.wrap32 (3 - 1 + 1) mod 12 + 1 /\
      Tensor.bnth [30] 0 = Some (Z.min 31 (month_length Y M))) /\
  Tensor.bnth [2021] 0 = Some (Int32.add 2020 1) /\
  Tensor.bnth [2] 0 = Some 2 /\
  Tensor.bnth [28] 0 = Some (Z.min 29 (month_length (Int32.add 2020 1) 2)).
Proof.
  destruct (add_clamps_day_of_month Gregorian.ymd_to_ordinal
              Gregorian.ordinal_to_ymd) as (HM & HY & _ & _).
  assert (Concrete.add (mkDateTensor [737515] [2020] [3] [31])
            (mkPeriodTensor [1] MONTH) =
          Ok (mkDateTensor [737545] [2020] [4] [30])) as Hm
      by (vm_compute; reflexivity).
  assert (Concrete.add (mkDateTensor [737484] [2020] [2] [29])
            (mkPeriodTensor [1] YEAR) =
          Ok (mkDateTensor [737849] [2021] [2] [28])) as Hy
      by (vm_compute; reflexivity).
  split.
  - exact (HM _ _ _ 0%nat 2020 3 31 1 Hm eq_refl eq_refl eq_refl eq_refl).
  - exact (HY _ _ _ 0%nat 2020 2 29 1 Hy eq_refl eq_refl eq_refl eq_refl
             ltac:(lia)).
Defined.

Lemma factories_validate_witness :
  (exists o, Concrete.from_ymd [2020; 2021] [2; 2] [29; 28] true =
             Ok (mkDateTensor o [2020; 2021] [2; 2] [29; 28])) /\
  is_validation_error (Concrete.from_ymd [2020; 2021] [2; 2] [29; 29] true)
  = true /\
  Concrete.from_ord [1; 719163] true = Concrete.from_ord [1; 719163] false /\
  Concrete.from_ord [1; 0] true = Raise (AssertionFailed OrdinalPositive).
Proof.
  destruct (factories_validate Gregorian.ymd_to_ordinal
              Gregorian.ordinal_to_ymd) as (Hv & _ & Ho & _).
  split; [|split; [|split]].
  - destruct (Hv [2020; 2021] [2; 2] [29; 28] eq_refl) as [Hok _].
    apply Hok. unfold valid_dates, constants.JANUARY, constants.DECEMBER.
    repeat split; try (repeat constructor; lia).
    intros [|[|i]] y m d Hy Hm Hd; simpl in *;
      try (destruct i; discriminate);
      injection Hy as <-; injection Hm as <-; injection Hd as <-;
      vm_compute; discriminate.
  - destruct (Hv [2020; 2021] [2; 2] [29; 29] eq_refl) as [_ Hbad].
    apply Hbad. intros (_ & _ & _ & H).
    specialize (H 1%nat 2021 2 29 eq_refl eq_refl eq_refl).
    vm_compute in H. now apply H.
  - destruct (Ho [1; 719163]) as (_ & Hpos & _).
    apply Hpos. repeat constructor; lia.
  - destruct (Ho [1; 0]) as (_ & _ & Hneg).
    apply Hneg. apply Exists_cons_tl, Exists_cons_hd. lia.
Defined.

Lemma week_is_seven_days_witness :
  Concrete.add (mkDateTensor [737484] [2020] [2] [29])
    (mkPeriodTensor [1; -2] WEEK) =
  Concrete.add (mkDateTensor [737484] [2020] [2] [29])
    (mkPeriodTensor [7; -14] DAY) /\
  exists a b,
    Concrete.add (mkDateTensor [737484] [2020] [2] [29])
      (mkPeriodTensor [1; -2] WEEK) = Ok a /\
    Concrete.add (mkDateTensor [737484] [2020] [2] [29])
      (mkPeriodTensor [7; -14] DAY) = Ok b /\
    __eq__ a b = Ok [true; true].
Proof.
  destruct (week_is_seven_days Gregorian.ymd_to_ordinal
              Gregorian.ordinal_to_ymd
              (mkDateTensor [737484] [2020] [2] [29]) [1; -2])
    as (_ & Hfit & Heq).
  split.
  - apply Hfit. repeat constructor; vm_compute; discriminate.
  - eexists. destruct (Heq _ ltac:(vm_compute; reflexivity)) as (b & Hb & E).
    exists b. split; [vm_compute; reflexivity|]. split; [exact Hb | exact E].
Defined.

Lemma sub_is_add_negated_witness :
  Concrete.sub (mkDateTensor [737515] [2020] [3] [31])
    (mkPeriodTensor [1] MONTH) =
  Concrete.add (mkDateTensor [737515] [2020] [3] [31])
    (mkPeriodTensor [-1] MONTH) /\
  Int32.neg 5 = -5.
Proof.
  destruct (sub_is_add_negated Gregorian.ymd_to_ordinal
              Gregorian.ordinal_to_ymd) as (Hsub & Hneg & _).
  split.
  - exact (Hsub (mkDateTensor [737515] [2020] [3] [31])
             (mkPeriodTensor [1] MONTH)).
  - apply Hneg; [vm_compute; split; discriminate | discriminate].
Defined.

Lemma comparisons_by_ordinal_witness :
  exists r,
    __gt__ (mkDateTensor [737515; 737484] [2020; 2020] [3; 2] [31; 29])
      (mkDateTensor [737500] [2020] [3] [16]) = Ok r /\
    Tensor.bnth r 0 = Some true /\ Tensor.bnth r 1 = Some false.
Proof.
  destruct (comparisons_by_ordinal
              (mkDateTensor [737515; 737484] [2020; 2020] [3; 2] [31; 29])
              (mkDateTensor [737500] [2020] [3] [16])) as (_ & Hel & _).
  eexists. split; [reflexivity|]. split.
  - destruct (Hel 0%nat 737515 737500 eq_refl eq_refl)
      as (_ & _ & Hgt & _).
    destruct (Hgt _ eq_refl) as [_ Hiff]. apply Hiff. reflexivity.
  - destruct (Hel 1%nat 737484 737500 eq_refl eq_refl)
      as (_ & _ & Hgt & _).
    destruct (Hgt _ eq_refl) as [Hv _]. exact Hv.
Defined.

Lemma day_addition_validates_witness :
  Concrete.add (mkDateTensor [3] [1] [1] [3]) (mkPeriodTensor [-3] DAY) =
  Raise (AssertionFailed OrdinalPositive) /\
  exists r,
    Concrete.add (mkDateTensor [3] [1] [1] [3]) (mkPeriodTensor [-2] DAY) =
    Ok r /\ _ordinals r = [1].
Proof.
  split.
  - destruct (day_addition_validates Gregorian.ymd_to_ordinal
                Gregorian.ordinal_to_ymd
                (mkDateTensor [3] [1] [1] [3]) [-3]) as (_ & Hd & _).
    destruct (Hd [0] eq_refl) as [Hneg _].
    apply Hneg. constructor. lia.
  - destruct (day_addition_validates Gregorian.ymd_to_ordinal
                Gregorian.ordinal_to_ymd
                (mkDateTensor [3] [1] [1] [3]) [-2]) as (_ & Hd & _).
    destruct (Hd [1] eq_refl) as [_ Hpos].
    apply Hpos. repeat constructor.
Defined.

Lemma converter_numeric_inputs_witness :
  Concrete.convert (PyInt 737143) = Concrete.from_ord [737143] true /\
  Concrete.convert (PyNdArray np_int64 [1]) = Concrete.from_ord [719164] false.
Proof.
  destruct (converter_numeric_inputs Gregorian.ymd_to_ordinal
              Gregorian.ordinal_to_ymd TfRuntime.convert_to_tensor)
    as (_ & Hint & Hnp).
  split.
  - exact (Hint 737143 [737143] eq_refl).
  - exact (proj1 (Hnp np_int64 [1])).
Defined.

(** C4, as stated, fails: a numpy array of plain integers is a raw numeric
    array with no date semantics, yet the converter does not take its
    numbers as ordinals; [1] becomes 2 January 1970, unvalidated. *)
Lemma raw_ndarray_is_not_ordinals :
  ~ (forall v,
        raw_numeric v = true ->
        Concrete.convert v = Concrete.from_ord (raw_values v) true).
Proof.
  intros H. specialize (H (PyNdArray np_int64 [1]) eq_refl).
  vm_compute in H. discriminate H.
Defined.

Lemma unrecognized_input_raises_type_error_witness :
  Concrete.convert PyNone =
  Raise (TypeError "can only concatenate str (not ValueError) to str").
Proof.
  exact (proj1 (unrecognized_input_raises_type_error
                  Gregorian.ymd_to_ordinal Gregorian.ordinal_to_ymd
                  TfRuntime.convert_to_tensor PyNone _ eq_refl eq_refl)).
Defined.

Lemma dispatch_on_first_element_witness :
  Concrete.convert
    (PySeq [Concrete.date 2020 1 31; PyNone]) =
  from_datetimes Gregorian.ymd_to_ordinal TfRuntime.convert_to_tensor
    [Concrete.date 2020 1 31; PyNone] /\
  Concrete.convert
    (PySeq [PySeq [PyInt 2020; PyInt 1; PyInt 31]; PyNone]) =
  from_tuples Gregorian.ymd_to_ordinal TfRuntime.convert_to_tensor
    [PySeq [PyInt 2020; PyInt 1; PyInt 31]; PyNone] true /\
  Concrete.convert (PySeq [PyInt 2020; PyInt 1; PyInt 31]) =
  from_year_month_day_py Gregorian.ymd_to_ordinal TfRuntime.convert_to_tensor
    (PyInt 2020) (PyInt 1) (PyInt 31) true /\
  Concrete.convert (PySeq [PyInt 2020; PyInt 1]) =
  last_ditch Gregorian.ordinal_to_ymd TfRuntime.convert_to_tensor
    (PySeq [PyInt 2020; PyInt 1]).
Proof.
  split; [|split; [|split]].
  - apply (dispatch_on_first_element Gregorian.ymd_to_ordinal
             Gregorian.ordinal_to_ymd TfRuntime.convert_to_tensor
             (Concrete.date 2020 1 31) [PyNone]). reflexivity.
  - apply (dispatch_on_first_element Gregorian.ymd_to_ordinal
             Gregorian.ordinal_to_ymd TfRuntime.convert_to_tensor
             (PySeq [PyInt 2020; PyInt 1; PyInt 31]) [PyNone]);
      reflexivity.
  - apply (dispatch_on_first_element Gregorian.ymd_to_ordinal
             Gregorian.ordinal_to_ymd TfRuntime.convert_to_tensor
             (PyInt 2020) [PyInt 1; PyInt 31]); reflexivity.
  - apply (dispatch_on_first_element Gregorian.ymd_to_ordinal
             Gregorian.ordinal_to_ymd TfRuntime.convert_to_tensor
             (PyInt 2020) [PyInt 1]); [reflexivity | reflexivity |].
    simpl. discriminate.
Defined.

(** ** More int32 facts *)

Lemma wrap32_add_l (a b : Z) :
  Int32.wrap32 (Int32.wrap32 a + b) = Int32.wrap32 (a + b).
Proof.
  unfold Int32.wrap32, Int32.modulus.
  replace ((a + 2 ^ 31) mod 2 ^ 32 - 2 ^ 31 + b + 2 ^ 31)
    with ((a + 2 ^ 31) mod 2 ^ 32 + b) by lia.
  rewrite Zplus_mod_idemp_l. do 2 f_equal. lia.
Qed.

Lemma wrap32_add_r (a b : Z) :
  Int32.wrap32 (a + Int32.wrap32 b) = Int32.wrap32 (a + b).
Proof. rewrite Z.add_comm, wrap32_add_l. f_equal. lia. Qed.

Lemma add_then_sub (o n : Z) :
  Int32.sub (Int32.add o n) o = Int32.wrap32 n.
Proof.
  unfold Int32.sub, Int32.add.
  replace (Int32.wrap32 (o + n) - o) with (Int32.wrap32 (o + n) + - o) by lia.
  rewrite wrap32_add_l. f_equal. lia.
Qed.

Lemma add_then_add_neg (o n : Z) :
  Int32.add (Int32.add o n) (Int32.neg n) = Int32.wrap32 o.
Proof.
  unfold Int32.add, Int32.neg.
  rewrite wrap32_add_l, wrap32_add_r. f_equal. lia.
Qed.

(** ** Lengths of periods, distances between dates, weekdays *)

Section Distances.

Variable ymd_to_ordinal : Z -> Z -> Z -> Z.
Variable ordinal_to_ymd : Z -> Z * Z * Z.

Local Abbreviation add := (__add__ ymd_to_ordinal ordinal_to_ymd).
Local Abbreviation sub := (__sub__ ymd_to_ordinal ordinal_to_ymd).
Local Abbreviation length_in_days :=
  (period_length_in_days ymd_to_ordinal ordinal_to_ymd).

(** Element [i] of a DAY addition. *)
Lemma add_DAY_bnth (self : DateTensor) (q : Tensor.t Z) (r : DateTensor)
  (i : nat) (o n : Z) :
  add self (mkPeriodTensor q DAY) = Ok r ->
  Tensor.bnth (_ordinals self) i = Some o -> Tensor.bnth q i = Some n ->
  0 < Int32.add o n /\
  Tensor.bnth (_ordinals r) i = Some (Int32.add o n) /\
  Tensor.bnth (_years r) i =
  Some (fst (fst (ordinal_to_ymd (Int32.add o n)))) /\
  Tensor.bnth (_months r) i =
  Some (snd (fst (ordinal_to_ymd (Int32.add o n)))) /\
  Tensor.bnth (_days r) i = Some (snd (ordinal_to_ymd (Int32.add o n))).
Proof.
  rewrite add_DAY. intros H Ho Hn.
  apply bind_ok in H as (ords & Hords & H).
  pose proof (map2_bnth _ _ _ _ _ _ _ Hords Ho Hn) as Hi.
  destruct (from_ord_cases ordinal_to_ymd ords) as [_ [[F _] | [_ E]]];
    [| rewrite E in H; discriminate].
  pose proof (Forall_bnth _ _ _ _ F Hi) as Hpos.
  rewrite (from_ord_fields _ _ _ _ H). simpl.
  split; [exact Hpos|]. split; [exact Hi|].
  split; [|split].
  - now apply (bnth_map (fun o => fst (fst (ordinal_to_ymd o)))).
  - now apply (bnth_map (fun o => snd (fst (ordinal_to_ymd o)))).
  - now apply (bnth_map (fun o => snd (ordinal_to_ymd o))).
Qed.

(** The shape of a DAY addition. *)
Lemma add_DAY_size (self : DateTensor) (q : Tensor.t Z) (r : DateTensor) :
  add self (mkPeriodTensor q DAY) = Ok r ->
  Tensor.compatible (_ordinals self) q = true /\
  well_shaped r /\
  Tensor.size (_ordinals r) =
  Tensor.broadcast_size (Tensor.size (_ordinals self)) (Tensor.size q).
Proof.
  rewrite add_DAY. intros H.
  apply bind_ok in H as (ords & Hords & H).
  destruct (map2_compatible _ _ _ _ Hords) as [Hc Hs].
  rewrite (from_ord_fields _ _ _ _ H). unfold well_shaped. simpl.
  rewrite !size_map. auto.
Qed.

(** X1.  The length in days of a DAY period is its quantity, and that of a
    WEEK period seven times its quantity, at every element and whatever the
    date: [period_length_in_days] succeeds whenever the addition does. *)
Theorem period_length_of_days_and_weeks (self : DateTensor)
  (q : Tensor.t Z) :
  (forall d, add self (mkPeriodTensor q DAY) = Ok d ->
             exists r, length_in_days self (mkPeriodTensor q DAY) = Ok r) /\
  (forall r i o n,
      length_in_days self (mkPeriodTensor q DAY) = Ok r ->
      Tensor.bnth (_ordinals self) i = Some o -> Tensor.bnth q i = Some n ->
      Int32.in_range n -> Tensor.bnth r i = Some n) /\
  (forall r i o n,
      length_in_days self (mkPeriodTensor q WEEK) = Ok r ->
      Tensor.bnth (_ordinals self) i = Some o -> Tensor.bnth q i = Some n ->
      Int32.in_range (7 * n) -> Tensor.bnth r i = Some (7 * n)).
Proof.
  assert (forall q' r i o n,
             length_in_days self (mkPeriodTensor q' DAY) = Ok r ->
             Tensor.bnth (_ordinals self) i = Some o ->
             Tensor.bnth q' i = Some n ->
             Tensor.bnth r i = Some (Int32.wrap32 n)) as Hday.
  { intros q' r i o n H Ho Hn. unfold period_length_in_days in H.
    apply bind_ok in H as (d & Hd & H).
    destruct (add_DAY_bnth self q' d i o n Hd Ho Hn) as (_ & Hi & _).
    rewrite <- (add_then_sub o n).
    exact (map2_bnth _ _ _ _ _ _ _ H Hi Ho). }
  split; [|split].
  - intros d Hd. unfold period_length_in_days. rewrite Hd. cbn [bind].
    destruct (add_DAY_size self q d Hd) as (Hc & _ & Hs).
    destruct (map2_ok Int32.sub (ordinal d) (_ordinals self)) as (r & Hr & _);
      [|eauto].
    unfold Tensor.compatible, ordinal. rewrite Hs.
    unfold Tensor.compatible in Hc. clear - Hc. shape_cases.
  - intros r i o n H Ho Hn R. rewrite (Hday q r i o n H Ho Hn).
    now rewrite wrap32_id.
  - intros r i o n H Ho Hn R. unfold period_length_in_days in H.
    rewrite add_WEEK in H.
    assert (Tensor.bnth (Tensor.map (fun n => Int32.mul n 7) q) i =
            Some (Int32.mul n 7)) as Hn'
        by now apply (bnth_map (fun n => Int32.mul n 7)).
    rewrite (Hday _ r i o _ H Ho Hn'). unfold Int32.mul.
    rewrite (Z.mul_comm n 7), (wrap32_id _ R). now rewrite wrap32_id.
Qed.

(** X2.  Subtracting the days just added gives the date back: after
    [(self + q days) - q days] every element has its original ordinal, and
    the year, month and day of that ordinal.  On positive ordinals the
    subtraction succeeds whenever the addition did. *)
Theorem sub_undoes_add_days (self : DateTensor) (q : Tensor.t Z)
  (r : DateTensor) :
  add self (mkPeriodTensor q DAY) = Ok r ->
  (forall r' i o n,
      sub r (mkPeriodTensor q DAY) = Ok r' ->
      Tensor.bnth (_ordinals self) i = Some o -> Tensor.bnth q i = Some n ->
      Int32.in_range o ->
      Tensor.bnth (_ordinals r') i = Some o /\
      Tensor.bnth (_years r') i = Some (fst (fst (ordinal_to_ymd o))) /\
      Tensor.bnth (_months r') i = Some (snd (fst (ordinal_to_ymd o))) /\
      Tensor.bnth (_days r') i = Some (snd (ordinal_to_ymd o))) /\
  (Forall (fun o => 0 < o <= Int32.max_int) (_ordinals self) ->
   exists r', sub r (mkPeriodTensor q DAY) = Ok r').
Proof.
  intros Hr. split.
  - intros r' i o n Hr' Ho Hn R. unfold __sub__ in Hr'. simpl in Hr'.
    destruct (add_DAY_bnth self q r i o n Hr Ho Hn) as (_ & Hi & _).
    pose proof (bnth_map Int32.neg q i n Hn) as Hn'.
    destruct (add_DAY_bnth r _ r' i _ _ Hr' Hi Hn') as (_ & H1 & H2 & H3 & H4).
    rewrite add_then_add_neg, (wrap32_id o R) in *. auto.
  - intros F. unfold __sub__. simpl. rewrite add_DAY.
    destruct (add_DAY_size self q r Hr) as (Hc & _ & Hs).
    destruct (map2_ok Int32.add (_ordinals r) (Tensor.map Int32.neg q))
      as (ords & Hords & _).
    { unfold Tensor.compatible. rewrite size_map, Hs.
      unfold Tensor.compatible in Hc. clear - Hc. shape_cases. }
    rewrite Hords. cbn [bind].
    destruct (from_ord_cases ordinal_to_ymd ords) as [Hf [[_ E] | [X _]]];
      [rewrite E, Hf; eauto|].
    exfalso. apply Exists_exists in X as (x & Hin & Hx).
    apply In_nth_error in Hin as [j Hj].
    destruct (map2_nth_error_inv _ _ _ _ _ _ Hords Hj)
      as (z & m & Hz & Hm & ->).
    destruct (bnth_defined_operands (_ordinals self) q (_ordinals r) j Hc Hs)
      as [[o Ho] [n Hn]]; [eauto|].
    destruct (add_DAY_bnth self q r j o n Hr Ho Hn) as (_ & Hi & _).
    pose proof (bnth_map Int32.neg q j n Hn) as Hn'.
    rewrite Hi in Hz. injection Hz as <-.
    rewrite Hn' in Hm. injection Hm as <-.
    rewrite add_then_add_neg in Hx.
    pose proof (Forall_bnth _ _ _ _ F Ho) as Hpos. cbv beta in Hpos.
    rewrite wrap32_id in Hx;
      unfold Int32.in_range, Int32.min_int, Int32.max_int in *; lia.
Qed.

(** X3.  A weekday is always between 0 and 6.  Adding [n] days moves the
    weekday of a date by [n] modulo 7 and adding weeks keeps it, as long as
    the ordinals stay within int32. *)
Theorem weekday_moves_with_days (self : DateTensor) (q : Tensor.t Z) :
  Forall (fun w => 0 <= w <= 6) (day_of_week self) /\
  (forall r i o n,
      add self (mkPeriodTensor q DAY) = Ok r ->
      Tensor.bnth (_ordinals self) i = Some o -> Tensor.bnth q i = Some n ->
      0 < o <= Int32.max_int -> Int32.in_range (o + n) ->
      exists w,
        Tensor.bnth (day_of_week self) i = Some w /\
        Tensor.bnth (day_of_week r) i = Some ((w + n) mod 7)) /\
  (forall r i o n,
      add self (mkPeriodTensor q WEEK) = Ok r ->
      Tensor.bnth (_ordinals self) i = Some o -> Tensor.bnth q i = Some n ->
      0 < o <= Int32.max_int -> Int32.in_range (7 * n) ->
      Int32.in_range (o + 7 * n) ->
      exists w,
        Tensor.bnth (day_of_week self) i = Some w /\
        Tensor.bnth (day_of_week r) i = Some w).
Proof.
  assert (forall q' r i o n,
             add self (mkPeriodTensor q' DAY) = Ok r ->
             Tensor.bnth (_ordinals self) i = Some o ->
             Tensor.bnth q' i = Some n ->
             0 < o <= Int32.max_int -> Int32.in_range (o + n) ->
             Tensor.bnth (day_of_week self) i = Some ((o - 1) mod 7) /\
             Tensor.bnth (day_of_week r) i = Some ((o + n - 1) mod 7))
    as Hday.
  { intros q' r i o n Hr Ho Hn Hpos R.
    destruct (add_DAY_bnth self q' r i o n Hr Ho Hn) as (Hp & Hi & _).
    unfold Int32.add in Hp, Hi. rewrite (wrap32_id _ R) in Hp, Hi.
    unfold day_of_week. split.
    - rewrite (bnth_map _ _ _ _ Ho). unfold Int32.floormod, Int32.sub.
      rewrite wrap32_id;
        [reflexivity
        | unfold Int32.in_range, Int32.min_int, Int32.max_int in *; lia].
    - rewrite (bnth_map _ _ _ _ Hi). unfold Int32.floormod, Int32.sub.
      rewrite wrap32_id;
        [reflexivity
        | unfold Int32.in_range, Int32.min_int, Int32.max_int in *; lia]. }
  split; [|split].
  - unfold day_of_week, Tensor.map. apply Forall_forall. intros w Hw.
    apply in_map_iff in Hw as (o & <- & _). unfold Int32.floormod.
    pose proof (Z.mod_pos_bound (Int32.sub o 1) 7 ltac:(lia)). lia.
  - intros r i o n Hr Ho Hn Hpos R.
    destruct (Hday q r i o n Hr Ho Hn Hpos R) as [H1 H2].
    exists ((o - 1) mod 7). split; [exact H1|]. rewrite H2. f_equal.
    rewrite Zplus_mod_idemp_l. f_equal. lia.
  - intros r i o n Hr Ho Hn Hpos R7 R. rewrite add_WEEK in Hr.
    assert (Tensor.bnth (Tensor.map (fun n => Int32.mul n 7) q) i =
            Some (7 * n)) as Hn'.
    { rewrite (bnth_map (fun n => Int32.mul n 7) q i n Hn).
      unfold Int32.mul. now rewrite (Z.mul_comm n 7), wrap32_id. }
    destruct (Hday _ r i o _ Hr Ho Hn' Hpos R) as [H1 H2].
    exists ((o - 1) mod 7). split; [exact H1|]. rewrite H2. f_equal.
    replace (o + 7 * n - 1) with (o - 1 + n * 7) by lia.
    apply Z_mod_plus_full.
Qed.

End Distances.

(** X4.  [days_until] is the difference of the ordinals of the two date
    tensors, target minus self, so swapping the two changes its sign; it is
    positive exactly where [self < target] holds.  Both operations succeed
    when the ordinals broadcast. *)
Theorem days_until_orders (self target : DateTensor) :
  (Tensor.compatible (_ordinals self) (ordinal target) = true ->
   is_ok (days_until self target) = true /\
   is_ok (days_until target self) = true /\
   is_ok (__lt__ self target) = true) /\
  (forall i a b,
      Tensor.bnth (_ordinals self) i = Some a ->
      Tensor.bnth (_ordinals target) i = Some b ->
      0 < a <= Int32.max_int -> 0 < b <= Int32.max_int ->
      (forall r, days_until self target = Ok r ->
                 Tensor.bnth r i = Some (b - a)) /\
      (forall r, days_until target self = Ok r ->
                 Tensor.bnth r i = Some (- (b - a))) /\
      (forall r, __lt__ self target = Ok r ->
                 Tensor.bnth r i = Some (0 <? b - a))).
Proof.
  split.
  - intros Hc. unfold days_until, __lt__, ordinal in *.
    pose proof Hc as Hc'. rewrite compatible_sym in Hc'.
    destruct (map2_ok Int32.sub _ _ Hc') as (r1 & -> & _).
    destruct (map2_ok Int32.sub _ _ Hc) as (r2 & -> & _).
    destruct (map2_ok Z.ltb _ _ Hc) as (r3 & -> & _). auto.
  - intros i a b Ha Hb Ra Rb. unfold days_until, __lt__, ordinal.
    split; [|split]; intros r Hr.
    + rewrite (map2_bnth _ _ _ _ _ _ _ Hr Hb Ha). unfold Int32.sub.
      rewrite wrap32_id;
        [reflexivity
        | unfold Int32.in_range, Int32.min_int, Int32.max_int in *; lia].
    + rewrite (map2_bnth _ _ _ _ _ _ _ Hr Ha Hb). unfold Int32.sub.
      rewrite wrap32_id;
        [f_equal; lia
        | unfold Int32.in_range, Int32.min_int, Int32.max_int in *; lia].
    + rewrite (map2_bnth _ _ _ _ _ _ _ Hr Ha Hb). f_equal.
      destruct (Z.ltb_spec a b), (Z.ltb_spec 0 (b - a)); auto; lia.
Qed.

(** ** Months and years, there and back *)

Lemma days_in_month_at_least_28 (y m : Z) :
  1 <= m <= 12 -> 28 <= days_in_month y m <= 31.
Proof.
  intros H. rewrite days_in_month_month_length by exact H.
  apply month_length_bounds.
Qed.

(** The int32 month arithmetic on values far from the int32 bounds. *)
Lemma add_months_int32_small (y mo d n : Z) :
  1 <= mo <= 12 -> Z.abs y <= 2 ^ 30 -> Z.abs n <= 2 ^ 30 ->
  add_months_int32 y mo d n =
  (y + (mo - 1 + n) / 12, (mo - 1 + n) mod 12 + 1,
   Z.min d (days_in_month (y + (mo - 1 + n) / 12) ((mo - 1 + n) mod 12 + 1))).
Proof.
  intros Hm Hy Hn. unfold add_months_int32. cbv zeta.
  rewrite (wrap32_id (mo - 1 + n))
    by (unfold Int32.in_range, Int32.min_int, Int32.max_int; lia).
  rewrite wrap32_id; [reflexivity|].
  unfold Int32.in_range, Int32.min_int, Int32.max_int.
  pose proof (Z.div_mod (mo - 1 + n) 12 ltac:(lia)).
  pose proof (Z.mod_pos_bound (mo - 1 + n) 12 ltac:(lia)). lia.
Qed.

Section MonthsAndYears.

Variable ymd_to_ordinal : Z -> Z -> Z -> Z.
Variable ordinal_to_ymd : Z -> Z * Z * Z.

Local Abbreviation add := (__add__ ymd_to_ordinal ordinal_to_ymd).
Local Abbreviation sub := (__sub__ ymd_to_ordinal ordinal_to_ymd).

(** X5.  Adding months or years never leaves the calendar within a year:
    every element of the result has its month in 1..12 and, for a positive
    day, a day between 1 and the length of that month, never more than the
    original day.  Only the year of the result is left unchecked. *)
Theorem add_keeps_month_and_day_valid (self : DateTensor) (q : Tensor.t Z)
  (r : DateTensor) (i : nat) (y mo d n : Z) :
  Tensor.bnth (_years self) i = Some y ->
  Tensor.bnth (_months self) i = Some mo ->
  Tensor.bnth (_days self) i = Some d ->
  Tensor.bnth q i = Some n ->
  0 < d ->
  (add self (mkPeriodTensor q MONTH) = Ok r \/
   (add self (mkPeriodTensor q YEAR) = Ok r /\ 1 <= mo <= 12)) ->
  exists Y M D,
    Tensor.bnth (_years r) i = Some Y /\
    Tensor.bnth (_months r) i = Some M /\
    Tensor.bnth (_days r) i = Some D /\
    1 <= M <= 12 /\ 1 <= D <= month_length Y M /\ D <= d.
Proof.
  intros Hy Hmo Hd Hn Hpos [Hr | [Hr Hm]].
  - destruct (add_months_int32 y mo d n) as [[Y M] D] eqn:E.
    destruct (add_MONTH_bnth ymd_to_ordinal ordinal_to_ymd self q r i
                y mo d n Hr Hy Hmo Hd Hn Y M D E) as (HM & H1 & H2 & H3 & _).
    exists Y, M, D.
    assert (D = Z.min d (days_in_month Y M)) as ED.
    { unfold add_months_int32 in E. cbv zeta in E.
      injection E as EY EM ED. now rewrite <- ED, EY, EM. }
    pose proof (days_in_month_at_least_28 Y M HM).
    rewrite <- (days_in_month_month_length Y M HM).
    repeat split; auto; lia.
  - destruct (add_YEAR_bnth ymd_to_ordinal ordinal_to_ymd self q r i
                y mo d n Hr Hy Hmo Hd Hn Hm) as (H1 & H2 & H3 & _).
    exists (Int32.add y n), mo, (Z.min d (days_in_month (Int32.add y n) mo)).
    pose proof (days_in_month_at_least_28 (Int32.add y n) mo Hm).
    rewrite <- (days_in_month_month_length _ mo Hm).
    repeat split; auto; lia.
Qed.

(** X6.  Subtracting the months just added gives back the year and the
    month of every element; the day comes back unchanged when it is at most
    28 and is otherwise never later than the original day (31 January plus
    and minus one month is 29 or 28 January). *)
Theorem sub_undoes_add_months (self : DateTensor) (q : Tensor.t Z)
  (r r' : DateTensor) (i : nat) (y mo d n : Z) :
  add self (mkPeriodTensor q MONTH) = Ok r ->
  sub r (mkPeriodTensor q MONTH) = Ok r' ->
  Tensor.bnth (_years self) i = Some y ->
  Tensor.bnth (_months self) i = Some mo ->
  Tensor.bnth (_days self) i = Some d ->
  Tensor.bnth q i = Some n ->
  1 <= mo <= 12 -> Z.abs y <= 2 ^ 30 -> Z.abs n <= 2 ^ 30 ->
  Tensor.bnth (_years r') i = Some y /\
  Tensor.bnth (_months r') i = Some mo /\
  exists D, Tensor.bnth (_days r') i = Some D /\ D <= d /\
            (d <= 28 -> D = d).
Proof.
  intros Hr Hr' Hy Hmo Hd Hn Hm Ry Rn.
  pose proof (add_months_int32_small y mo d n Hm Ry Rn) as E1.
  set (T := mo - 1 + n) in *.
  set (Y := y + T / 12) in *. set (M := T mod 12 + 1) in *.
  set (D1 := Z.min d (days_in_month Y M)) in *.
  assert (1 <= M <= 12) as HM
      by (subst M; pose proof (Z.mod_pos_bound T 12 ltac:(lia)); lia).
  pose proof (Z.div_mod T 12 ltac:(lia)) as HT.
  pose proof (Z.mod_pos_bound T 12 ltac:(lia)) as HT'.
  destruct (add_MONTH_bnth ymd_to_ordinal ordinal_to_ymd self q r i
              y mo d n Hr Hy Hmo Hd Hn Y M D1 E1) as (_ & H1 & H2 & H3 & _).
  unfold __sub__ in Hr'. simpl in Hr'.
  assert (Tensor.bnth (Tensor.map Int32.neg q) i = Some (- n)) as Hn'.
  { rewrite (bnth_map Int32.neg q i n Hn). unfold Int32.neg.
    rewrite wrap32_id;
      [reflexivity
      | unfold Int32.in_range, Int32.min_int, Int32.max_int; lia]. }
  assert (Z.abs Y <= 2 ^ 30 + 2 ^ 30) as RY by (subst Y T; lia).
  assert (M - 1 + - n = mo - 1 + 12 * - (T / 12)) as Em
      by (subst M T; lia).
  assert ((M - 1 + - n) / 12 = - (T / 12) /\
          (M - 1 + - n) mod 12 = mo - 1) as [Ediv Emod].
  { rewrite Em, Z.mul_comm.
    rewrite Z.div_add, Z.mod_add by lia.
    rewrite Z.div_small, Z.mod_small by lia. lia. }
  assert (add_months_int32 Y M D1 (- n) =
          (y, mo, Z.min D1 (days_in_month y mo))) as E2.
  { unfold add_months_int32. cbv zeta.
    rewrite (wrap32_id (M - 1 + - n))
      by (unfold Int32.in_range, Int32.min_int, Int32.max_int; lia).
    rewrite Ediv, Emod.
    rewrite wrap32_id
      by (unfold Int32.in_range, Int32.min_int, Int32.max_int;
          subst Y; lia).
    replace (Y + - (T / 12)) with y by (subst Y; lia).
    replace (mo - 1 + 1) with mo by lia. reflexivity. }
  destruct (add_MONTH_bnth ymd_to_ordinal ordinal_to_ymd r _ r' i
              Y M D1 (- n) Hr' H1 H2 H3 Hn' _ _ _ E2)
    as (_ & K1 & K2 & K3 & _).
  split; [exact K1|]. split; [exact K2|].
  exists (Z.min D1 (days_in_month y mo)). split; [exact K3|].
  pose proof (days_in_month_at_least_28 Y M HM).
  pose proof (days_in_month_at_least_28 y mo Hm).
  subst D1. split; lia.
Qed.

(** X7.  Subtracting the years just added gives back the year and the month
    of every element; the day comes back unchanged when it is at most 28 and
    is otherwise never later than the original day (29 February 2020 plus
    and minus one year is 28 February 2020). *)
Theorem sub_undoes_add_years (self : DateTensor) (q : Tensor.t Z)
  (r r' : DateTensor) (i : nat) (y mo d n : Z) :
  add self (mkPeriodTensor q YEAR) = Ok r ->
  sub r (mkPeriodTensor q YEAR) = Ok r' ->
  Tensor.bnth (_years self) i = Some y ->
  Tensor.bnth (_months self) i = Some mo ->
  Tensor.bnth (_days self) i = Some d ->
  Tensor.bnth q i = Some n ->
  1 <= mo <= 12 -> Int32.in_range y ->
  Tensor.bnth (_years r') i = Some y /\
  Tensor.bnth (_months r') i = Some mo /\
  exists D, Tensor.bnth (_days r') i = Some D /\ D <= d /\
            (d <= 28 -> D = d).
Proof.
  intros Hr Hr' Hy Hmo Hd Hn Hm Ry.
  destruct (add_YEAR_bnth ymd_to_ordinal ordinal_to_ymd self q r i
              y mo d n Hr Hy Hmo Hd Hn Hm) as (H1 & H2 & H3 & _).
  unfold __sub__ in Hr'. simpl in Hr'.
  pose proof (bnth_map Int32.neg q i n Hn) as Hn'.
  destruct (add_YEAR_bnth ymd_to_ordinal ordinal_to_ymd r _ r' i
              _ mo _ _ Hr' H1 H2 H3 Hn' Hm) as (K1 & K2 & K3 & _).
  rewrite add_then_add_neg, (wrap32_id y Ry) in K1, K3.
  split; [exact K1|]. split; [exact K2|].
  eexists. split; [exact K3|].
  pose proof (days_in_month_at_least_28 (Int32.add y n) mo Hm).
  pose proof (days_in_month_at_least_28 y mo Hm).
  split; lia.
Qed.

(** X8.  Adding zero months or zero years changes nothing in a valid date:
    year, month and day of the element stay as they are, and its ordinal is
    the one the calendar gives to that date. *)
Theorem add_zero_months_or_years (self : DateTensor) (q : Tensor.t Z)
  (r : DateTensor) (i : nat) (y mo d : Z) :
  Tensor.bnth (_years self) i = Some y ->
  Tensor.bnth (_months self) i = Some mo ->
  Tensor.bnth (_days self) i = Some d ->
  Tensor.bnth q i = Some 0 ->
  1 <= mo <= 12 -> Int32.in_range y -> d <= month_length y mo ->
  (add self (mkPeriodTensor q MONTH) = Ok r \/
   add self (mkPeriodTensor q YEAR) = Ok r) ->
  Tensor.bnth (_years r) i = Some y /\
  Tensor.bnth (_months r) i = Some mo /\
  Tensor.bnth (_days r) i = Some d /\
  Tensor.bnth (_ordinals r) i = Some (ymd_to_ordinal y mo d).
Proof.
  intros Hy Hmo Hd Hn Hm Ry Hlen [Hr | Hr].
  - assert (add_months_int32 y mo d 0 = (y, mo, d)) as E.
    { unfold add_months_int32. cbv zeta.
      rewrite (wrap32_id (mo - 1 + 0))
        by (unfold Int32.in_range, Int32.min_int, Int32.max_int; lia).
      replace (mo - 1 + 0) with (mo - 1) by lia.
      rewrite Z.div_small, Z.mod_small by lia.
      rewrite Z.add_0_r, (wrap32_id y Ry).
      replace (mo - 1 + 1) with mo by lia.
      rewrite days_in_month_month_length by exact Hm.
      now rewrite Z.min_l. }
    destruct (add_MONTH_bnth ymd_to_ordinal ordinal_to_ymd self q r i
                y mo d 0 Hr Hy Hmo Hd Hn y mo d E) as (_ & H1 & H2 & H3 & H4).
    auto.
  - destruct (add_YEAR_bnth ymd_to_ordinal ordinal_to_ymd self q r i
                y mo d 0 Hr Hy Hmo Hd Hn Hm) as (H1 & H2 & H3 & H4).
    unfold Int32.add in *. rewrite Z.add_0_r, (wrap32_id y Ry) in *.
    rewrite days_in_month_month_length, Z.min_l in H3, H4 by assumption.
    auto.
Qed.

End MonthsAndYears.

(** ** Laws of the comparisons *)

Lemma map2_ext {A B C : Type} (f g : A -> B -> C) (a : Tensor.t A)
  (b : Tensor.t B) :
  (forall x y, f x y = g x y) -> Tensor.map2 f a b = Tensor.map2 g a b.
Proof.
  intros H. unfold Tensor.map2.
  assert (forall a' b', Tensor.zip f a' b' = Tensor.zip g a' b') as Hz.
  { induction a' as [|x a' IH]; intros [|y b']; simpl; try reflexivity.
    now rewrite H, IH. }
  assert (forall x l, List.map (f x) l = List.map (g x) l) as Hm1
      by (intros; apply map_ext; intros; apply H).
  assert (forall y l, List.map (fun x => f x y) l =
                      List.map (fun x => g x y) l) as Hm2
      by (intros; apply map_ext; intros; apply H).
  shapes a b; simpl; rewrite ?H, ?Hz, ?Hm1, ?Hm2; reflexivity.
Qed.

Lemma zip_flip {A B C : Type} (f : A -> B -> C) (a : list A) (b : list B) :
  Tensor.zip f a b = Tensor.zip (fun y x => f x y) b a.
Proof.
  revert b. induction a as [|x a IH]; intros [|y b]; simpl; try reflexivity.
  now rewrite IH.
Qed.

Lemma map2_flip {A B C : Type} (f : A -> B -> C) (a : Tensor.t A)
  (b : Tensor.t B) :
  Tensor.map2 f a b = Tensor.map2 (fun y x => f x y) b a.
Proof.
  unfold Tensor.map2. shapes a b; try reflexivity; simpl.
  rewrite Nat.eqb_sym. destruct (Nat.eqb _ _); [|reflexivity].
  now rewrite zip_flip.
Qed.

Lemma zip_post {A B C D : Type} (f : A -> B -> C) (g : C -> D)
  (a : list A) (b : list B) :
  Tensor.zip (fun x y => g (f x y)) a b = List.map g (Tensor.zip f a b).
Proof.
  revert b. induction a as [|x a IH]; intros [|y b]; simpl; try reflexivity.
  now rewrite IH.
Qed.

Lemma map2_post {A B C D : Type} (f : A -> B -> C) (g : C -> D)
  (a : Tensor.t A) (b : Tensor.t B) :
  Tensor.map2 (fun x y => g (f x y)) a b =
  (r <- Tensor.map2 f a b ;; Ok (Tensor.map g r)).
Proof.
  unfold Tensor.map2, Tensor.map.
  shapes a b; try reflexivity; simpl; rewrite ?List.map_map;
    try reflexivity.
  destruct (Nat.eqb _ _); [|reflexivity]. simpl. now rewrite zip_post.
Qed.

(** X9.  The six comparisons are tied together as on integers: [!=] is the
    elementwise negation of [==], [<=] that of [>], [>=] that of [<];
    [a < b] is [b > a], [a <= b] is [b >= a], and [==] does not depend on
    the order of its operands.  This holds for all shapes, errors
    included. *)
Theorem comparison_laws (a b : DateTensor) :
  __ne__ a b = (r <- __eq__ a b ;; Ok (Tensor.map negb r)) /\
  __le__ a b = (r <- __gt__ a b ;; Ok (Tensor.map negb r)) /\
  __ge__ a b = (r <- __lt__ a b ;; Ok (Tensor.map negb r)) /\
  __lt__ a b = __gt__ b a /\
  __le__ a b = __ge__ b a /\
  __eq__ a b = __eq__ b a.
Proof.
  unfold __ne__, __eq__, __le__, __gt__, __ge__, __lt__, ordinal.
  repeat split.
  - apply (map2_post Z.eqb negb).
  - rewrite <- (map2_post Z.gtb negb). apply map2_ext. intros x y.
    rewrite Z.gtb_ltb. apply Z.leb_antisym.
  - rewrite <- (map2_post Z.ltb negb). apply map2_ext. intros x y.
    rewrite Z.geb_leb. apply Z.leb_antisym.
  - rewrite map2_flip. apply map2_ext. intros x y. now rewrite Z.gtb_ltb.
  - rewrite map2_flip. apply map2_ext. intros x y. now rewrite Z.geb_leb.
  - rewrite map2_flip. apply map2_ext. intros x y. apply Z.eqb_sym.
Qed.

(** ** The factories on Python values *)

Lemma mapM_map_ok {A B C : Type} (f : B -> Exc C) (g : A -> B) (h : A -> C)
  (l : list A) :
  (forall x, f (g x) = Ok (h x)) ->
  mapM f (List.map g l) = Ok (List.map h l).
Proof.
  intros H. induction l as [|x l IH]; simpl; [reflexivity|].
  now rewrite H, IH.
Qed.

(** A traversal stops at its first failure. *)
Lemma mapM_first_failure {A B : Type} (f : A -> Exc B) (e : exn)
  (l : list A) :
  (forall x, In x l -> is_ok (f x) = true \/ f x = Raise e) ->
  Exists (fun x => f x = Raise e) l -> mapM f l = Raise e.
Proof.
  induction l as [|x l IH]; intros Hall Hex; [inversion Hex|].
  simpl. destruct (Hall x (or_introl eq_refl)) as [Hok | Hr].
  - destruct (f x) as [y|] eqn:E; [|discriminate]. cbn [bind].
    rewrite IH; [reflexivity | intros; apply Hall; now right |].
    inversion Hex as [? ? Hx | ? ? Hl]; subst; [congruence | exact Hl].
  - now rewrite Hr.
Qed.

Lemma getattr_hasattr (v : PyValue) (name : string) :
  (hasattr v name = true /\ is_ok (getattr v name) = true) \/
  (hasattr v name = false /\ getattr v name = Raise (AttributeError name)).
Proof.
  destruct v; simpl; auto.
  - destruct (lookup_attr name attrs); auto.
  - destruct (is_date_tensor_method name); auto.
Qed.

Lemma read_triple_seq (items : list PyValue) :
  ((3 <= List.length items)%nat /\
   is_ok (read_triple (PySeq items)) = true) \/
  ((List.length items < 3)%nat /\
   read_triple (PySeq items) = Raise IndexError).
Proof.
  unfold read_triple.
  destruct items as [|a [|b [|c items]]]; simpl;
    [right | right | right | left]; split; auto; lia.
Qed.

Section FactoriesOnPython.

Variable ymd_to_ordinal : Z -> Z -> Z -> Z.
Variable ordinal_to_ymd : Z -> Z * Z * Z.
Variable tf_convert_to_tensor : PyValue -> Exc (Tensor.t Z).

Local Abbreviation from_ymd := (from_year_month_day ymd_to_ordinal).
Local Abbreviation datetimes :=
  (from_datetimes ymd_to_ordinal tf_convert_to_tensor).
Local Abbreviation tuples :=
  (from_tuples ymd_to_ordinal tf_convert_to_tensor).
Local Abbreviation convert :=
  (convert_to_date_tensor ymd_to_ordinal ordinal_to_ymd
     tf_convert_to_tensor).

(** The three integer lists the two factories hand to the coercion. *)
Lemma datetimes_of_objects (l : list (Z * Z * Z)) :
  datetimes (List.map as_object l) =
  (years <- tf_convert_to_tensor
              (int_list (List.map (fun t => fst (fst t)) l)) ;;
   months <- tf_convert_to_tensor
               (int_list (List.map (fun t => snd (fst t)) l)) ;;
   days <- tf_convert_to_tensor (int_list (List.map snd l)) ;;
   from_ymd years months days false).
Proof.
  unfold from_datetimes, int_list.
  rewrite (mapM_map_ok _ as_object (fun t => PyInt (fst (fst t))))
    by reflexivity. cbn [bind].
  rewrite (mapM_map_ok _ as_object (fun t => PyInt (snd (fst t))))
    by reflexivity.
  rewrite (mapM_map_ok _ as_object (fun t => PyInt (snd t)))
    by reflexivity.
  now rewrite !List.map_map.
Qed.

Lemma tuples_of_tuples (l : list (Z * Z * Z)) (validate : bool) :
  tuples (List.map as_tuple l) validate =
  (years <- tf_convert_to_tensor
              (int_list (List.map (fun t => fst (fst t)) l)) ;;
   months <- tf_convert_to_tensor
               (int_list (List.map (fun t => snd (fst t)) l)) ;;
   days <- tf_convert_to_tensor (int_list (List.map snd l)) ;;
   from_ymd years months days validate).
Proof.
  unfold from_tuples, int_list.
  rewrite (mapM_map_ok _ as_tuple
             (fun t => (PyInt (fst (fst t)), PyInt (snd (fst t)),
                        PyInt (snd t)))) by reflexivity.
  cbn [bind]. now rewrite !List.map_map.
Qed.

(** X10.  Dates given as date-like objects and the same dates given as
    (year, month, day) tuples build the same date tensor, or fail alike,
    when the tuples are not validated; through the converter the objects are
    built without validation and the tuples with it. *)
Theorem objects_and_tuples_agree (l : list (Z * Z * Z)) :
  datetimes (List.map as_object l) = tuples (List.map as_tuple l) false /\
  (l <> [] ->
   convert (PySeq (List.map as_object l)) =
   tuples (List.map as_tuple l) false /\
   convert (PySeq (List.map as_tuple l)) =
   tuples (List.map as_tuple l) true).
Proof.
  split.
  - now rewrite datetimes_of_objects, tuples_of_tuples.
  - intros Hl. destruct l as [|t l]; [contradiction|]. split.
    + change (convert (PySeq (List.map as_object (t :: l))))
        with (datetimes (List.map as_object (t :: l))).
      now rewrite datetimes_of_objects, tuples_of_tuples.
    + reflexivity.
Qed.

(** X11.  The converter looks for the [year] attribute on the first element
    only: a sequence that starts with a date-like object and holds an
    element without that attribute fails inside the datetimes factory with
    an [AttributeError], before anything is coerced or built. *)
Theorem mixed_sequence_attribute_error (x : PyValue) (rest : list PyValue) :
  hasattr x "year" = true ->
  Exists (fun v => hasattr v "year" = false) rest ->
  convert (PySeq (x :: rest)) = Raise (AttributeError "year").
Proof.
  intros Hx Hrest. simpl. rewrite Hx. unfold from_datetimes.
  rewrite (mapM_first_failure (fun dt => getattr dt "year")
             (AttributeError "year")); [reflexivity | |].
  - intros v _. destruct (getattr_hasattr v "year") as [[_ H] | [_ H]]; auto.
  - apply Exists_cons_tl. eapply Exists_impl; [|exact Hrest].
    intros v Hv. cbv beta in *.
    destruct (getattr_hasattr v "year") as [[H _] | [_ H]];
      [congruence | exact H].
Qed.

(** X12.  A sequence of sequences is read as (year, month, day) tuples: if
    one of them has fewer than three items the converter fails with an
    [IndexError], before anything is coerced or validated. *)
Theorem short_tuple_index_error (items : list PyValue)
  (rest : list PyValue) :
  Forall (fun v => is_sequence v = true) rest ->
  Exists (fun v => exists its, v = PySeq its /\ (List.length its < 3)%nat)
    (PySeq items :: rest) ->
  convert (PySeq (PySeq items :: rest)) = Raise IndexError.
Proof.
  intros Hseq Hshort. simpl. unfold from_tuples.
  change (fun t => y <- getitem t 0 ;; m <- getitem t 1 ;;
                   d <- getitem t 2 ;; Ok (y, m, d)) with read_triple.
  rewrite (mapM_first_failure read_triple IndexError); [reflexivity | |].
  - intros v [<- | Hv].
    + destruct (read_triple_seq items) as [[_ H] | [_ H]]; auto.
    + rewrite Forall_forall in Hseq. specialize (Hseq v Hv).
      destruct v as [| | | its | | | |]; try discriminate.
      destruct (read_triple_seq its) as [[_ H] | [_ H]]; auto.
  - eapply Exists_impl; [|exact Hshort].
    intros v (its & -> & Hlen). cbv beta.
    destruct (read_triple_seq its) as [[H _] | [_ H]]; [lia | exact H].
Qed.

End FactoriesOnPython.

(** ** Shapes *)

Lemma broadcast_to_size {A B : Type} (a : Tensor.t A) (like : Tensor.t B)
  (c : Tensor.t A) :
  Tensor.broadcast_to a like = Ok c -> Tensor.size c = Tensor.size like.
Proof.
  unfold Tensor.broadcast_to, Tensor.size.
  destruct a as [|x0 [|x1 a]]; intros H.
  - destruct (Nat.eqb_spec (List.length (@nil A)) (List.length like));
      [|discriminate]. ok_inv H. congruence.
  - ok_inv H. apply length_map.
  - destruct (Nat.eqb_spec (List.length (x0 :: x1 :: a)) (List.length like));
      [|discriminate]. ok_inv H. congruence.
Qed.

Lemma max_days_of_size (year month md : Tensor.t Z) :
  max_days_of year month = Ok md ->
  Tensor.size md =
  Tensor.broadcast_size (Tensor.size month) (Tensor.size year).
Proof.
  unfold max_days_of. intros H. apply bind_ok in H as (idx & Hidx & Hg).
  rewrite (gather_size _ _ _ Hg).
  destruct (map2_compatible _ _ _ _ Hidx) as [_ ->].
  unfold is_leap_year. now rewrite !size_map.
Qed.

Lemma nth_error_bnth {A : Type} (a : Tensor.t A) (i : nat) (x : A) :
  nth_error a i = Some x -> Tensor.bnth a i = Some x.
Proof.
  destruct a as [|x0 [|x1 a]]; simpl; auto.
  destruct i as [|i]; simpl; [auto | destruct i; discriminate].
Qed.

Lemma bnth_to_nth_error {A : Type} (a : Tensor.t A) (i : nat) (x : A) :
  Tensor.bnth a i = Some x -> (i < Tensor.size a)%nat ->
  nth_error a i = Some x.
Proof.
  destruct a as [|x0 [|x1 a]]; simpl; auto.
  intros H Hi. destruct i; [exact H | lia].
Qed.

Section Shapes.

Variable ymd_to_ordinal : Z -> Z -> Z -> Z.
Variable ordinal_to_ymd : Z -> Z * Z * Z.

Local Abbreviation to_ordinal := (year_month_day_to_ordinal ymd_to_ordinal).
Local Abbreviation from_ymd := (from_year_month_day ymd_to_ordinal).
Local Abbreviation from_ord := (from_ordinals ordinal_to_ymd).
Local Abbreviation add := (__add__ ymd_to_ordinal ordinal_to_ymd).
Local Abbreviation sub := (__sub__ ymd_to_ordinal ordinal_to_ymd).

Lemma to_ordinal_size (year month day o : Tensor.t Z) :
  to_ordinal year month day = Ok o ->
  Tensor.size o =
  Tensor.broadcast_size
    (Tensor.broadcast_size (Tensor.size year) (Tensor.size month))
    (Tensor.size day).
Proof.
  unfold year_month_day_to_ordinal. intros H.
  apply bind_ok in H as (ym & Hym & H).
  destruct (map2_compatible _ _ _ _ H) as [_ ->].
  now destruct (map2_compatible _ _ _ _ Hym) as [_ ->].
Qed.

Lemma adjust_day_size (year month day r : Tensor.t Z) :
  adjust_day year month day = Ok r ->
  Tensor.size r =
  Tensor.broadcast_size (Tensor.size day)
    (Tensor.broadcast_size (Tensor.size month) (Tensor.size year)).
Proof.
  unfold adjust_day. intros H. apply bind_ok in H as (md & Hmd & H).
  destruct (map2_compatible _ _ _ _ H) as [_ ->].
  now rewrite (max_days_of_size _ _ _ Hmd).
Qed.

(** X13.  Shapes are kept.  The ordinals factory always returns four tensors
    of the shape of its argument; the year/month/day factory stores its
    arguments as they are, so its result has one shape exactly when the
    three arguments have the same size; and adding or subtracting any period
    to a date tensor of one shape returns a date tensor of one shape, that
    of the date tensor and the quantity broadcast together. *)
Theorem shapes_are_kept :
  (forall o v r,
      from_ord o v = Ok r ->
      well_shaped r /\ Tensor.size (_ordinals r) = Tensor.size o) /\
  (forall y m d v r,
      from_ymd y m d v = Ok r ->
      (well_shaped r <->
       Tensor.size y = Tensor.size m /\ Tensor.size m = Tensor.size d)) /\
  (forall self p r,
      well_shaped self ->
      (add self p = Ok r \/ sub self p = Ok r) ->
      well_shaped r /\
      Tensor.size (_ordinals r) =
      Tensor.broadcast_size (Tensor.size (_ordinals self))
        (Tensor.size (quantity p))).
Proof.
  assert (forall self p r,
             well_shaped self -> add self p = Ok r ->
             well_shaped r /\
             Tensor.size (_ordinals r) =
             Tensor.broadcast_size (Tensor.size (_ordinals self))
               (Tensor.size (quantity p))) as Hadd.
  { intros self [q [| | |]] r (Wy & Wm & Wd) H; simpl.
    - destruct (add_DAY_size _ _ self q r H) as (_ & W & S). auto.
    - rewrite add_WEEK in H.
      destruct (add_DAY_size _ _ self _ r H) as (_ & W & S).
      rewrite size_map in S. auto.
    - rewrite add_MONTH in H.
      apply bind_ok in H as (mt & Hmt & H).
      apply bind_ok in H as (yt & Hyt & H). cbv zeta in H.
      apply bind_ok in H as (dt & Hdt & H).
      destruct (from_ymd_fields _ _ _ _ _ _ H) as (Ey & Em & Ed & Ho).
      destruct (map2_compatible _ _ _ _ Hmt) as [_ Smt].
      destruct (map2_compatible _ _ _ _ Hyt) as [_ Syt].
      pose proof (adjust_day_size _ _ _ _ Hdt) as Sdt.
      pose proof (to_ordinal_size _ _ _ _ Ho) as So.
      rewrite !size_map in *. rewrite Wm in Smt.
      rewrite Wy, Smt, broadcast_size_absorb in Syt.
      rewrite Wd, Smt, Syt, broadcast_size_refl, broadcast_size_absorb in Sdt.
      rewrite Syt, Smt, Sdt, !broadcast_size_refl in So.
      unfold well_shaped. rewrite Ey, Em, Ed, size_map, So, Syt, Smt, Sdt.
      auto.
    - rewrite add_YEAR in H.
      apply bind_ok in H as (yt & Hyt & H).
      apply bind_ok in H as (mt & Hmt & H).
      apply bind_ok in H as (dt & Hdt & H).
      destruct (from_ymd_fields _ _ _ _ _ _ H) as (Ey & Em & Ed & Ho).
      destruct (map2_compatible _ _ _ _ Hyt) as [_ Syt].
      pose proof (broadcast_to_size _ _ _ Hmt) as Smt.
      pose proof (adjust_day_size _ _ _ _ Hdt) as Sdt.
      pose proof (to_ordinal_size _ _ _ _ Ho) as So.
      rewrite Wy in Syt. rewrite Syt in Smt.
      rewrite Wd, Smt, Syt, broadcast_size_refl, broadcast_size_absorb in Sdt.
      rewrite Syt, Smt, Sdt, !broadcast_size_refl in So.
      unfold well_shaped. rewrite Ey, Em, Ed, So, Syt, Smt, Sdt. auto. }
  split; [|split].
  - intros o v r H. rewrite (from_ord_fields _ _ _ _ H).
    unfold well_shaped. simpl. rewrite !size_map. auto.
  - intros y m d v r H.
    destruct (from_ymd_fields _ _ _ _ _ _ H) as (Ey & Em & Ed & Ho).
    pose proof (to_ordinal_size _ _ _ _ Ho) as So.
    unfold well_shaped. rewrite Ey, Em, Ed. split.
    + intros (H1 & H2 & H3). split; congruence.
    + intros [H1 H2]. rewrite So, <- H2, <- H1, !broadcast_size_refl. auto.
  - intros self p r W [H | H]; [now apply Hadd|].
    unfold __sub__ in H. destruct (Hadd _ _ _ W H) as [Wr S].
    simpl in S. rewrite size_map in S. auto.
Qed.

(** X14.  The two factories agree: when the calendar gives back, from the
    ordinal of each (year, month, day) of the arguments, that year, month
    and day, the date tensor built from years, months and days of one size
    is also the one the ordinals factory builds from its ordinals. *)
Theorem ordinals_rebuild_the_dates (year month day : Tensor.t Z) (v : bool)
  (r : DateTensor) :
  from_ymd year month day v = Ok r ->
  Tensor.size year = Tensor.size month ->
  Tensor.size month = Tensor.size day ->
  (forall i y m d,
      nth_error year i = Some y -> nth_error month i = Some m ->
      nth_error day i = Some d ->
      ordinal_to_ymd (ymd_to_ordinal y m d) = (y, m, d)) ->
  from_ord (ordinal r) false = Ok r.
Proof.
  intros H S1 S2 Hrt.
  destruct (from_ymd_fields _ _ _ _ _ _ H) as (Ey & Em & Ed & Ho).
  pose proof (to_ordinal_size _ _ _ _ Ho) as So.
  rewrite <- S2, <- S1, !broadcast_size_refl in So.
  destruct (from_ord_cases ordinal_to_ymd (ordinal r)) as [-> _].
  unfold ordinal.
  assert (forall i, (i < Tensor.size year)%nat ->
                    exists y m d,
                      nth_error year i = Some y /\
                      nth_error month i = Some m /\
                      nth_error day i = Some d /\
                      nth_error (_ordinals r) i =
                      Some (ymd_to_ordinal y m d)) as Hel.
  { intros i Hi.
    destruct (nth_error year i) as [y|] eqn:Hy;
      [|apply nth_error_None in Hy; unfold Tensor.size in *; lia].
    destruct (nth_error month i) as [m|] eqn:Hm;
      [|apply nth_error_None in Hm; unfold Tensor.size in *; lia].
    destruct (nth_error day i) as [d|] eqn:Hd;
      [|apply nth_error_None in Hd; unfold Tensor.size in *; lia].
    exists y, m, d. repeat split.
    apply bnth_to_nth_error; [|lia].
    eapply to_ordinal_bnth; eauto using nth_error_bnth. }
  assert (forall (h : Z * Z * Z -> Z) (t : Tensor.t Z),
             Tensor.size t = Tensor.size year ->
             (forall i y m d x,
                 nth_error year i = Some y -> nth_error month i = Some m ->
                 nth_error day i = Some d -> nth_error t i = Some x ->
                 h (y, m, d) = x) ->
             Tensor.map (fun o => h (ordinal_to_ymd o)) (_ordinals r) = t)
    as Hfield.
  { intros h t St Ht. apply nth_error_ext. intros i.
    unfold Tensor.map. rewrite nth_error_map.
    destruct (Nat.lt_ge_cases i (Tensor.size year)) as [Hi | Hi].
    - destruct (Hel i Hi) as (y & m & d & Hy & Hm & Hd & Hoi).
      rewrite Hoi. simpl. rewrite (Hrt i y m d Hy Hm Hd).
      destruct (nth_error t i) as [x|] eqn:Hx;
        [|apply nth_error_None in Hx; unfold Tensor.size in *; lia].
      f_equal. eapply Ht; eauto.
    - rewrite (proj2 (nth_error_None (_ordinals r) i))
        by (unfold Tensor.size in *; lia).
      rewrite (proj2 (nth_error_None t i))
        by (unfold Tensor.size in *; lia).
      reflexivity. }
  destruct r as [o ys ms ds]. simpl in *. subst ys ms ds. f_equal. f_equal.
  - apply (Hfield (fun t => fst (fst t))); [reflexivity|].
    intros i y m d x Hy _ _ Hx. simpl. congruence.
  - apply (Hfield (fun t => snd (fst t))); [congruence|].
    intros i y m d x _ Hm _ Hx. simpl. congruence.
  - apply (Hfield snd); [congruence|].
    intros i y m d x _ _ Hd Hx. simpl. congruence.
Qed.

End Shapes.

(** ** Dates of numpy *)

Lemma wrap32_shift (z k : Z) :
  Int32.wrap32 (z + k * 2 ^ 32) = Int32.wrap32 z.
Proof.
  unfold Int32.wrap32, Int32.modulus.
  replace (z + k * 2 ^ 32 + 2 ^ 31) with (z + 2 ^ 31 + k * 2 ^ 32) by lia.
  now rewrite Z.mod_add by lia.
Qed.

Lemma wrap32_sub (a b : Z) :
  Int32.wrap32 (Int32.wrap32 a - Int32.wrap32 b) = Int32.wrap32 (a - b).
Proof.
  replace (Int32.wrap32 a - Int32.wrap32 b)
    with (Int32.wrap32 a + - Int32.wrap32 b) by lia.
  rewrite wrap32_add_l.
  assert (Int32.wrap32 b = b - ((b + 2 ^ 31) / 2 ^ 32) * 2 ^ 32) as ->.
  { unfold Int32.wrap32, Int32.modulus.
    pose proof (Z.div_mod (b + 2 ^ 31) (2 ^ 32) ltac:(lia)). lia. }
  replace (a + - (b - (b + 2 ^ 31) / 2 ^ 32 * 2 ^ 32))
    with (a - b + (b + 2 ^ 31) / 2 ^ 32 * 2 ^ 32) by lia.
  apply wrap32_shift.
Qed.

Section NumpyDates.

Variable ordinal_to_ymd : Z -> Z * Z * Z.

Local Abbreviation from_np := (from_np_datetimes ordinal_to_ymd).

Lemma from_np_ordinals (data : list Z) :
  from_np data =
  Ok (mkDateTensor
        (List.map (fun x => Int32.wrap32 (x + _ORDINAL_OF_1_1_1970)) data)
        (List.map (fun x =>
             fst (fst (ordinal_to_ymd
                         (Int32.wrap32 (x + _ORDINAL_OF_1_1_1970))))) data)
        (List.map (fun x =>
             snd (fst (ordinal_to_ymd
                         (Int32.wrap32 (x + _ORDINAL_OF_1_1_1970))))) data)
        (List.map (fun x =>
             snd (ordinal_to_ymd
                    (Int32.wrap32 (x + _ORDINAL_OF_1_1_1970)))) data)).
Proof.
  unfold from_np_datetimes.
  destruct (from_ord_cases ordinal_to_ymd
              (Tensor.map (fun x => Int32.add x _ORDINAL_OF_1_1_1970)
                 (List.map Int32.wrap32 data))) as [-> _].
  unfold Tensor.map. rewrite !List.map_map. do 2 f_equal;
    apply map_ext; intros x; unfold Int32.add; now rewrite wrap32_add_l.
Qed.

(** X15.  A numpy array of dates always converts, whatever its day counts
    (nothing is validated, dates before year 1 included), into a date tensor
    of its size.  A day count [x] becomes the ordinal [x + 719163] when that
    fits int32, and the distance in days between two converted dates is the
    difference of their day counts: the epoch shift cancels. *)
Theorem numpy_dates_become_ordinals (data : list Z) :
  exists r,
    from_np data = Ok r /\ well_shaped r /\
    Tensor.size (_ordinals r) = List.length data /\
    (forall i x,
        nth_error data i = Some x ->
        Int32.in_range (x + _ORDINAL_OF_1_1_1970) ->
        nth_error (_ordinals r) i = Some (x + _ORDINAL_OF_1_1_1970)) /\
    (forall data' r' u i x x',
        from_np data' = Ok r' -> days_until r r' = Ok u ->
        nth_error data i = Some x -> nth_error data' i = Some x' ->
        Int32.in_range (x' - x) ->
        Tensor.bnth u i = Some (x' - x)).
Proof.
  eexists. split; [apply from_np_ordinals|].
  unfold well_shaped, Tensor.size. simpl. rewrite !length_map.
  split; [auto|]. split; [reflexivity|]. split.
  - intros i x Hx R. rewrite nth_error_map, Hx. simpl.
    now rewrite wrap32_id.
  - intros data' r' u i x x' Hr' Hu Hx Hx' R.
    rewrite from_np_ordinals in Hr'. ok_inv Hr'.
    unfold days_until, ordinal in Hu. simpl in Hu.
    erewrite (map2_bnth _ _ _ _ i _ _ Hu).
    + unfold Int32.sub. rewrite wrap32_sub. f_equal.
      replace (x' + _ORDINAL_OF_1_1_1970 - (x + _ORDINAL_OF_1_1_1970))
        with (x' - x) by lia.
      now apply wrap32_id.
    + apply nth_error_bnth. rewrite nth_error_map, Hx'. reflexivity.
    + apply nth_error_bnth. rewrite nth_error_map, Hx. reflexivity.
Qed.

End NumpyDates.

(** ** The hooks of the tensor wrapper *)

Lemma select_map {A : Type} (g : A -> Z) (d0 : A) (l : list A)
  (sel : list nat) :
  Forall (fun i => (i < List.length l)%nat) sel ->
  List.map (fun i => nth i (List.map g l) 0) sel =
  List.map g (List.map (fun i => nth i l d0) sel).
Proof.
  intros F. rewrite List.map_map. apply map_ext_in. intros i Hi.
  rewrite Forall_forall in F. specialize (F i Hi).
  rewrite (nth_indep _ 0 (g d0)) by now rewrite length_map.
  apply map_nth.
Qed.

(** X16.  An operation that picks its result by position (reversal,
    slicing, masking, gathering), applied through [_apply_op], keeps the
    four tensors of a date tensor in step: the result has one shape and each
    of its ordinals is still the ordinal of its year, month and day. *)
Theorem apply_op_keeps_in_step (to_ordinal : Z -> Z -> Z -> Z)
  (self : DateTensor) (op_fn : Tensor.t Z -> Exc (Tensor.t Z)) :
  in_step to_ordinal self ->
  positional (Tensor.size (_ordinals self)) op_fn ->
  exists r, _apply_op self op_fn = Ok r /\ in_step to_ordinal r.
Proof.
  intros (l & Ey & Em & Ed & Eo) (sel & F & Hop).
  assert (Tensor.size (_ordinals self) = List.length l) as Sl
      by (rewrite Eo; apply length_map).
  rewrite Sl in F, Hop.
  unfold _apply_op.
  rewrite (Hop (_ordinals self)), (Hop (_years self)),
    (Hop (_months self)), (Hop (_days self))
    by (rewrite ?Eo, ?Ey, ?Em, ?Ed; apply length_map).
  cbn [bind]. eexists. split; [reflexivity|].
  exists (List.map (fun i => nth i l (0, 0, 0)) sel). simpl.
  rewrite Ey, Em, Ed, Eo. repeat split; now apply select_map.
Qed.

Lemma in_step_concat (to_ordinal : Z -> Z -> Z -> Z) (ws : list DateTensor) :
  Forall (in_step to_ordinal) ws ->
  exists l : list (Z * Z * Z),
    List.concat (List.map year ws) = List.map (fun t => fst (fst t)) l /\
    List.concat (List.map month ws) = List.map (fun t => snd (fst t)) l /\
    List.concat (List.map day ws) = List.map snd l /\
    List.concat (List.map ordinal ws) =
    List.map (fun t => to_ordinal (fst (fst t)) (snd (fst t)) (snd t)) l /\
    List.length l = list_sum (List.map Tensor.size (List.map ordinal ws)).
Proof.
  induction 1 as [|w ws (l & Ey & Em & Ed & Eo) _ (ls & Hy & Hm & Hd & Ho & Hs)].
  - exists []. simpl. auto.
  - exists (l ++ ls)%list. simpl. unfold year, month, day, ordinal in *.
    rewrite Ey, Em, Ed, Eo, Hy, Hm, Hd, Ho, !List.map_app.
    repeat split; auto.
    rewrite length_app, Hs. unfold Tensor.size. now rewrite length_map.
Qed.

(** X17.  An operation that picks its result by position in the
    concatenation of its arguments (concatenation, stacking), applied
    through [_apply_sequence_to_tensor_op] to date tensors that are in step
    and of the same sizes in their four tensors, returns a date tensor that
    is in step. *)
Theorem apply_sequence_op_keeps_in_step (to_ordinal : Z -> Z -> Z -> Z)
  (ws : list DateTensor)
  (op_fn : list (Tensor.t Z) -> Exc (Tensor.t Z)) :
  Forall (in_step to_ordinal) ws ->
  positional_on_sequence (List.map Tensor.size (List.map ordinal ws)) op_fn ->
  exists r,
    _apply_sequence_to_tensor_op op_fn ws = Ok r /\ in_step to_ordinal r.
Proof.
  intros Hws (sel & F & Hop).
  destruct (in_step_concat to_ordinal ws Hws)
    as (l & Hy & Hm & Hd & Ho & Hl).
  rewrite <- Hl in F.
  assert (forall field : DateTensor -> Tensor.t Z,
             (forall w, in_step to_ordinal w ->
                        Tensor.size (field w) = Tensor.size (ordinal w)) ->
             List.map Tensor.size (List.map field ws) =
             List.map Tensor.size (List.map ordinal ws)) as Hsizes.
  { intros field Hf. rewrite !List.map_map. apply map_ext_in.
    intros w Hw. apply Hf. rewrite Forall_forall in Hws. auto. }
  unfold _apply_sequence_to_tensor_op.
  rewrite (Hop (List.map ordinal ws)) by reflexivity.
  rewrite (Hop (List.map year ws)), (Hop (List.map month ws)),
    (Hop (List.map day ws));
    try (apply Hsizes; intros w (lw & Ey & Em & Ed & Eo);
         unfold year, month, day, ordinal, Tensor.size;
         rewrite ?Ey, ?Em, ?Ed, ?Eo, !length_map; reflexivity).
  cbn [bind]. eexists. split; [reflexivity|].
  exists (List.map (fun i => nth i l (0, 0, 0)) sel). simpl.
  rewrite Hy, Hm, Hd, Ho. repeat split; now apply select_map.
Qed.

(** ** More runs on concrete dates *)

Lemma period_length_of_days_and_weeks_witness :
  exists r,
    period_length_in_days Gregorian.ymd_to_ordinal Gregorian.ordinal_to_ymd
      (mkDateTensor [737484] [2020] [2] [29]) (mkPeriodTensor [3] DAY) = Ok r /\
    Tensor.bnth r 0 = Some 3.
Proof.
  destruct (period_length_of_days_and_weeks Gregorian.ymd_to_ordinal
              Gregorian.ordinal_to_ymd
              (mkDateTensor [737484] [2020] [2] [29]) [3])
    as (Hex & Hd & _).
  assert (Concrete.add (mkDateTensor [737484] [2020] [2] [29])
            (mkPeriodTensor [3] DAY) =
          Ok (mkDateTensor [737487] [2020] [3] [3])) as Hadd
      by (vm_compute; reflexivity).
  destruct (Hex _ Hadd) as [r Hr]. exists r. split; [exact Hr|].
  apply (Hd r 0%nat 737484 3 Hr eq_refl eq_refl).
  vm_compute. split; discriminate.
Defined.

Lemma sub_undoes_add_days_witness :
  exists r',
    Concrete.sub (mkDateTensor [737487] [2020] [3] [3])
      (mkPeriodTensor [3] DAY) = Ok r' /\
    Tensor.bnth (_ordinals r') 0 = Some 737484.
Proof.
  assert (Concrete.add (mkDateTensor [737484] [2020] [2] [29])
            (mkPeriodTensor [3] DAY) =
          Ok (mkDateTensor [737487] [2020] [3] [3])) as Hadd
      by (vm_compute; reflexivity).
  destruct (sub_undoes_add_days Gregorian.ymd_to_ordinal
              Gregorian.ordinal_to_ymd _ _ _ Hadd) as (Hel & Hok).
  destruct Hok as [r' Hr'].
  { repeat constructor; vm_compute; discriminate. }
  exists r'. split; [exact Hr'|].
  apply (Hel r' 0%nat 737484 3 Hr' eq_refl eq_refl).
  vm_compute. split; discriminate.
Defined.

Lemma weekday_moves_with_days_witness :
  exists w,
    Tensor.bnth (day_of_week (mkDateTensor [737484] [2020] [2] [29])) 0 =
    Some w /\
    Tensor.bnth (day_of_week (mkDateTensor [737487] [2020] [3] [3])) 0 =
    Some ((w + 3) mod 7).
Proof.
  destruct (weekday_moves_with_days Gregorian.ymd_to_ordinal
              Gregorian.ordinal_to_ymd
              (mkDateTensor [737484] [2020] [2] [29]) [3]) as (_ & Hd & _).
  assert (Concrete.add (mkDateTensor [737484] [2020] [2] [29])
            (mkPeriodTensor [3] DAY) =
          Ok (mkDateTensor [737487] [2020] [3] [3])) as Hadd
      by (vm_compute; reflexivity).
  assert (0 < 737484 <= Int32.max_int) as Hpos
      by (vm_compute; split; [reflexivity | discriminate]).
  assert (Int32.in_range (737484 + 3)) as Hr
      by (vm_compute; split; discriminate).
  exact (Hd _ 0%nat 737484 3 Hadd eq_refl eq_refl Hpos Hr).
Defined.

Lemma days_until_orders_witness :
  days_until (mkDateTensor [737484] [2020] [2] [29])
    (mkDateTensor [737487] [2020] [3] [3]) = Ok [3] /\
  Tensor.bnth [3] 0 = Some (737487 - 737484).
Proof.
  destruct (days_until_orders (mkDateTensor [737484] [2020] [2] [29])
              (mkDateTensor [737487] [2020] [3] [3])) as (_ & Hel).
  assert (0 < 737484 <= Int32.max_int) as Ha
      by (vm_compute; split; [reflexivity | discriminate]).
  assert (0 < 737487 <= Int32.max_int) as Hb
      by (vm_compute; split; [reflexivity | discriminate]).
  split; [reflexivity|].
  exact (proj1 (Hel 0%nat 737484 737487 eq_refl eq_refl Ha Hb) [3] eq_refl).
Defined.

Lemma add_keeps_month_and_day_valid_witness :
  exists Y M D,
    Tensor.bnth [2021] 0 = Some Y /\ Tensor.bnth [2] 0 = Some M /\
    Tensor.bnth [28] 0 = Some D /\
    1 <= M <= 12 /\ 1 <= D <= month_length Y M /\ D <= 31.
Proof.
  assert (Concrete.add (mkDateTensor [737790] [2020] [12] [31])
            (mkPeriodTensor [2] MONTH) =
          Ok (mkDateTensor [737849] [2021] [2] [28])) as Hadd
      by (vm_compute; reflexivity).
  exact (add_keeps_month_and_day_valid Gregorian.ymd_to_ordinal
           Gregorian.ordinal_to_ymd
           (mkDateTensor [737790] [2020] [12] [31]) [2]
           (mkDateTensor [737849] [2021] [2] [28]) 0%nat 2020 12 31 2
           eq_refl eq_refl eq_refl eq_refl eq_refl (or_introl Hadd)).
Defined.

Lemma sub_undoes_add_months_witness :
  Tensor.bnth [2020] 0 = Some 2020 /\ Tensor.bnth [1] 0 = Some 1 /\
  exists D, Tensor.bnth [29] 0 = Some D /\ D <= 31 /\ (31 <= 28 -> D = 31).
Proof.
  assert (Concrete.add (mkDateTensor [737455] [2020] [1] [31])
            (mkPeriodTensor [1] MONTH) =
          Ok (mkDateTensor [737484] [2020] [2] [29])) as Hadd
      by (vm_compute; reflexivity).
  assert (Concrete.sub (mkDateTensor [737484] [2020] [2] [29])
            (mkPeriodTensor [1] MONTH) =
          Ok (mkDateTensor [737453] [2020] [1] [29])) as Hsub
      by (vm_compute; reflexivity).
  assert (1 <= 1 <= 12) as Hm by lia.
  assert (Z.abs 2020 <= 2 ^ 30) as Hy by (vm_compute; discriminate).
  assert (Z.abs 1 <= 2 ^ 30) as Hn by (vm_compute; discriminate).
  exact (sub_undoes_add_months Gregorian.ymd_to_ordinal
           Gregorian.ordinal_to_ymd _ _ _ _ 0%nat 2020 1 31 1 Hadd Hsub
           eq_refl eq_refl eq_refl eq_refl Hm Hy Hn).
Defined.

Lemma sub_undoes_add_years_witness :
  Tensor.bnth [2020] 0 = Some 2020 /\ Tensor.bnth [2] 0 = Some 2 /\
  exists D, Tensor.bnth [28] 0 = Some D /\ D <= 29 /\ (29 <= 28 -> D = 29).
Proof.
  assert (Concrete.add (mkDateTensor [737484] [2020] [2] [29])
            (mkPeriodTensor [1] YEAR) =
          Ok (mkDateTensor [737849] [2021] [2] [28])) as Hadd
      by (vm_compute; reflexivity).
  assert (Concrete.sub (mkDateTensor [737849] [2021] [2] [28])
            (mkPeriodTensor [1] YEAR) =
          Ok (mkDateTensor [737483] [2020] [2] [28])) as Hsub
      by (vm_compute; reflexivity).
  assert (1 <= 2 <= 12) as Hm by lia.
  assert (Int32.in_range 2020) as Hy by (vm_compute; split; discriminate).
  exact (sub_undoes_add_years Gregorian.ymd_to_ordinal
           Gregorian.ordinal_to_ymd _ _ _ _ 0%nat 2020 2 29 1 Hadd Hsub
           eq_refl eq_refl eq_refl eq_refl Hm Hy).
Defined.

Lemma add_zero_months_or_years_witness :
  Tensor.bnth [2020] 0 = Some 2020 /\ Tensor.bnth [2] 0 = Some 2 /\
  Tensor.bnth [29] 0 = Some 29 /\
  Tensor.bnth [737484] 0 = Some (Gregorian.ymd_to_ordinal 2020 2 29).
Proof.
  assert (Concrete.add (mkDateTensor [737484] [2020] [2] [29])
            (mkPeriodTensor [0] MONTH) =
          Ok (mkDateTensor [737484] [2020] [2] [29])) as Hadd
      by (vm_compute; reflexivity).
  assert (1 <= 2 <= 12) as Hm by lia.
  assert (Int32.in_range 2020) as Hy by (vm_compute; split; discriminate).
  assert (29 <= month_length 2020 2) as Hlen by (vm_compute; discriminate).
  exact (add_zero_months_or_years Gregorian.ymd_to_ordinal
           Gregorian.ordinal_to_ymd
           (mkDateTensor [737484] [2020] [2] [29]) [0]
           (mkDateTensor [737484] [2020] [2] [29]) 0%nat 2020 2 29
           eq_refl eq_refl eq_refl eq_refl Hm Hy Hlen (or_introl Hadd)).
Defined.

Lemma objects_and_tuples_agree_witness :
  Concrete.convert (PySeq [as_object (2019, 2, 29)]) =
  from_tuples Gregorian.ymd_to_ordinal TfRuntime.convert_to_tensor
    [as_tuple (2019, 2, 29)] false /\
  Concrete.convert (PySeq [as_tuple (2019, 2, 29)]) =
  from_tuples Gregorian.ymd_to_ordinal TfRuntime.convert_to_tensor
    [as_tuple (2019, 2, 29)] true.
Proof.
  apply (objects_and_tuples_agree Gregorian.ymd_to_ordinal
           Gregorian.ordinal_to_ymd TfRuntime.convert_to_tensor
           [(2019, 2, 29)]).
  discriminate.
Defined.

Lemma mixed_sequence_attribute_error_witness :
  Concrete.convert (PySeq [as_object (2020, 1, 31); PyInt 5]) =
  Raise (AttributeError "year").
Proof.
  apply (mixed_sequence_attribute_error Gregorian.ymd_to_ordinal
           Gregorian.ordinal_to_ymd TfRuntime.convert_to_tensor
           (as_object (2020, 1, 31)) [PyInt 5]).
  - reflexivity.
  - constructor. reflexivity.
Defined.

Lemma short_tuple_index_error_witness :
  Concrete.convert
    (PySeq [PySeq [PyInt 2020; PyInt 1; PyInt 31];
            PySeq [PyInt 2020; PyInt 1]]) = Raise IndexError.
Proof.
  apply (short_tuple_index_error Gregorian.ymd_to_ordinal
           Gregorian.ordinal_to_ymd TfRuntime.convert_to_tensor
           [PyInt 2020; PyInt 1; PyInt 31] [PySeq [PyInt 2020; PyInt 1]]).
  - repeat constructor.
  - apply Exists_cons_tl. constructor.
    exists [PyInt 2020; PyInt 1]. split; [reflexivity | simpl; lia].
Defined.

Lemma shapes_are_kept_witness :
  well_shaped (mkDateTensor [737545; 737576] [2020; 2020] [4; 5] [30; 31]) /\
  Tensor.size [737545; 737576] = Tensor.broadcast_size 1 2.
Proof.
  destruct (shapes_are_kept Gregorian.ymd_to_ordinal
              Gregorian.ordinal_to_ymd) as (_ & _ & Hadd).
  assert (Concrete.add (mkDateTensor [737515] [2020] [3] [31])
            (mkPeriodTensor [1; 2] MONTH) =
          Ok (mkDateTensor [737545; 737576] [2020; 2020] [4; 5] [30; 31]))
    as H by (vm_compute; reflexivity).
  assert (well_shaped (mkDateTensor [737515] [2020] [3] [31])) as W
      by (repeat split).
  exact (Hadd _ _ _ W (or_introl H)).
Defined.

Lemma ordinals_rebuild_the_dates_witness :
  Concrete.from_ord [737484; 737849] false =
  Ok (mkDateTensor [737484; 737849] [2020; 2021] [2; 2] [29; 28]).
Proof.
  assert (Concrete.from_ymd [2020; 2021] [2; 2] [29; 28] true =
          Ok (mkDateTensor [737484; 737849] [2020; 2021] [2; 2] [29; 28]))
    as H by (vm_compute; reflexivity).
  apply (ordinals_rebuild_the_dates Gregorian.ymd_to_ordinal
           Gregorian.ordinal_to_ymd [2020; 2021] [2; 2] [29; 28] true
           (mkDateTensor [737484; 737849] [2020; 2021] [2; 2] [29; 28])
           H eq_refl eq_refl).
  intros [|[|i]] y m d Hy Hm Hd; simpl in *;
    try (destruct i; discriminate);
    injection Hy as <-; injection Hm as <-; injection Hd as <-;
    reflexivity.
Defined.

Lemma numpy_dates_become_ordinals_witness :
  exists r,
    from_np_datetimes Gregorian.ordinal_to_ymd [0; -1] = Ok r /\
    nth_error (_ordinals r) 0 = Some 719163 /\
    nth_error (_ordinals r) 1 = Some 719162.
Proof.
  destruct (numpy_dates_become_ordinals Gregorian.ordinal_to_ymd [0; -1])
    as (r & Hr & _ & _ & Hel & _).
  exists r. split; [exact Hr|]. split.
  - apply (Hel 0%nat 0 eq_refl). vm_compute. split; discriminate.
  - apply (Hel 1%nat (-1) eq_refl). vm_compute. split; discriminate.
Defined.

Lemma apply_op_keeps_in_step_witness :
  exists r,
    _apply_op (mkDateTensor [737484; 737849] [2020; 2021] [2; 2] [29; 28])
      (fun t => Ok (rev t)) = Ok r /\
    in_step Gregorian.ymd_to_ordinal r.
Proof.
  apply (apply_op_keeps_in_step Gregorian.ymd_to_ordinal).
  - exists [(2020, 2, 29); (2021, 2, 28)]. repeat split.
  - exists [1%nat; 0%nat]. split; [repeat constructor|].
    intros [|a [|b [|c t]]] Ht; try discriminate Ht. reflexivity.
Defined.

Lemma apply_sequence_op_keeps_in_step_witness :
  exists r,
    _apply_sequence_to_tensor_op (fun ts => Ok (List.concat ts))
      [mkDateTensor [737484] [2020] [2] [29];
       mkDateTensor [737849] [2021] [2] [28]] = Ok r /\
    in_step Gregorian.ymd_to_ordinal r.
Proof.
  apply (apply_sequence_op_keeps_in_step Gregorian.ymd_to_ordinal).
  - constructor; [exists [(2020, 2, 29)] | constructor;
                   [exists [(2021, 2, 28)] | constructor]];
      repeat split.
  - exists [0%nat; 1%nat]. split; [repeat constructor|].
    intros [|[|a [|a' t1]] [|[|b [|b' t2]] [|t3 ts]]] Ht;
      try discriminate Ht. reflexivity.
Defined.
